(** * TrustRail: trust evaluation, mock backend and instalment schedule

    A shallow embedding of the parts of the TrustRail front end that carry
    business rules:

    - [src/types/api.ts]: the records exchanged with the backend;
    - [src/services/mockApi.ts]: the in-memory mock backend (trust score,
      decision mapping, business registration, application submission,
      notifications, trust rules);
    - the customer payment page: [getInstalmentSchedule];
    - the trust rules page: [getTrustStateName] and the mapping between the
      API record and the page's own rule record;
    - the [payment_rules] table of the first SQL migration and the row the
      registration page inserts into it.

    JavaScript numbers are modelled by their mathematical values where only
    comparisons with integer constants and integer additions are performed
    (scores are [Z], amounts of an application are [Q]: every finite
    binary64 value is a rational and comparisons are exact).  The schedule
    generator divides and multiplies, so it is written once over a small
    arithmetic interface and instantiated both at binary64 ([PrimFloat], the
    arithmetic the page really runs) and at [Q] (exact arithmetic). *)

From Stdlib Require Import ZArith QArith Qround Qabs Lqa Floats Lia List Ascii String.
From stdpp Require Import gmap strings.

Local Open Scope Z_scope.
Local Open Scope string_scope.

(** ** JavaScript values that matter here *)

Module Js.

(** Truthiness of an optional string ([undefined] and [''] are falsy). *)
Definition truthy_string (o : option string) : bool :=
  match o with
  | Some s => negb (String.eqb s "")
  | None => false
  end.

(** Truthiness of an optional number.  A request body travels as JSON, so
    the number is finite when present; [undefined], [null] (what JSON makes
    of [NaN]) and [0] are falsy. *)
Definition truthy_number (o : option Q) : bool :=
  match o with
  | Some q => negb (Qeq_bool q 0)
  | None => false
  end.

(** [a || b] on optional numbers. *)
Definition or_number (a b : option Q) : option Q :=
  if truthy_number a then a else b.

(** [x < y] on numbers. *)
Definition lt (x y : Q) : bool := negb (Qle_bool y x).

Definition is_space (c : ascii) : bool :=
  let n := nat_of_ascii c in
  (Nat.eqb n 32 || (Nat.leb 9 n && Nat.leb n 13))%bool.

Definition lower_char (c : ascii) : ascii :=
  let n := nat_of_ascii c in
  if (Nat.leb 65 n && Nat.leb n 90)%bool then ascii_of_nat (n + 32) else c.

(** [s.toLowerCase()], on the ASCII range. *)
Fixpoint toLowerCase (s : string) : string :=
  match s with
  | EmptyString => EmptyString
  | String c r => String (lower_char c) (toLowerCase r)
  end.

(** [s.replace(/\s+/g, '-')], on ASCII white space. *)
Fixpoint replace_spaces (in_run : bool) (s : string) : string :=
  match s with
  | EmptyString => EmptyString
  | String c r =>
      if is_space c
      then (if in_run then replace_spaces true r
            else String "-" (replace_spaces true r))
      else String c (replace_spaces false r)
  end.

(** [s.replace(a, b)] for one-character strings: first occurrence only. *)
Fixpoint replace_first (a b : ascii) (s : string) : string :=
  match s with
  | EmptyString => EmptyString
  | String c r =>
      if Ascii.eqb c a then String b r else String c (replace_first a b r)
  end.

(** *** More of the string and number operations the pages use *)

Definition is_digit (c : ascii) : bool :=
  let n := nat_of_ascii c in
  (Nat.leb 48 n && Nat.leb n 57)%bool.

(** [s.replace(/\D/g, '')] *)
Fixpoint remove_non_digits (s : string) : string :=
  match s with
  | EmptyString => EmptyString
  | String c r =>
      if is_digit c then String c (remove_non_digits r) else remove_non_digits r
  end.

(** [s.slice(0, n)] *)
Fixpoint slice_to (n : nat) (s : string) : string :=
  match n, s with
  | S n', String c r => String c (slice_to n' r)
  | _, _ => EmptyString
  end.

Fixpoint all_digits (s : string) : bool :=
  match s with
  | EmptyString => true
  | String c r => (is_digit c && all_digits r)%bool
  end.

(** [/^\d{n}$/.test(s)] *)
Definition is_n_digits (n : nat) (s : string) : bool :=
  (all_digits s && Nat.eqb (String.length s) n)%bool.

(** [!s.trim()]: nothing but white space (ASCII white space, as above). *)
Fixpoint blank (s : string) : bool :=
  match s with
  | EmptyString => true
  | String c r => (is_space c && blank r)%bool
  end.

Definition is_slug_char (c : ascii) : bool :=
  let n := nat_of_ascii c in
  ((Nat.leb 97 n && Nat.leb n 122) || is_digit c || Nat.eqb n 45)%bool.

(** [s.replace(/[^a-z0-9-]/g, '')] *)
Fixpoint keep_slug_chars (s : string) : string :=
  match s with
  | EmptyString => EmptyString
  | String c r =>
      if is_slug_char c then String c (keep_slug_chars r) else keep_slug_chars r
  end.

(** Every character is in the ASCII range, where the operations above are
    those of JavaScript. *)
Fixpoint is_ascii (s : string) : bool :=
  match s with
  | EmptyString => true
  | String c r => (Nat.ltb (nat_of_ascii c) 128 && is_ascii r)%bool
  end.

(** [/\S+@\S+\.\S+/.test(s)].  After an [@] that follows a non-space
    character there must come a run of non-space characters that holds,
    after its first character, a dot followed by a non-space character. *)
Fixpoint dot_then_nonspace (s : string) : bool :=
  match s with
  | EmptyString => false
  | String c r =>
      if is_space c then false
      else
        ((Ascii.eqb c "."
          && match r with
             | String d _ => negb (is_space d)
             | EmptyString => false
             end)
         || dot_then_nonspace r)%bool
  end.

Definition after_at (s : string) : bool :=
  match s with
  | EmptyString => false
  | String c r => (negb (is_space c) && dot_then_nonspace r)%bool
  end.

Fixpoint email_scan (after_nonspace : bool) (s : string) : bool :=
  match s with
  | EmptyString => false
  | String c r =>
      ((after_nonspace && Ascii.eqb c "@" && after_at r)
       || email_scan (negb (is_space c)) r)%bool
  end.

Definition looks_like_email (s : string) : bool := email_scan false s.

(** The binary64 number of an integer (exact below 2^53). *)
Definition float_of_Z (z : Z) : float :=
  if (z <? 0)%Z then PrimFloat.opp (PrimFloat.of_uint63 (Uint63.of_Z (- z)))
  else PrimFloat.of_uint63 (Uint63.of_Z z).

(** [Math.round(x)]: the integer nearest to [x], halves going up.  A number
    with a non-negative binary exponent is an integer already; a negative
    number that rounds to zero gives [-0]; infinities and [NaN] are
    returned as they are. *)
Definition Math_round (x : float) : float :=
  match Prim2SF x with
  | S754_finite s m e =>
      if (0 <=? e)%Z then x
      else
        let v := (inject_Z (Z.pos m) * Qpower 2 e)%Q in
        let r := Qfloor ((if s then Qopp v else v) + (1 # 2))%Q in
        if ((r =? 0)%Z && s)%bool then (-0)%float else float_of_Z r
  | _ => x
  end.

(** [/^[a-z0-9-]*$/.test(s)] *)
Fixpoint only_slug_chars (s : string) : bool :=
  match s with
  | EmptyString => true
  | String c r => (is_slug_char c && only_slug_chars r)%bool
  end.

(** [s.split('/').pop()]: what follows the last slash. *)
Fixpoint last_segment_from (current : string) (s : string) : string :=
  match s with
  | EmptyString => current
  | String c r =>
      if Ascii.eqb c "/" then last_segment_from r r else last_segment_from current r
  end.

Definition last_segment (s : string) : string := last_segment_from s s.

Fixpoint has_slash (s : string) : bool :=
  match s with
  | EmptyString => false
  | String c r => (Ascii.eqb c "/" || has_slash r)%bool
  end.

(** *** What the router of the mock does with an endpoint *)

(** The rest of [s] after [p], when [s] starts with [p]. *)
Fixpoint after_prefix (p s : string) : option string :=
  match p, s with
  | EmptyString, _ => Some s
  | String a p', String c s' => if Ascii.eqb a c then after_prefix p' s' else None
  | String _ _, EmptyString => None
  end.

(** [s.startsWith(p)] *)
Definition startsWith (s p : string) : bool :=
  match after_prefix p s with
  | Some _ => true
  | None => false
  end.

(** [s.includes(p)] *)
Fixpoint includes (s p : string) : bool :=
  (startsWith s p
   || match s with
      | String _ r => includes r p
      | EmptyString => false
      end)%bool.

(** [s.split('/')] *)
Fixpoint split_slash (s : string) : list string :=
  match s with
  | EmptyString => EmptyString :: nil
  | String c r =>
      if Ascii.eqb c "/" then EmptyString :: split_slash r
      else
        match split_slash r with
        | first :: others => String c first :: others
        | nil => String c EmptyString :: nil
        end
  end.

(** [s.split('/')[n]], [None] for [undefined]. *)
Definition segment (n : nat) (s : string) : option string :=
  List.nth_error (split_slash s) n.

(** [s] from its first slash on; empty when it has none. *)
Fixpoint from_first_slash (s : string) : string :=
  match s with
  | EmptyString => EmptyString
  | String c r => if Ascii.eqb c "/" then s else from_first_slash r
  end.

(** [/^[^/]+TAIL$/.test(s)], for a [tail] that is empty or begins with a
    slash: one character or more other than a slash, then [tail], then the
    end. *)
Definition is_segment_then (tail s : string) : bool :=
  match s with
  | EmptyString => false
  | String c _ => (negb (Ascii.eqb c "/") && String.eqb (from_first_slash s) tail)%bool
  end.

(** [/PREFIX[^/]+TAIL$/.test(s)]: the pattern is not anchored at the start,
    so it may begin anywhere in [s]. *)
Fixpoint matches_segment (prefix tail s : string) : bool :=
  (match after_prefix prefix s with
   | Some rest => is_segment_then tail rest
   | None => false
   end
   || match s with
      | String _ r => matches_segment prefix tail r
      | EmptyString => false
      end)%bool.

(** The characters of an identifier made by [crypto.randomUUID()]: the
    hexadecimal digits in lower case and the dash. *)
Definition is_uuid_char (c : ascii) : bool :=
  let n := nat_of_ascii c in
  (is_digit c || (Nat.leb 97 n && Nat.leb n 102) || Nat.eqb n 45)%bool.

Fixpoint uuid_chars (s : string) : bool :=
  match s with
  | EmptyString => true
  | String c r => (is_uuid_char c && uuid_chars r)%bool
  end.

(** [word] has, before any slash, a character that no such identifier has:
    an identifier followed by a slash or by nothing does not begin with
    [word]. *)
Fixpoint leaves_uuid_chars (word : string) : bool :=
  match word with
  | EmptyString => false
  | String a r =>
      if Ascii.eqb a "/" then false
      else if is_uuid_char a then leaves_uuid_chars r else true
  end.

End Js.

(** ** [src/types/api.ts] *)

Inductive PaymentType := INSTALMENT | SUBSCRIPTION.

Inductive Status := approved | under_review | declined.

Definition Status_to_string (s : Status) : string :=
  match s with
  | approved => "approved"
  | under_review => "under_review"
  | declined => "declined"
  end.

Inductive VerificationStatus := pending | verified | rejected.

Inductive NotificationType :=
| payment_received
| trust_score_updated
| customer_added
| application_approved
| application_declined
| application_under_review.

Module PaymentApplicationData.
Record t := mk {
  business_id : string;
  customer_name : string;
  customer_email : string;
  customer_phone : string;
  customer_bvn : option string;
  service_description : string;
  payment_type : PaymentType;
  total_amount : option Q;
  recurring_amount : option Q;
  commitment_months : option Q;
  payment_frequency : string;
  preferred_start_date : string;
  bank_name : string;
  account_number : string;
  account_name : string
}.
End PaymentApplicationData.

Module PaymentApplication.
(** [PaymentApplication extends PaymentApplicationData]: the inherited
    fields are kept together in [data]. *)
Record t := mk {
  id : string;
  data : PaymentApplicationData.t;
  status : Status;
  trust_score : Z;
  created_at : string;
  updated_at : string
}.
End PaymentApplication.

Module RegisterBusinessData.
Record t := mk {
  business_name : string;
  email : string;
  phone : string;
  password : string;
  industry : string
}.
End RegisterBusinessData.

Module Business.
Record t := mk {
  id : string;
  business_name : string;
  email : string;
  phone : string;
  industry : string;
  payment_slug : string;
  verification_status : VerificationStatus;
  cac_certificate_url : option string;
  created_at : string;
  updated_at : string
}.
End Business.

Module TrustRulesData.
Record t := mk {
  id : option string;
  business_id : option string;
  trusted_min : Z;
  verified_min : Z;
  new_min : Z;
  restricted_min : Z;
  auto_approve_threshold : Z;
  auto_decline_threshold : Z;
  max_outstanding_balance : Z;
  consecutive_failure_limit : Z;
  late_payment_penalty : Z;
  on_time_bonus : Z;
  min_history_for_trusted : Z;
  created_at : option string;
  updated_at : option string
}.
End TrustRulesData.

Module Notification.
Record t := mk {
  id : string;
  business_id : string;
  type : NotificationType;
  title : string;
  message : string;
  read : bool;
  created_at : string;
  related_id : option string
}.
End Notification.

Module DashboardStats.
Record t := mk {
  totalPayments : nat;
  successRate : float;
  pendingApprovals : nat;
  failedPayments : nat
}.
End DashboardStats.

Module Transaction.
Record t := mk {
  id : string;
  customer_name : string;
  customer_email : string;
  service_description : string;
  total_amount : option Q;
  recurring_amount : option Q;
  payment_type : PaymentType;
  status : Status;
  trust_score : Z;
  created_at : string
}.
End Transaction.

Module Customer.
Record t := mk {
  customer_email : string;
  customer_name : string;
  total_payments : nat;
  successful_payments : nat;
  average_trust_score : float;
  total_amount_paid : float;
  active_plans : nat;
  last_payment_date : string
}.
End Customer.

(** ** [src/services/mockApi.ts] *)

Module MockApi.

(** The four [Map]s of [storage]. *)
Record Storage := mkStorage {
  businesses : gmap string Business.t;
  applications : gmap string PaymentApplication.t;
  trustRules : gmap string TrustRulesData.t;
  notifications : gmap string Notification.t
}.

(** What the mock backend can touch: the in-memory [storage], the browser's
    [localStorage] (one entry per [STORAGE_KEYS] key, each holding the
    serialised map), and how many times the ambient sources
    [crypto.randomUUID()], [new Date()] and [Math.random()] were asked. *)
Record World := mkWorld {
  storage : Storage;
  localStorage : Storage;
  uuid_calls : nat;
  date_calls : nat;
  random_calls : nat
}.

(** A method either returns or throws an [Error] with a message. *)
Inductive Outcome (A : Type) :=
| Returned (a : A)
| Thrown (message : string).
Arguments Returned {A} a.
Arguments Thrown {A} message.

Definition M (A : Type) : Type := World -> Outcome (A * World).

Definition ret {A} (a : A) : M A := fun w => Returned (a, w).

Definition bind {A B} (m : M A) (k : A -> M B) : M B :=
  fun w =>
    match m w with
    | Returned (a, w') => k a w'
    | Thrown msg => Thrown msg
    end.

Definition throw {A} (msg : string) : M A := fun _ => Thrown msg.

Definition gets {A} (f : World -> A) : M A := fun w => Returned (f w, w).

Definition modify (f : World -> World) : M unit := fun w => Returned (tt, f w).

Declare Scope api_scope.
Delimit Scope api_scope with api.
Notation "x <- m ;; k" := (bind m (fun x => k))
  (at level 100, m at next level, right associativity) : api_scope.
Notation "m ;;; k" := (bind m (fun _ => k))
  (at level 100, right associativity) : api_scope.
Local Open Scope api_scope.

(** *** Field updates *)

Definition on_storage (f : Storage -> Storage) (w : World) : World :=
  {| storage := f (storage w); localStorage := localStorage w;
     uuid_calls := uuid_calls w; date_calls := date_calls w;
     random_calls := random_calls w |}.

Definition on_localStorage (f : Storage -> Storage) (w : World) : World :=
  {| storage := storage w; localStorage := f (localStorage w);
     uuid_calls := uuid_calls w; date_calls := date_calls w;
     random_calls := random_calls w |}.

Definition with_businesses (m : gmap string Business.t) (s : Storage) : Storage :=
  {| businesses := m; applications := applications s;
     trustRules := trustRules s; notifications := notifications s |}.

Definition with_applications (m : gmap string PaymentApplication.t) (s : Storage) : Storage :=
  {| businesses := businesses s; applications := m;
     trustRules := trustRules s; notifications := notifications s |}.

Definition with_trustRules (m : gmap string TrustRulesData.t) (s : Storage) : Storage :=
  {| businesses := businesses s; applications := applications s;
     trustRules := m; notifications := notifications s |}.

Definition with_notifications (m : gmap string Notification.t) (s : Storage) : Storage :=
  {| businesses := businesses s; applications := applications s;
     trustRules := trustRules s; notifications := m |}.

(** [storage.<map>.set(key, value)] *)
Definition businesses_set (k : string) (v : Business.t) : M unit :=
  modify (on_storage (fun s => with_businesses (<[k := v]> (businesses s)) s)).

Definition applications_set (k : string) (v : PaymentApplication.t) : M unit :=
  modify (on_storage (fun s => with_applications (<[k := v]> (applications s)) s)).

Definition trustRules_set (k : string) (v : TrustRulesData.t) : M unit :=
  modify (on_storage (fun s => with_trustRules (<[k := v]> (trustRules s)) s)).

Definition notifications_set (k : string) (v : Notification.t) : M unit :=
  modify (on_storage (fun s => with_notifications (<[k := v]> (notifications s)) s)).

(** [saveToLocalStorage(STORAGE_KEYS.<map>, storage.<map>)]: the entry of
    that key becomes the current map.  A failing [setItem] is caught and
    logged by the source; it is not modelled. *)
Definition save_businesses : M unit :=
  modify (fun w => on_localStorage (with_businesses (businesses (storage w))) w).

Definition save_applications : M unit :=
  modify (fun w => on_localStorage (with_applications (applications (storage w))) w).

Definition save_trustRules : M unit :=
  modify (fun w => on_localStorage (with_trustRules (trustRules (storage w))) w).

Definition save_notifications : M unit :=
  modify (fun w => on_localStorage (with_notifications (notifications (storage w))) w).

(** *** Scoring and decision (pure once the random draw is fixed) *)

(** [const amount = data.total_amount || data.recurring_amount || 0] *)
Definition amount_of (data : PaymentApplicationData.t) : Q :=
  match Js.or_number
          (Js.or_number (PaymentApplicationData.total_amount data)
                        (PaymentApplicationData.recurring_amount data))
          (Some 0%Q) with
  | Some q => q
  | None => 0%Q
  end.

(** The score as it stands just before the random factor is added
    (lines 58 to 70 of the source). *)
Definition score_before_jitter (data : PaymentApplicationData.t) : Z :=
  let score := 50 in
  let score :=
    if Js.truthy_string (PaymentApplicationData.customer_bvn data)
    then score + 20 else score in
  let amount := amount_of data in
  let score :=
    if Js.lt amount 50000 then score + 20
    else if Js.lt amount 100000 then score + 15
    else if Js.lt amount 200000 then score + 10
    else score in
  let score :=
    if String.eqb (PaymentApplicationData.payment_frequency data) "monthly"
    then score + 10 else score in
  score.

(** [Math.floor(rnd * 15)], [rnd] being what [Math.random()] returned.  The
    product is taken exactly; rounded to binary64 it also stays in
    [[0, 15)]. *)
Definition jitter (rnd : Q) : Z := Qfloor (rnd * 15).

(** [calculateMockTrustScore(data)], given the value [rnd] returned by its
    single call to [Math.random()]. *)
Definition calculateMockTrustScore (data : PaymentApplicationData.t) (rnd : Q) : Z :=
  let score := score_before_jitter data in
  let score := score + jitter rnd in
  Z.min 100 (Z.max 0 score).

Definition getStatusFromScore (score : Z) : Status :=
  if (70 <=? score)%Z then approved
  else if (40 <=? score)%Z then under_review
  else declined.

Section Methods.

(** The ambient sources: the [k]-th value each of them hands out. *)
Variable randomUUID : nat -> string.
Variable toISOString : nat -> string.
Variable random : nat -> Q.

Definition crypto_randomUUID : M string :=
  fun w => Returned (randomUUID (uuid_calls w),
                     {| storage := storage w; localStorage := localStorage w;
                        uuid_calls := S (uuid_calls w); date_calls := date_calls w;
                        random_calls := random_calls w |}).

Definition new_Date_toISOString : M string :=
  fun w => Returned (toISOString (date_calls w),
                     {| storage := storage w; localStorage := localStorage w;
                        uuid_calls := uuid_calls w; date_calls := S (date_calls w);
                        random_calls := random_calls w |}).

Definition Math_random : M Q :=
  fun w => Returned (random (random_calls w),
                     {| storage := storage w; localStorage := localStorage w;
                        uuid_calls := uuid_calls w; date_calls := date_calls w;
                        random_calls := S (random_calls w) |}).

(** [const defaultRules] of [registerBusiness]. *)
Definition defaultRules (businessId : string) : TrustRulesData.t :=
  {| TrustRulesData.id := None;
     TrustRulesData.business_id := Some businessId;
     TrustRulesData.trusted_min := 80;
     TrustRulesData.verified_min := 60;
     TrustRulesData.new_min := 40;
     TrustRulesData.restricted_min := 20;
     TrustRulesData.auto_approve_threshold := 70;
     TrustRulesData.auto_decline_threshold := 30;
     TrustRulesData.max_outstanding_balance := 1000000;
     TrustRulesData.consecutive_failure_limit := 3;
     TrustRulesData.late_payment_penalty := 5;
     TrustRulesData.on_time_bonus := 3;
     TrustRulesData.min_history_for_trusted := 6;
     TrustRulesData.created_at := None;
     TrustRulesData.updated_at := None |}.

Definition registerBusiness (data : RegisterBusinessData.t) : M Business.t :=
  id <- crypto_randomUUID ;;
  created <- new_Date_toISOString ;;
  updated <- new_Date_toISOString ;;
  let business :=
    {| Business.id := id;
       Business.business_name := RegisterBusinessData.business_name data;
       Business.email := RegisterBusinessData.email data;
       Business.phone := RegisterBusinessData.phone data;
       Business.industry := RegisterBusinessData.industry data;
       Business.payment_slug :=
         Js.replace_spaces false
           (Js.toLowerCase (RegisterBusinessData.business_name data));
       Business.verification_status := pending;
       Business.cac_certificate_url := None;
       Business.created_at := created;
       Business.updated_at := updated |} in
  businesses_set (Business.id business) business ;;;
  save_businesses ;;;
  (* Create default trust rules *)
  trustRules_set (Business.id business) (defaultRules (Business.id business)) ;;;
  save_trustRules ;;;
  ret business.

Definition getBusinessById (id : string) : M Business.t :=
  business <- gets (fun w => businesses (storage w) !! id) ;;
  match business with
  | None => throw "Business not found"
  | Some b => ret b
  end.

(** The [Notification] object literal of [createNotification]. *)
Definition notification_for (id created : string)
           (application : PaymentApplication.t) : Notification.t :=
  {| Notification.id := id;
     Notification.business_id :=
       PaymentApplicationData.business_id (PaymentApplication.data application);
     Notification.type :=
       match PaymentApplication.status application with
       | approved => application_approved
       | declined => application_declined
       | under_review => application_under_review
       end;
     Notification.title :=
       match PaymentApplication.status application with
       | approved => "Application Approved"
       | declined => "Application Declined"
       | under_review => "Application Under Review"
       end;
     Notification.message :=
       "Payment application from "
       ++ PaymentApplicationData.customer_name (PaymentApplication.data application)
       ++ " is "
       ++ Js.replace_first "_" " "
            (Status_to_string (PaymentApplication.status application));
     Notification.read := false;
     Notification.created_at := created;
     Notification.related_id := Some (PaymentApplication.id application) |}.

Definition createNotification (application : PaymentApplication.t) : M unit :=
  id <- crypto_randomUUID ;;
  created <- new_Date_toISOString ;;
  let notification := notification_for id created application in
  notifications_set (Notification.id notification) notification ;;;
  save_notifications.

Definition submitApplication (data : PaymentApplicationData.t)
  : M PaymentApplication.t :=
  rnd <- Math_random ;;
  let trustScore := calculateMockTrustScore data rnd in
  let status := getStatusFromScore trustScore in
  id <- crypto_randomUUID ;;
  created <- new_Date_toISOString ;;
  updated <- new_Date_toISOString ;;
  let application :=
    {| PaymentApplication.id := id;
       PaymentApplication.data := data;
       PaymentApplication.status := status;
       PaymentApplication.trust_score := trustScore;
       PaymentApplication.created_at := created;
       PaymentApplication.updated_at := updated |} in
  applications_set (PaymentApplication.id application) application ;;;
  save_applications ;;;
  (* Create notification for the business *)
  createNotification application ;;;
  ret application.

Definition getApplicationById (id : string) : M PaymentApplication.t :=
  application <- gets (fun w => applications (storage w) !! id) ;;
  match application with
  | None => throw "Payment application not found"
  | Some a => ret a
  end.

(** The rules [getTrustRules] creates when none exist. *)
Definition rules_if_none_exist (businessId : string) : TrustRulesData.t :=
  {| TrustRulesData.id := None;
     TrustRulesData.business_id := Some businessId;
     TrustRulesData.trusted_min := 80;
     TrustRulesData.verified_min := 60;
     TrustRulesData.new_min := 40;
     TrustRulesData.restricted_min := 20;
     TrustRulesData.auto_approve_threshold := 70;
     TrustRulesData.auto_decline_threshold := 30;
     TrustRulesData.max_outstanding_balance := 1000000;
     TrustRulesData.consecutive_failure_limit := 3;
     TrustRulesData.late_payment_penalty := 5;
     TrustRulesData.on_time_bonus := 3;
     TrustRulesData.min_history_for_trusted := 6;
     TrustRulesData.created_at := None;
     TrustRulesData.updated_at := None |}.

Definition getTrustRules (businessId : string) : M TrustRulesData.t :=
  rules <- gets (fun w => trustRules (storage w) !! businessId) ;;
  match rules with
  | Some r => ret r
  | None =>
      (* Create default rules if none exist *)
      let rules := rules_if_none_exist businessId in
      trustRules_set businessId rules ;;;
      save_trustRules ;;;
      ret rules
  end.

Definition updateTrustRules (businessId : string) (rules : TrustRulesData.t)
  : M bool :=
  updated <- new_Date_toISOString ;;
  trustRules_set businessId
    {| TrustRulesData.id := TrustRulesData.id rules;
       TrustRulesData.business_id := Some businessId;
       TrustRulesData.trusted_min := TrustRulesData.trusted_min rules;
       TrustRulesData.verified_min := TrustRulesData.verified_min rules;
       TrustRulesData.new_min := TrustRulesData.new_min rules;
       TrustRulesData.restricted_min := TrustRulesData.restricted_min rules;
       TrustRulesData.auto_approve_threshold :=
         TrustRulesData.auto_approve_threshold rules;
       TrustRulesData.auto_decline_threshold :=
         TrustRulesData.auto_decline_threshold rules;
       TrustRulesData.max_outstanding_balance :=
         TrustRulesData.max_outstanding_balance rules;
       TrustRulesData.consecutive_failure_limit :=
         TrustRulesData.consecutive_failure_limit rules;
       TrustRulesData.late_payment_penalty :=
         TrustRulesData.late_payment_penalty rules;
       TrustRulesData.on_time_bonus := TrustRulesData.on_time_bonus rules;
       TrustRulesData.min_history_for_trusted :=
         TrustRulesData.min_history_for_trusted rules;
       TrustRulesData.created_at := TrustRulesData.created_at rules;
       TrustRulesData.updated_at := Some updated |} ;;;
  save_trustRules ;;;
  ret true.

(** *** The remaining methods *)

Definition updateSlug (businessId newSlug : string) : M bool :=
  business <- gets (fun w => businesses (storage w) !! businessId) ;;
  match business with
  | None => throw "Business not found"
  | Some b =>
      updated <- new_Date_toISOString ;;
      (* [business] is the object held by the map: assigning its fields
         changes the entry under [businessId] *)
      businesses_set businessId
        {| Business.id := Business.id b;
           Business.business_name := Business.business_name b;
           Business.email := Business.email b;
           Business.phone := Business.phone b;
           Business.industry := Business.industry b;
           Business.payment_slug := newSlug;
           Business.verification_status := Business.verification_status b;
           Business.cac_certificate_url := Business.cac_certificate_url b;
           Business.created_at := Business.created_at b;
           Business.updated_at := updated |} ;;;
      save_businesses ;;;
      ret true
  end.

Definition markNotificationAsRead (notificationId : string) : M bool :=
  notification <- gets (fun w => notifications (storage w) !! notificationId) ;;
  match notification with
  | None => throw "Notification not found"
  | Some n =>
      notifications_set notificationId
        {| Notification.id := Notification.id n;
           Notification.business_id := Notification.business_id n;
           Notification.type := Notification.type n;
           Notification.title := Notification.title n;
           Notification.message := Notification.message n;
           Notification.read := true;
           Notification.created_at := Notification.created_at n;
           Notification.related_id := Notification.related_id n |} ;;;
      save_notifications ;;;
      ret true
  end.

(** [Array.from(map.values())], in the order [gmap] lists its entries.  A
    [Map] lists them in insertion order, which the store does not record:
    only what is the same for every order is read through [values]. *)
Definition values {V} (m : gmap string V) : list V := (map_to_list m).*2.

Definition of_business (businessId : string) (app : PaymentApplication.t) : bool :=
  String.eqb (PaymentApplicationData.business_id (PaymentApplication.data app))
             businessId.

Definition has_status (s : Status) (app : PaymentApplication.t) : bool :=
  match PaymentApplication.status app, s with
  | approved, approved | under_review, under_review | declined, declined => true
  | _, _ => false
  end.

(** The body of [getStats] after [Array.from(storage.applications.values())]. *)
Definition getStats_of (all : list PaymentApplication.t) (businessId : string)
  : DashboardStats.t :=
  let applications := List.filter (of_business businessId) all in
  let totalPayments := length applications in
  let approved := length (List.filter (has_status approved) applications) in
  let pending := length (List.filter (has_status under_review) applications) in
  let failed := length (List.filter (has_status declined) applications) in
  {| DashboardStats.totalPayments := totalPayments;
     DashboardStats.successRate :=
       if Nat.ltb 0 totalPayments
       then Js.Math_round
              (PrimFloat.mul
                 (PrimFloat.div (Js.float_of_Z (Z.of_nat approved))
                                (Js.float_of_Z (Z.of_nat totalPayments)))
                 100)
       else 0%float;
     DashboardStats.pendingApprovals := pending;
     DashboardStats.failedPayments := failed |}.

Definition getStats (businessId : string) : M DashboardStats.t :=
  gets (fun w => getStats_of (values (applications (storage w))) businessId).

Definition to_transaction (app : PaymentApplication.t) : Transaction.t :=
  {| Transaction.id := PaymentApplication.id app;
     Transaction.customer_name :=
       PaymentApplicationData.customer_name (PaymentApplication.data app);
     Transaction.customer_email :=
       PaymentApplicationData.customer_email (PaymentApplication.data app);
     Transaction.service_description :=
       PaymentApplicationData.service_description (PaymentApplication.data app);
     Transaction.total_amount :=
       PaymentApplicationData.total_amount (PaymentApplication.data app);
     Transaction.recurring_amount :=
       PaymentApplicationData.recurring_amount (PaymentApplication.data app);
     Transaction.payment_type :=
       PaymentApplicationData.payment_type (PaymentApplication.data app);
     Transaction.status := PaymentApplication.status app;
     Transaction.trust_score := PaymentApplication.trust_score app;
     Transaction.created_at := PaymentApplication.created_at app |}.

(** The body of [getTransactions] after
    [Array.from(storage.applications.values())]; [all] is that array, in
    insertion order. *)
Definition getTransactions_of (all : list PaymentApplication.t)
           (businessId : string) : list Transaction.t :=
  List.map to_transaction
    (List.firstn 5 (List.filter (of_business businessId) all)).



(** The slug the route [GET /businesses/slug/...] of [handleRequest] hands
    to [getBusinessBySlug], for the endpoint [businessApi.getBySlug(slug)]
    asks for. *)
Definition routed_slug (slug : string) : string :=
  Js.last_segment ("/businesses/slug/" ++ slug).

(** *** Customers *)

Section Customers.

(** The binary64 number an amount is. *)
Variable number_of : Q -> float.

(** [new Date(a) > new Date(b)] *)
Variable later : string -> string -> bool.

Definition is_approved (app : PaymentApplication.t) : bool :=
  has_status approved app.

(** The [else] branch of the loop: a customer seen for the first time. *)
Definition first_seen (app : PaymentApplication.t) : Customer.t :=
  {| Customer.customer_email :=
       PaymentApplicationData.customer_email (PaymentApplication.data app);
     Customer.customer_name :=
       PaymentApplicationData.customer_name (PaymentApplication.data app);
     Customer.total_payments := 1;
     Customer.successful_payments := if is_approved app then 1 else 0;
     Customer.average_trust_score :=
       Js.float_of_Z (PaymentApplication.trust_score app);
     Customer.total_amount_paid :=
       number_of (amount_of (PaymentApplication.data app));
     Customer.active_plans := if is_approved app then 1 else 0;
     Customer.last_payment_date := PaymentApplication.created_at app |}.

(** The [if (existing)] branch: the entry is updated in place. *)
Definition seen_again (existing : Customer.t) (app : PaymentApplication.t)
  : Customer.t :=
  let total_payments := S (Customer.total_payments existing) in
  {| Customer.customer_email := Customer.customer_email existing;
     Customer.customer_name := Customer.customer_name existing;
     Customer.total_payments := total_payments;
     Customer.successful_payments :=
       if is_approved app then S (Customer.successful_payments existing)
       else Customer.successful_payments existing;
     Customer.average_trust_score :=
       PrimFloat.div
         (PrimFloat.add
            (PrimFloat.mul (Customer.average_trust_score existing)
               (Js.float_of_Z (Z.of_nat total_payments - 1)))
            (Js.float_of_Z (PaymentApplication.trust_score app)))
         (Js.float_of_Z (Z.of_nat total_payments));
     Customer.total_amount_paid :=
       PrimFloat.add (Customer.total_amount_paid existing)
         (number_of (amount_of (PaymentApplication.data app)));
     Customer.active_plans := Customer.active_plans existing;
     Customer.last_payment_date :=
       if later (PaymentApplication.created_at app)
                (Customer.last_payment_date existing)
       then PaymentApplication.created_at app
       else Customer.last_payment_date existing |}.

(** One turn of [applications.forEach]; [customerMap] is kept as the list
    of its values in insertion order. *)
Fixpoint record_application (app : PaymentApplication.t)
         (customerMap : list Customer.t) : list Customer.t :=
  match customerMap with
  | nil => first_seen app :: nil
  | existing :: others =>
      if String.eqb (Customer.customer_email existing)
           (PaymentApplicationData.customer_email (PaymentApplication.data app))
      then seen_again existing app :: others
      else existing :: record_application app others
  end.

(** The body of [getCustomers] after
    [Array.from(storage.applications.values())]. *)
Definition getCustomers_of (all : list PaymentApplication.t)
           (businessId : string) : list Customer.t :=
  List.fold_left (fun customerMap app => record_application app customerMap)
    (List.filter (of_business businessId) all) nil.

(** What every entry of a customer list satisfies (see the properties). *)
Definition consistent_counts (c : Customer.t) : Prop :=
  (1 <= Customer.total_payments c)%nat
  /\ (Customer.successful_payments c <= Customer.total_payments c)%nat
  /\ (Customer.active_plans c <= 1)%nat
  /\ (Customer.active_plans c <= Customer.successful_payments c)%nat.

Definition email_of (app : PaymentApplication.t) : string :=
  PaymentApplicationData.customer_email (PaymentApplication.data app).

End Customers.

(** *** The router *)

(** The method [handleRequest] hands a request to, with what it cuts out of
    the endpoint for it: [endpoint.split('/').pop()] or
    [endpoint.split('/')[2]] ([None] when that is [undefined]).  For
    [getBusinessByEmail] it is the segment before [decodeURIComponent]. *)
Inductive Route :=
| to_registerBusiness
| to_getBusinessBySlug (slug : string)
| to_getBusinessByEmail (encoded : string)
| to_getBusinessById (id : string)
| to_updateSlug (id : option string)
| to_getStats (id : option string)
| to_getTransactions (id : option string)
| to_submitApplication
| to_getApplicationById (id : string)
| to_getBusinessApplications (id : option string)
| to_getCustomers (id : option string)
| to_getTrustRules (id : option string)
| to_updateTrustRules (id : option string)
| to_getNotifications (id : option string)
| to_markNotificationAsRead (id : option string)
| unknown_endpoint.

(** The chain of [if]s of [handleRequest]: the first that holds decides. *)
Definition route (method endpoint : string) : Route :=
  if (String.eqb method "POST" && String.eqb endpoint "/businesses/register")%bool
  then to_registerBusiness
  else if (String.eqb method "GET" && Js.startsWith endpoint "/businesses/slug/")%bool
  then to_getBusinessBySlug (Js.last_segment endpoint)
  else if (String.eqb method "GET" && Js.startsWith endpoint "/businesses/email/")%bool
  then to_getBusinessByEmail (Js.last_segment endpoint)
  else if (String.eqb method "GET"
           && Js.matches_segment "/businesses/" "" endpoint)%bool
  then to_getBusinessById (Js.last_segment endpoint)
  else if (String.eqb method "PUT" && Js.includes endpoint "/slug")%bool
  then to_updateSlug (Js.segment 2 endpoint)
  else if (String.eqb method "GET" && Js.includes endpoint "/stats")%bool
  then to_getStats (Js.segment 2 endpoint)
  else if (String.eqb method "GET" && Js.includes endpoint "/transactions")%bool
  then to_getTransactions (Js.segment 2 endpoint)
  else if (String.eqb method "POST" && String.eqb endpoint "/payment-applications")%bool
  then to_submitApplication
  else if (String.eqb method "GET"
           && Js.matches_segment "/payment-applications/" "" endpoint)%bool
  then to_getApplicationById (Js.last_segment endpoint)
  else if (String.eqb method "GET" && Js.includes endpoint "/applications")%bool
  then to_getBusinessApplications (Js.segment 2 endpoint)
  else if (String.eqb method "GET" && Js.includes endpoint "/customers")%bool
  then to_getCustomers (Js.segment 2 endpoint)
  else if (String.eqb method "GET" && Js.includes endpoint "/trust-rules")%bool
  then to_getTrustRules (Js.segment 2 endpoint)
  else if (String.eqb method "PUT" && Js.includes endpoint "/trust-rules")%bool
  then to_updateTrustRules (Js.segment 2 endpoint)
  else if (String.eqb method "GET" && Js.includes endpoint "/notifications")%bool
  then to_getNotifications (Js.segment 2 endpoint)
  else if (String.eqb method "PUT"
           && Js.matches_segment "/notifications/" "/read" endpoint)%bool
  then to_markNotificationAsRead (Js.segment 2 endpoint)
  else unknown_endpoint.

(** The parsed body of a request, as the API client sends it. *)
Inductive Body :=
| register_body (data : RegisterBusinessData.t)
| application_body (data : PaymentApplicationData.t)
| slug_body (slug : string)
| rules_body (rules : TrustRulesData.t)
| empty_body.

Inductive Response :=
| business_response (business : Business.t)
| application_response (application : PaymentApplication.t)
| rules_response (rules : TrustRulesData.t)
| success_response (success : bool)
| stats_response (stats : DashboardStats.t)
| transactions_response (transactions : list Transaction.t)
| applications_response (applications : list PaymentApplication.t)
| customers_response (customers : list Customer.t)
| notifications_response (notifications : list Notification.t).

(** How the promise of a request settles: fulfilled with a response, or
    rejected with the message of the error thrown. *)
Definition Answer : Type := (Response + string)%type.

(** A method called by the router.  Every method of the mock that throws
    does so right after its lookup, before it writes or draws anything: the
    world at a throw is the world at the call. *)
Definition attempt {A} (respond : A -> Response) (method : M A)
  : World -> Answer * World :=
  fun w =>
    match method w with
    | Returned (a, w') => (inl (respond a), w')
    | Thrown message => (inr message, w)
    end.

(** The simulated network delay, [500 + Math.random() * 500] milliseconds:
    it takes the next random number. *)
Definition network_delay (w : World) : World :=
  {| storage := storage w; localStorage := localStorage w;
     uuid_calls := uuid_calls w; date_calls := date_calls w;
     random_calls := S (random_calls w) |}.

(** What the mock answers where it is not modelled: on the routes that list
    a map in insertion order ([getBusinessBySlug], [getBusinessByEmail],
    [getStats], [getTransactions], [getBusinessApplications], [getCustomers],
    [getNotifications], modelled on lists above), on a route without the id
    it stores under, and on a body that is not the one the route expects. *)
Variable other_routes : Route -> option Body -> World -> Answer * World.

(** [handleRequest(endpoint, options)], [method] and [body] being
    [options.method] and the value [options.body] parses to.  Requests are
    taken one at a time: nothing else touches the store during the delay. *)
Definition handleRequest (method : option string) (endpoint : string)
           (body : option Body) : World -> Answer * World :=
  fun w =>
    let method :=
      match method with
      | Some m => if String.eqb m "" then "GET" else m
      | None => "GET"
      end in
    let w := network_delay w in
    match route method endpoint, body with
    | to_registerBusiness, Some (register_body data) =>
        attempt business_response (registerBusiness data) w
    | to_getBusinessById id, _ =>
        attempt business_response (getBusinessById id) w
    | to_updateSlug (Some id), Some (slug_body slug) =>
        attempt success_response (updateSlug id slug) w
    | to_updateSlug None, Some (slug_body slug) =>
        (* no business is stored under [undefined] *)
        (inr "Business not found", w)
    | to_submitApplication, Some (application_body data) =>
        attempt application_response (submitApplication data) w
    | to_getApplicationById id, _ =>
        attempt application_response (getApplicationById id) w
    | to_getTrustRules (Some id), _ =>
        attempt rules_response (getTrustRules id) w
    | to_updateTrustRules (Some id), Some (rules_body rules) =>
        attempt success_response (updateTrustRules id rules) w
    | to_markNotificationAsRead (Some id), _ =>
        attempt success_response (markNotificationAsRead id) w
    | to_markNotificationAsRead None, _ =>
        (* no notification is stored under [undefined] *)
        (inr "Notification not found", w)
    | unknown_endpoint, _ =>
        (inr ("Mock API: Unknown endpoint " ++ method ++ " " ++ endpoint), w)
    | other, _ => other_routes other body w
    end.

End Methods.

End MockApi.

(** ** The API client, with the mock in use *)

Module Api.

Section Client.

Variables randomUUID toISOString : nat -> string.
Variable random : nat -> Q.
Variable other_routes :
  MockApi.Route -> option MockApi.Body -> MockApi.World
  -> MockApi.Answer * MockApi.World.

(** [api.request] with [USE_MOCK_API && mockApi]. *)
Definition request (endpoint : string) (method : option string)
           (body : option MockApi.Body)
  : MockApi.World -> MockApi.Answer * MockApi.World :=
  MockApi.handleRequest randomUUID toISOString random other_routes
    method endpoint body.

(** The body goes through [JSON.stringify] and [JSON.parse], which give a
    record of strings and finite numbers back as it was. *)
Definition get (endpoint : string) := request endpoint (Some "GET") None.

Definition post (endpoint : string) (data : MockApi.Body) :=
  request endpoint (Some "POST") (Some data).

Definition put (endpoint : string) (data : MockApi.Body) :=
  request endpoint (Some "PUT") (Some data).

(** The fields of the [FormData] become the fields of the body. *)
Definition postFormData (endpoint : string) (formData : MockApi.Body) :=
  request endpoint (Some "POST") (Some formData).

(** [businessApi] *)

Definition businessApi_register (data : RegisterBusinessData.t) :=
  postFormData "/businesses/register" (MockApi.register_body data).

Definition businessApi_getById (businessId : string) :=
  get ("/businesses/" ++ businessId).


Definition businessApi_markNotificationAsRead (notificationId : string) :=
  put ("/notifications/" ++ notificationId ++ "/read") MockApi.empty_body.

(** [paymentApi] *)

Definition paymentApi_submitApplication (data : PaymentApplicationData.t) :=
  post "/payment-applications" (MockApi.application_body data).

Definition paymentApi_getApplicationById (applicationId : string) :=
  get ("/payment-applications/" ++ applicationId).

(** [trustRulesApi] *)

Definition trustRulesApi_getRules (businessId : string) :=
  get ("/businesses/" ++ businessId ++ "/trust-rules").

Definition trustRulesApi_updateRules (businessId : string)
           (rules : TrustRulesData.t) :=
  put ("/businesses/" ++ businessId ++ "/trust-rules") (MockApi.rules_body rules).

End Client.

End Api.

(** ** Arithmetic of the schedule preview *)

Module Arith.

(** The operations [getInstalmentSchedule] performs on numbers. *)
Class Number (R : Type) := {
  of_Z : Z -> R;
  add : R -> R -> R;
  sub : R -> R -> R;
  mul : R -> R -> R;
  div : R -> R -> R
}.

(** binary64, the JavaScript number type.  The integers converted here are
    literals and instalment counts, far below 2^53. *)
#[global] Instance float_Number : Number float := {|
  of_Z := fun z => PrimFloat.of_uint63 (Uint63.of_Z z);
  add := PrimFloat.add;
  sub := PrimFloat.sub;
  mul := PrimFloat.mul;
  div := PrimFloat.div
|}.



End Arith.

(** ** The customer payment page *)

Module CustomerPayment.

Import Arith.

Inductive PaymentFrequency := monthly | biweekly | weekly | daily.

(** A [Date] of the schedule, kept as the way it was obtained from
    [new Date(formData.preferredStartDate)]: by [setMonth(getMonth() + k)]
    or by [setDate(getDate() + d)].  Calendar arithmetic is left to the
    [Date] object. *)
Inductive PaymentDate :=
| SetMonthPlus (startDate : string) (k : Z)
| SetDatePlus (startDate : string) (d : Z).

Section Schedule.

Context {R : Type} `{Number R}.

(** The fields of [FormData] the schedule reads.  [totalAmount] is a
    string in the page; here [None] stands for the empty string and
    [Some a] for a non-empty one with [Number(totalAmount) = a]. *)
Record FormData := mkFormData {
  totalAmount : option R;
  paymentFrequency : PaymentFrequency;
  preferredStartDate : string
}.

Record PaymentRules := mkPaymentRules {
  min_order_value : R;
  max_instalment_period : nat;
  down_payment_percentage : R;
  enable_fees : bool;
  interest_rate : R
}.

Record ScheduleEntry := mkScheduleEntry {
  number : nat;
  date : PaymentDate;
  amount : R
}.

Record InstalmentSchedule := mkInstalmentSchedule {
  downPayment : R;
  installmentAmount : R;
  numInstalments : nat;
  totalInterest : R;
  total : R;
  schedule : list ScheduleEntry
}.

Definition intervalDays (f : PaymentFrequency) : Z :=
  match f with
  | biweekly => 14
  | weekly => 7
  | daily => 1
  | monthly => 30
  end.

Definition paymentDate (formData : FormData) (i : nat) : PaymentDate :=
  match paymentFrequency formData with
  | monthly =>
      SetMonthPlus (preferredStartDate formData) (Z.of_nat i - 1)
  | f =>
      SetDatePlus (preferredStartDate formData)
                  (intervalDays f * (Z.of_nat i - 1))
  end.

(** [for (let i = first; ...; i++) schedule.push(...)], [remaining]
    iterations still to run. *)
Fixpoint schedule_loop (formData : FormData) (installmentAmount : R)
         (remaining : nat) (i : nat) : list ScheduleEntry :=
  match remaining with
  | O => nil
  | S remaining' =>
      {| number := i;
         date := paymentDate formData i;
         amount := installmentAmount |}
      :: schedule_loop formData installmentAmount remaining' (S i)
  end.

Definition getInstalmentSchedule (paymentType : PaymentType)
           (formData : FormData) (paymentRules : option PaymentRules)
  : option InstalmentSchedule :=
  match paymentType, totalAmount formData, paymentRules with
  | INSTALMENT, Some amount, Some paymentRules =>
      let downPaymentPercent := down_payment_percentage paymentRules in
      let downPayment := div (mul amount downPaymentPercent) (of_Z 100) in
      let remaining := sub amount downPayment in
      let numInstalments := max_instalment_period paymentRules in
      let monthlyInterest :=
        if enable_fees paymentRules
        then div (mul remaining (interest_rate paymentRules)) (of_Z 100)
        else of_Z 0 in
      let totalInterest := mul monthlyInterest (of_Z (Z.of_nat numInstalments)) in
      let totalWithInterest := add remaining totalInterest in
      let installmentAmount :=
        div totalWithInterest (of_Z (Z.of_nat numInstalments)) in
      Some {| downPayment := downPayment;
              installmentAmount := installmentAmount;
              numInstalments := numInstalments;
              totalInterest := totalInterest;
              total := add amount totalInterest;
              schedule :=
                schedule_loop formData installmentAmount numInstalments 1 |}
  | _, _, _ => None
  end.


End Schedule.

Arguments FormData R : clear implicits.
Arguments PaymentRules R : clear implicits.
Arguments ScheduleEntry R : clear implicits.
Arguments InstalmentSchedule R : clear implicits.

(** *** Checking the round trip on binary64 results *)





End CustomerPayment.

(** ** The trust rules page *)

Module TrustRulesPage.

(** The page's own rule record (its local [TrustRulesData] interface). *)
Record Rules := mkRules {
  trustedThreshold : Z;
  verifiedThreshold : Z;
  newCustomerThreshold : Z;
  restrictedThreshold : Z;
  autoApproveAbove : Z;
  autoDeclineBelow : Z;
  requireManualReview : bool;
  maxOutstandingPerCustomer : Z;
  allowEmergencyOverride : bool;
  consecutiveFailureLimit : Z;
  penaltyForLatePay : Z;
  bonusForOnTime : Z;
  minimumHistoryForTrusted : Z
}.

(** The initial [useState] value, also what [handleReset] restores. *)
Definition initialRules : Rules :=
  {| trustedThreshold := 80;
     verifiedThreshold := 60;
     newCustomerThreshold := 40;
     restrictedThreshold := 20;
     autoApproveAbove := 70;
     autoDeclineBelow := 30;
     requireManualReview := true;
     maxOutstandingPerCustomer := 200000;
     allowEmergencyOverride := true;
     consecutiveFailureLimit := 3;
     penaltyForLatePay := 10;
     bonusForOnTime := 5;
     minimumHistoryForTrusted := 5 |}.

(** [loadRules]: map API data to the UI model. *)
Definition loadRules (apiRules : TrustRulesData.t) : Rules :=
  {| trustedThreshold := TrustRulesData.trusted_min apiRules;
     verifiedThreshold := TrustRulesData.verified_min apiRules;
     newCustomerThreshold := TrustRulesData.new_min apiRules;
     restrictedThreshold := TrustRulesData.restricted_min apiRules;
     autoApproveAbove := TrustRulesData.auto_approve_threshold apiRules;
     autoDeclineBelow := TrustRulesData.auto_decline_threshold apiRules;
     requireManualReview := true;
     maxOutstandingPerCustomer := TrustRulesData.max_outstanding_balance apiRules;
     allowEmergencyOverride := true;
     consecutiveFailureLimit := TrustRulesData.consecutive_failure_limit apiRules;
     penaltyForLatePay := TrustRulesData.late_payment_penalty apiRules;
     bonusForOnTime := TrustRulesData.on_time_bonus apiRules;
     minimumHistoryForTrusted := TrustRulesData.min_history_for_trusted apiRules |}.

Record TrustState := mkTrustState {
  name : string;
  color : string;
  policy : string
}.

Definition getTrustStateName (rules : Rules) (score : Z) : TrustState :=
  if (trustedThreshold rules <=? score)%Z then
    {| name := "TRUSTED";
       color := "text-green-600 bg-green-50";
       policy := "Full approval, no down payment required" |}
  else if (verifiedThreshold rules <=? score)%Z then
    {| name := "VERIFIED";
       color := "text-blue-600 bg-blue-50";
       policy := "80% approval, 20% down payment" |}
  else if (newCustomerThreshold rules <=? score)%Z then
    {| name := "NEW";
       color := "text-yellow-600 bg-yellow-50";
       policy := "50% down payment required" |}
  else if (restrictedThreshold rules <=? score)%Z then
    {| name := "RESTRICTED";
       color := "text-orange-600 bg-orange-50";
       policy := "Emergency requests only" |}
  else
    {| name := "DEFAULTED";
       color := "text-red-600 bg-red-50";
       policy := "No instalments allowed" |}.

(** [handleSave]: map the UI model to the API data sent to
    [trustRulesApi.updateRules(business.id, apiRules)]. *)
Definition handleSave_apiRules (business_id : string) (rules : Rules)
  : TrustRulesData.t :=
  {| TrustRulesData.id := None;
     TrustRulesData.business_id := Some business_id;
     TrustRulesData.trusted_min := trustedThreshold rules;
     TrustRulesData.verified_min := verifiedThreshold rules;
     TrustRulesData.new_min := newCustomerThreshold rules;
     TrustRulesData.restricted_min := restrictedThreshold rules;
     TrustRulesData.auto_approve_threshold := autoApproveAbove rules;
     TrustRulesData.auto_decline_threshold := autoDeclineBelow rules;
     TrustRulesData.max_outstanding_balance := maxOutstandingPerCustomer rules;
     TrustRulesData.consecutive_failure_limit := consecutiveFailureLimit rules;
     TrustRulesData.late_payment_penalty := penaltyForLatePay rules;
     TrustRulesData.on_time_bonus := bonusForOnTime rules;
     TrustRulesData.min_history_for_trusted := minimumHistoryForTrusted rules;
     TrustRulesData.created_at := None;
     TrustRulesData.updated_at := None |}.

(** The decision shown for a scenario of the page's "how it works" list. *)
Definition scenario_decision (rules : Rules) (score : Z) : string :=
  if (autoApproveAbove rules <=? score)%Z then "✅ AUTO-APPROVED"
  else if (score <? autoDeclineBelow rules)%Z then "❌ AUTO-DECLINED"
  else "⏸️ MANUAL REVIEW".

End TrustRulesPage.

(** ** The payment result page *)

Module PaymentResult.

Definition getTrustColor (score : Z) : string :=
  if (70 <=? score)%Z then "text-green-600"
  else if (40 <=? score)%Z then "text-yellow-600"
  else "text-red-600".

Definition getTrustBgColor (score : Z) : string :=
  if (70 <=? score)%Z then "bg-green-100"
  else if (40 <=? score)%Z then "bg-yellow-100"
  else "bg-red-100".

End PaymentResult.

(** ** The payment link page *)

Module PaymentLink.

(** [newSlug.toLowerCase().replace(/\s+/g, '-').replace(/[^a-z0-9-]/g, '')] *)
Definition sanitizedSlug (newSlug : string) : string :=
  Js.keep_slug_chars (Js.replace_spaces false (Js.toLowerCase newSlug)).


Section Page.

Variables randomUUID toISOString : nat -> string.
Variable random : nat -> Q.
Variable other_routes :
  MockApi.Route -> option MockApi.Body -> MockApi.World
  -> MockApi.Answer * MockApi.World.


End Page.

End PaymentLink.

(** ** The dashboard layout: notifications *)

Module DashboardLayout.

(** [prev.map(n => n.id === notification.id ? { ...n, read: true } : n)] *)
Definition mark_read (id : string) (prev : list Notification.t)
  : list Notification.t :=
  List.map
    (fun n =>
       if String.eqb (Notification.id n) id
       then {| Notification.id := Notification.id n;
               Notification.business_id := Notification.business_id n;
               Notification.type := Notification.type n;
               Notification.title := Notification.title n;
               Notification.message := Notification.message n;
               Notification.read := true;
               Notification.created_at := Notification.created_at n;
               Notification.related_id := Notification.related_id n |}
       else n)
    prev.

Section Layout.

Variables randomUUID toISOString : nat -> string.
Variable random : nat -> Q.
Variable other_routes :
  MockApi.Route -> option MockApi.Body -> MockApi.World
  -> MockApi.Answer * MockApi.World.

(** [handleNotificationClick], on the page's [notifications] list. *)
Definition handleNotificationClick (notification : Notification.t)
           (notifications : list Notification.t)
  : MockApi.World -> list Notification.t * MockApi.World :=
  fun w =>
    if Notification.read notification then (notifications, w)
    else
      match Api.businessApi_markNotificationAsRead randomUUID toISOString random
              other_routes (Notification.id notification) w with
      | (inl _, w') => (mark_read (Notification.id notification) notifications, w')
      | (inr _, w') =>
          (* caught and logged *)
          (notifications, w')
      end.

End Layout.

Definition unreadCount (notifications : list Notification.t) : nat :=
  length (List.filter (fun n => negb (Notification.read n)) notifications).

End DashboardLayout.

(** ** The [payment_rules] table and the registration page *)

Module Schema.

(** A row of [payment_rules] (first migration). *)
Record payment_rules := mk_payment_rules {
  id : string;
  business_id : string;
  min_order_value : Q;
  max_instalment_period : Z;
  down_payment_percentage : Z;
  enable_fees : bool;
  interest_rate : Q;
  late_fee : Q;
  auto_approve_threshold : Z;
  auto_decline_threshold : Z;
  created_at : string;
  updated_at : string
}.

(** [supabase.from('payment_rules').insert({ business_id })], the insert the
    registration page performs: every other column takes its [DEFAULT];
    [gen_random_uuid] and [now] are the values the database generates. *)
Definition insert_payment_rules (gen_random_uuid now business_id : string)
  : payment_rules :=
  {| id := gen_random_uuid;
     business_id := business_id;
     min_order_value := 50000;
     max_instalment_period := 6;
     down_payment_percentage := 30;
     enable_fees := false;
     interest_rate := 0;
     late_fee := 0;
     auto_approve_threshold := 70;
     auto_decline_threshold := 40;
     created_at := now;
     updated_at := now |}.

End Schema.

(** ** The customer payment page: the form *)

Module CustomerPaymentForm.

(** The page's [FormData].  The two amount inputs are of type [number]:
    [None] stands for the empty string, [Some a] for a string with
    [Number(...) = a] (as for the schedule preview). *)
Record FormData := mkFormData {
  fullName : string;
  email : string;
  phone : string;
  bvn : string;
  serviceDescription : string;
  totalAmount : option Q;
  recurringAmount : option Q;
  commitmentMonths : Q;
  paymentFrequency : CustomerPayment.PaymentFrequency;
  preferredStartDate : string;
  bankName : string;
  accountNumber : string;
  accountName : string;
  agreedToTerms : bool;
  agreedToDebit : bool
}.

Definition paymentFrequency_string (f : CustomerPayment.PaymentFrequency) : string :=
  match f with
  | CustomerPayment.monthly => "monthly"
  | CustomerPayment.biweekly => "biweekly"
  | CustomerPayment.weekly => "weekly"
  | CustomerPayment.daily => "daily"
  end.

(** The validators return [newErrors]; the step is valid when it is empty
    ([Object.keys(newErrors).length === 0]). *)
Definition validateStep1 (formData : FormData) : gmap string string :=
  let newErrors : gmap string string := ∅ in
  let newErrors :=
    if Js.blank (fullName formData)
    then <["fullName" := "Full name is required"]> newErrors else newErrors in
  let newErrors :=
    if Js.blank (email formData)
    then <["email" := "Email is required"]> newErrors
    else if negb (Js.looks_like_email (email formData))
    then <["email" := "Invalid email format"]> newErrors
    else newErrors in
  let newErrors :=
    if Js.blank (phone formData)
    then <["phone" := "Phone number is required"]> newErrors else newErrors in
  let newErrors :=
    if (negb (String.eqb (bvn formData) "")
        && negb (Js.is_n_digits 11 (Js.remove_non_digits (bvn formData))))%bool
    then <["bvn" := "BVN must be 11 digits"]> newErrors else newErrors in
  newErrors.

Section Step2.

(** [n.toLocaleString()] *)
Variable toLocaleString : Q -> string.

Definition validateStep2 (paymentType : PaymentType) (formData : FormData)
           (paymentRules : option (CustomerPayment.PaymentRules Q))
  : gmap string string :=
  let newErrors : gmap string string := ∅ in
  let newErrors :=
    if Js.blank (serviceDescription formData)
    then <["serviceDescription" := "Service description is required"]> newErrors
    else newErrors in
  let newErrors :=
    match paymentType with
    | INSTALMENT =>
        match totalAmount formData with
        | None => <["totalAmount" := "Total amount is required"]> newErrors
        | Some a =>
            if Qle_bool a 0
            then <["totalAmount" := "Amount must be greater than 0"]> newErrors
            else
              match paymentRules with
              | Some rules =>
                  if Js.lt a (CustomerPayment.min_order_value rules)
                  then <["totalAmount" :=
                           "Minimum amount is ₦"
                           ++ toLocaleString (CustomerPayment.min_order_value rules)]>
                         newErrors
                  else newErrors
              | None => newErrors
              end
        end
    | SUBSCRIPTION => newErrors
    end in
  let newErrors :=
    match paymentType with
    | SUBSCRIPTION =>
        match recurringAmount formData with
        | None => <["recurringAmount" := "Monthly amount is required"]> newErrors
        | Some a =>
            if Qle_bool a 0
            then <["recurringAmount" := "Amount must be greater than 0"]> newErrors
            else if Js.lt a 5000
            then <["recurringAmount" := "Minimum subscription amount is ₦5,000"]>
                   newErrors
            else newErrors
        end
    | INSTALMENT => newErrors
    end in
  let newErrors :=
    if String.eqb (preferredStartDate formData) ""
    then <["preferredStartDate" := "Please select a start date"]> newErrors
    else newErrors in
  newErrors.

End Step2.

Definition validateStep3 (formData : FormData) : gmap string string :=
  let newErrors : gmap string string := ∅ in
  let newErrors :=
    if String.eqb (bankName formData) ""
    then <["bankName" := "Please select a bank"]> newErrors else newErrors in
  let newErrors :=
    if String.eqb (accountNumber formData) ""
    then <["accountNumber" := "Account number is required"]> newErrors
    else if negb (Js.is_n_digits 10 (accountNumber formData))
    then <["accountNumber" := "Account number must be 10 digits"]> newErrors
    else newErrors in
  let newErrors :=
    if String.eqb (accountName formData) ""
    then <["accountName" := "Please verify your account number"]> newErrors
    else newErrors in
  let newErrors :=
    if negb (agreedToDebit formData)
    then <["agreedToDebit" := "You must authorize account debits"]> newErrors
    else newErrors in
  newErrors.

(** [handleBvnChange(value)]: the new [formData.bvn]. *)
Definition handleBvnChange (value : string) : string :=
  Js.slice_to 11 (Js.remove_non_digits value).

(** The [onChange] of the account number input: the new
    [formData.accountNumber] (the account name is cleared with it). *)
Definition accountNumber_onChange (value : string) : string :=
  Js.slice_to 10 (Js.remove_non_digits value).

(** The payload [handleSubmit] builds. *)
Definition payload (paymentType : PaymentType) (business_id : string)
           (formData : FormData) : PaymentApplicationData.t :=
  {| PaymentApplicationData.business_id := business_id;
     PaymentApplicationData.customer_name := fullName formData;
     PaymentApplicationData.customer_email := email formData;
     PaymentApplicationData.customer_phone := phone formData;
     PaymentApplicationData.customer_bvn :=
       if String.eqb (bvn formData) "" then None else Some (bvn formData);
     PaymentApplicationData.service_description := serviceDescription formData;
     PaymentApplicationData.payment_type := paymentType;
     PaymentApplicationData.total_amount :=
       match paymentType with
       | INSTALMENT => Some (default 0%Q (totalAmount formData))
       | SUBSCRIPTION => None
       end;
     PaymentApplicationData.recurring_amount :=
       match paymentType with
       | SUBSCRIPTION => Some (default 0%Q (recurringAmount formData))
       | INSTALMENT => None
       end;
     PaymentApplicationData.commitment_months :=
       match paymentType with
       | SUBSCRIPTION => Some (commitmentMonths formData)
       | INSTALMENT => None
       end;
     PaymentApplicationData.payment_frequency :=
       paymentFrequency_string (paymentFrequency formData);
     PaymentApplicationData.preferred_start_date := preferredStartDate formData;
     PaymentApplicationData.bank_name := bankName formData;
     PaymentApplicationData.account_number := accountNumber formData;
     PaymentApplicationData.account_name := accountName formData |}.

(** *** The steps of the form *)

(** [currentStep] and [errors], the state the step buttons change. *)
Record Wizard := mkWizard {
  currentStep : Z;
  errors : gmap string string
}.

(** [Object.keys(newErrors).length === 0] *)
Definition no_errors (newErrors : gmap string string) : bool :=
  Nat.eqb (size newErrors) 0.

(** A validator called from [handleNext]: it sets [errors], and the step
    moves on when there is none. *)
Definition validated (newErrors : gmap string string) (next : Z) (wizard : Wizard)
  : Wizard :=
  {| currentStep := if no_errors newErrors then next else currentStep wizard;
     errors := newErrors |}.

(** [handleNext]: only the validator of the current step is called. *)
Definition handleNext (toLocaleString : Q -> string) (paymentType : PaymentType)
           (paymentRules : option (CustomerPayment.PaymentRules Q))
           (formData : FormData) (wizard : Wizard) : Wizard :=
  if (currentStep wizard =? 1)%Z
  then validated (validateStep1 formData) 2 wizard
  else if (currentStep wizard =? 2)%Z
  then validated (validateStep2 toLocaleString paymentType formData paymentRules)
         3 wizard
  else if (currentStep wizard =? 3)%Z
  then validated (validateStep3 formData) 4 wizard
  else wizard.

Definition handleBack (wizard : Wizard) : Wizard :=
  if (1 <? currentStep wizard)%Z
  then {| currentStep := currentStep wizard - 1; errors := errors wizard |}
  else wizard.

Inductive Click := Next | Back.

(** The page after a series of clicks on the two buttons, the form being
    left as it is in between. *)
Definition after_clicks (toLocaleString : Q -> string) (paymentType : PaymentType)
           (paymentRules : option (CustomerPayment.PaymentRules Q))
           (formData : FormData) (clicks : list Click) (wizard : Wizard) : Wizard :=
  List.fold_left
    (fun wizard click =>
       match click with
       | Next => handleNext toLocaleString paymentType paymentRules formData wizard
       | Back => handleBack wizard
       end)
    clicks wizard.

(** [useState(1)] and [useState({})] *)
Definition first_step : Wizard := {| currentStep := 1; errors := ∅ |}.

(** What holds of the page at every step, for the form as it stands (see
    the properties). *)
Definition steps_are_validated (toLocaleString : Q -> string)
           (paymentType : PaymentType)
           (paymentRules : option (CustomerPayment.PaymentRules Q))
           (formData : FormData) (wizard : Wizard) : Prop :=
  1 <= currentStep wizard <= 4
  /\ (2 <= currentStep wizard -> validateStep1 formData = ∅)
  /\ (3 <= currentStep wizard ->
      validateStep2 toLocaleString paymentType formData paymentRules = ∅)
  /\ (currentStep wizard = 4 -> validateStep3 formData = ∅).

Section Submit.

Variables randomUUID toISOString : nat -> string.
Variable random : nat -> Q.
Variable other_routes :
  MockApi.Route -> option MockApi.Body -> MockApi.World
  -> MockApi.Answer * MockApi.World.

(** [handleSubmit]: the [result] the page navigates to, if any. *)
Definition handleSubmit (paymentType : PaymentType)
           (business : option Business.t) (formData : FormData)
  : MockApi.World -> option MockApi.Response * MockApi.World :=
  fun w =>
    if negb (agreedToTerms formData) then (None, w)
    else
      match business with
      | None => (None, w)
      | Some b =>
          match Api.paymentApi_submitApplication randomUUID toISOString random
                  other_routes (payload paymentType (Business.id b) formData) w with
          | (inl result, w') => (Some result, w')
          | (inr _, w') =>
              (* caught: [errors.submit] is set *)
              (None, w')
          end
      end.

End Submit.

End CustomerPaymentForm.

(** ** The specification's reading of the evaluator *)

Module Spec.


(** The amount adjustment by brackets. *)
Definition amount_adjustment (amount : Q) : Z :=
  if Qle_bool 200000 amount then 0
  else if Qle_bool 100000 amount then 10
  else if Qle_bool 50000 amount then 15
  else 20.

(** Base 50, plus 20 with a BVN, plus the amount adjustment, plus 10 for a
    monthly frequency. *)
Definition contributions (has_bvn : bool) (amount : Q) (is_monthly : bool) : Z :=
  50 + (if has_bvn then 20 else 0) + amount_adjustment amount
  + (if is_monthly then 10 else 0).


(** A BVN was supplied. *)
Definition has_bvn (data : PaymentApplicationData.t) : bool :=
  match PaymentApplicationData.customer_bvn data with
  | Some s => negb (String.eqb s "")
  | None => false
  end.

Definition is_monthly (data : PaymentApplicationData.t) : bool :=
  String.eqb (PaymentApplicationData.payment_frequency data) "monthly".

(** The amount by payment type: [total_amount] for INSTALMENT,
    [recurring_amount] for SUBSCRIPTION, 0 when the field is absent. *)
Definition amount_by_type (data : PaymentApplicationData.t) : Q :=
  match PaymentApplicationData.payment_type data with
  | INSTALMENT => default 0%Q (PaymentApplicationData.total_amount data)
  | SUBSCRIPTION => default 0%Q (PaymentApplicationData.recurring_amount data)
  end.

(** The amount fields are mutually exclusive: an INSTALMENT application
    carries no [recurring_amount], a SUBSCRIPTION no [total_amount]. *)
Definition amounts_exclusive (data : PaymentApplicationData.t) : Prop :=
  match PaymentApplicationData.payment_type data with
  | INSTALMENT => PaymentApplicationData.recurring_amount data = None
  | SUBSCRIPTION => PaymentApplicationData.total_amount data = None
  end.

(** The amount field the payment type requires is missing. *)
Definition required_amount_missing (data : PaymentApplicationData.t) : Prop :=
  match PaymentApplicationData.payment_type data with
  | INSTALMENT => PaymentApplicationData.total_amount data = None
  | SUBSCRIPTION => PaymentApplicationData.recurring_amount data = None
  end.


(** The decision by brackets. *)
Definition statusFromScore (s : Z) : Status :=
  if (s <? 40)%Z then declined
  else if (s <? 70)%Z then under_review
  else approved.

End Spec.

(** ** Concrete inputs used by the examples *)

Module Samples.

(** An INSTALMENT application for 40,000 with a BVN, paid monthly. *)
Definition small_monthly_with_bvn : PaymentApplicationData.t :=
  {| PaymentApplicationData.business_id := "b-1";
     PaymentApplicationData.customer_name := "Ada Obi";
     PaymentApplicationData.customer_email := "ada@example.com";
     PaymentApplicationData.customer_phone := "08012345678";
     PaymentApplicationData.customer_bvn := Some "12345678901";
     PaymentApplicationData.service_description := "Dental work";
     PaymentApplicationData.payment_type := INSTALMENT;
     PaymentApplicationData.total_amount := Some 40000%Q;
     PaymentApplicationData.recurring_amount := None;
     PaymentApplicationData.commitment_months := None;
     PaymentApplicationData.payment_frequency := "monthly";
     PaymentApplicationData.preferred_start_date := "2026-02-01";
     PaymentApplicationData.bank_name := "GTBank";
     PaymentApplicationData.account_number := "0123456789";
     PaymentApplicationData.account_name := "Ada Obi" |}.

(** The same application with the [total_amount] field left out. *)
Definition instalment_without_total : PaymentApplicationData.t :=
  {| PaymentApplicationData.business_id := "b-1";
     PaymentApplicationData.customer_name := "Ada Obi";
     PaymentApplicationData.customer_email := "ada@example.com";
     PaymentApplicationData.customer_phone := "08012345678";
     PaymentApplicationData.customer_bvn := Some "12345678901";
     PaymentApplicationData.service_description := "Dental work";
     PaymentApplicationData.payment_type := INSTALMENT;
     PaymentApplicationData.total_amount := None;
     PaymentApplicationData.recurring_amount := None;
     PaymentApplicationData.commitment_months := None;
     PaymentApplicationData.payment_frequency := "monthly";
     PaymentApplicationData.preferred_start_date := "2026-02-01";
     PaymentApplicationData.bank_name := "GTBank";
     PaymentApplicationData.account_number := "0123456789";
     PaymentApplicationData.account_name := "Ada Obi" |}.

Definition acme : RegisterBusinessData.t :=
  {| RegisterBusinessData.business_name := "Acme  Dental Clinic";
     RegisterBusinessData.email := "owner@acme.example";
     RegisterBusinessData.phone := "08000000000";
     RegisterBusinessData.password := "secret";
     RegisterBusinessData.industry := "health" |}.

Definition no_storage : MockApi.Storage :=
  {| MockApi.businesses := ∅; MockApi.applications := ∅;
     MockApi.trustRules := ∅; MockApi.notifications := ∅ |}.

(** A freshly loaded page with nothing in [localStorage]. *)
Definition fresh : MockApi.World :=
  {| MockApi.storage := no_storage; MockApi.localStorage := no_storage;
     MockApi.uuid_calls := 0; MockApi.date_calls := 0;
     MockApi.random_calls := 0 |}.

(** Ambient sources: identifiers [uuid-a], [uuid-b], ...; a clock that
    stands still; a random source that always answers 0. *)
Definition randomUUID (k : nat) : string :=
  "uuid-" ++ String (ascii_of_nat (97 + k)) "".
Definition toISOString (k : nat) : string := "2026-01-22T09:00:00.000Z".
Definition random (k : nat) : Q := 0%Q.

(** Identifiers of the shape [crypto.randomUUID()] gives them (for the
    first ten draws). *)
Definition uuid (k : nat) : string :=
  "3f2a9c1e-0b7d-4e6a-8c5f-00000000000" ++ String (ascii_of_nat (48 + k)) "".

(** Routes outside the model reject the request. *)
Definition other_routes (r : MockApi.Route) (body : option MockApi.Body)
           (w : MockApi.World) : MockApi.Answer * MockApi.World :=
  (inr "not available", w).

(** The preview of the specification's scenario: 150,000 with 30% down in
    6 instalments, no fees. *)
Definition form_150000 : CustomerPayment.FormData float :=
  {| CustomerPayment.totalAmount := Some 150000%float;
     CustomerPayment.paymentFrequency := CustomerPayment.monthly;
     CustomerPayment.preferredStartDate := "2026-02-01" |}.

Definition rules_30_6 : CustomerPayment.PaymentRules float :=
  {| CustomerPayment.min_order_value := 50000%float;
     CustomerPayment.max_instalment_period := 6;
     CustomerPayment.down_payment_percentage := 30%float;
     CustomerPayment.enable_fees := false;
     CustomerPayment.interest_rate := 0%float |}.




Definition rules_30_6_exact : CustomerPayment.PaymentRules Q :=
  {| CustomerPayment.min_order_value := 50000%Q;
     CustomerPayment.max_instalment_period := 6;
     CustomerPayment.down_payment_percentage := 30%Q;
     CustomerPayment.enable_fees := false;
     CustomerPayment.interest_rate := 0%Q |}.

(** A filled-in INSTALMENT form. *)
Definition filled_form : CustomerPaymentForm.FormData :=
  {| CustomerPaymentForm.fullName := "Ada Obi";
     CustomerPaymentForm.email := "ada@example.com";
     CustomerPaymentForm.phone := "08012345678";
     CustomerPaymentForm.bvn := "12345678901";
     CustomerPaymentForm.serviceDescription := "Dental work";
     CustomerPaymentForm.totalAmount := Some 150000%Q;
     CustomerPaymentForm.recurringAmount := None;
     CustomerPaymentForm.commitmentMonths := 0%Q;
     CustomerPaymentForm.paymentFrequency := CustomerPayment.monthly;
     CustomerPaymentForm.preferredStartDate := "2026-02-01";
     CustomerPaymentForm.bankName := "GTBank";
     CustomerPaymentForm.accountNumber := "0123456789";
     CustomerPaymentForm.accountName := "Ada Obi";
     CustomerPaymentForm.agreedToTerms := true;
     CustomerPaymentForm.agreedToDebit := true |}.

(** A number formatter standing for [toLocaleString]. *)
Definition toLocaleString (q : Q) : string := "50,000".

End Samples.

(** * Properties *)

Section ScoreFacts.

Import MockApi.

(** [Math.floor(rnd * 15)] is one of 0, ..., 14 when [rnd] is in [[0, 1)]. *)
Lemma jitter_range (rnd : Q) :
  (0 <= rnd)%Q -> (rnd < 1)%Q -> 0 <= jitter rnd < 15.
Proof.
  intros Hlo Hhi. unfold jitter. split.
  - rewrite <- (Qfloor_Z 0). apply Qfloor_resp_le.
  change (inject_Z 0) with 0%Q. lra.
  - pose proof (Qfloor_le (rnd * 15)) as Hfl.
    rewrite Zlt_Qlt. change (inject_Z 15) with 15%Q. lra.
Qed.

Lemma lt_spec (x y : Q) : Js.lt x y = true <-> (x < y)%Q.
Proof.
  unfold Js.lt. rewrite negb_true_iff.
  destruct (Qle_bool y x) eqn:E.
  - apply Qle_bool_iff in E. split; [discriminate | lra].
  - split; [intros _ | reflexivity].
    apply Qnot_le_lt. intros Hle. apply Qle_bool_iff in Hle. congruence.
Qed.

Lemma lt_false (x y : Q) : Js.lt x y = false <-> (y <= x)%Q.
Proof.
  unfold Js.lt. rewrite negb_false_iff. apply Qle_bool_iff.
Qed.

(** The [if]/[else if] chain on [amount] adds the bracket adjustment. *)
Lemma chain_is_adjustment (amount : Q) (score : Z) :
  (if Js.lt amount 50000 then score + 20
   else if Js.lt amount 100000 then score + 15
   else if Js.lt amount 200000 then score + 10
   else score) = score + Spec.amount_adjustment amount.
Proof.
  unfold Spec.amount_adjustment.
  destruct (Js.lt amount 50000) eqn:E1;
    destruct (Js.lt amount 100000) eqn:E2;
    destruct (Js.lt amount 200000) eqn:E3;
    destruct (Qle_bool 200000 amount) eqn:F3;
    destruct (Qle_bool 100000 amount) eqn:F2;
    destruct (Qle_bool 50000 amount) eqn:F1;
    try lia;
    repeat match goal with
      | H : Js.lt _ _ = true |- _ => apply lt_spec in H
      | H : Js.lt _ _ = false |- _ => apply lt_false in H
      | H : Qle_bool _ _ = true |- _ => apply Qle_bool_iff in H
      | H : Qle_bool _ _ = false |- _ =>
          apply not_true_iff_false in H; rewrite Qle_bool_iff in H
      end; exfalso; lra.
Qed.

Lemma adjustment_range (amount : Q) : 0 <= Spec.amount_adjustment amount <= 20.
Proof.
  unfold Spec.amount_adjustment.
  repeat match goal with |- context [Qle_bool ?a ?b] => destruct (Qle_bool a b) end;
    lia.
Qed.

Lemma score_before_jitter_contributions (data : PaymentApplicationData.t) :
  score_before_jitter data
  = Spec.contributions (Spec.has_bvn data) (amount_of data) (Spec.is_monthly data).
Proof.
  unfold score_before_jitter, Spec.contributions, Spec.has_bvn, Spec.is_monthly,
    Js.truthy_string.
  rewrite chain_is_adjustment.
  destruct (PaymentApplicationData.customer_bvn data) as [s|];
    [destruct (negb (String.eqb s ""))|];
    destruct (String.eqb (PaymentApplicationData.payment_frequency data) "monthly");
    lia.
Qed.

Lemma score_before_jitter_range (data : PaymentApplicationData.t) :
  50 <= score_before_jitter data <= 100.
Proof.
  rewrite score_before_jitter_contributions. unfold Spec.contributions.
  pose proof (adjustment_range (amount_of data)).
  destruct (Spec.has_bvn data), (Spec.is_monthly data); lia.
Qed.


Lemma score_at_least_50 (data : PaymentApplicationData.t) (rnd : Q) :
  (0 <= rnd)%Q -> (rnd < 1)%Q -> 50 <= calculateMockTrustScore data rnd <= 100.
Proof.
  intros Hlo Hhi. unfold calculateMockTrustScore.
  pose proof (jitter_range rnd Hlo Hhi).
  pose proof (score_before_jitter_range data). lia.
Qed.

Lemma truthy_number_false (o : option Q) :
  Js.truthy_number o = false -> (default 0 o == 0)%Q.
Proof.
  destruct o as [q|]; simpl; [|reflexivity].
  rewrite negb_false_iff. apply Qeq_bool_eq.
Qed.

(** When the type's own amount field is the only one present, the
    [||] chain picks it. *)
Lemma amount_of_by_type (data : PaymentApplicationData.t) :
  Spec.amounts_exclusive data -> (amount_of data == Spec.amount_by_type data)%Q.
Proof.
  unfold Spec.amounts_exclusive, Spec.amount_by_type, amount_of, Js.or_number.
  destruct (PaymentApplicationData.payment_type data); intros ->.
  - destruct (Js.truthy_number (PaymentApplicationData.total_amount data)) eqn:E.
    + rewrite E. destruct (PaymentApplicationData.total_amount data); [reflexivity | discriminate].
    + simpl. symmetry. now apply truthy_number_false.
  - simpl.
    destruct (Js.truthy_number (PaymentApplicationData.recurring_amount data)) eqn:E.
    + destruct (PaymentApplicationData.recurring_amount data); [reflexivity | discriminate].
    + simpl. symmetry. now apply truthy_number_false.
Qed.


End ScoreFacts.


(** ** The trust score *)



(** C7 (as stated, refuted).  With a BVN, an amount of 40,000 and a monthly
    frequency the contributions without the jitter add up to 100, which is
    outside [[50, 90]]. *)
Lemma contributions_exceed_90 :
  ~ (50 <= MockApi.score_before_jitter Samples.small_monthly_with_bvn <= 90).
Proof.
  change (MockApi.score_before_jitter Samples.small_monthly_with_bvn) with 100.
  lia.
Qed.

(** C7 (amended).  For every application the contributions without the
    jitter (base, BVN bonus, amount adjustment, frequency bonus) lie in
    [[50, 100]], both ends being reached, and the final clamped score lies in
    [[0, 100]] whatever the draw. *)
Theorem contributions_range :
  (forall (data : PaymentApplicationData.t) (rnd : Q),
      50 <= MockApi.score_before_jitter data <= 100
      /\ 0 <= MockApi.calculateMockTrustScore data rnd <= 100)
  /\ MockApi.score_before_jitter Samples.small_monthly_with_bvn = 100
  /\ (exists data, MockApi.score_before_jitter data = 50).
Proof.
  split; [|split; [reflexivity|]].
  - intros data rnd. split; [apply score_before_jitter_range|].
    unfold MockApi.calculateMockTrustScore. lia.
  - exists {| PaymentApplicationData.business_id := "b-1";
              PaymentApplicationData.customer_name := "Bola Ade";
              PaymentApplicationData.customer_email := "bola@example.com";
              PaymentApplicationData.customer_phone := "08087654321";
              PaymentApplicationData.customer_bvn := None;
              PaymentApplicationData.service_description := "Equipment";
              PaymentApplicationData.payment_type := INSTALMENT;
              PaymentApplicationData.total_amount := Some 250000%Q;
              PaymentApplicationData.recurring_amount := None;
              PaymentApplicationData.commitment_months := None;
              PaymentApplicationData.payment_frequency := "weekly";
              PaymentApplicationData.preferred_start_date := "2026-02-01";
              PaymentApplicationData.bank_name := "UBA";
              PaymentApplicationData.account_number := "0123456789";
              PaymentApplicationData.account_name := "Bola Ade" |}.
    reflexivity.
Qed.

(** ** The decision mapping *)

(** C2. For every integer score in [[0, 100]] the decision is "approved" from
    70 up, "under_review" from 40 to 69 and "declined" below 40 (the
    specification's brackets); 70 is approved, 69 and 40 are under review and
    39 is declined. *)
Theorem status_from_score_brackets :
  forall s : Z,
    0 <= s <= 100 ->
    (70 <= s -> MockApi.getStatusFromScore s = approved)
    /\ (40 <= s < 70 -> MockApi.getStatusFromScore s = under_review)
    /\ (s < 40 -> MockApi.getStatusFromScore s = declined)
    /\ MockApi.getStatusFromScore s = Spec.statusFromScore s
    /\ MockApi.getStatusFromScore 70 = approved
    /\ MockApi.getStatusFromScore 69 = under_review
    /\ MockApi.getStatusFromScore 40 = under_review
    /\ MockApi.getStatusFromScore 39 = declined.
Proof.
  intros s _.
  unfold MockApi.getStatusFromScore, Spec.statusFromScore.
  destruct (Z.leb_spec 70 s); destruct (Z.leb_spec 40 s);
    destruct (Z.ltb_spec s 40); destruct (Z.ltb_spec s 70);
    repeat split; intros; try reflexivity; lia.
Qed.

Lemma status_from_score_brackets_witness :
  0 <= 55 <= 100 /\ MockApi.getStatusFromScore 55 = under_review.
Proof.
  assert (Hrange : 0 <= 55 <= 100) by lia.
  split; [exact Hrange|].
  destruct (status_from_score_brackets 55 Hrange) as (_ & Hmid & _).
  apply Hmid. lia.
Defined.

(** ** Submission *)

Section SubmissionFacts.

Import MockApi.

Variable randomUUID : nat -> string.
Variable toISOString : nat -> string.
Variable random : nat -> Q.

(** What one call of [submitApplication] does, spelled out: the application
    it returns and the world it leaves. *)
Lemma submitApplication_run (data : PaymentApplicationData.t) (w : World) :
  let score := calculateMockTrustScore data (random (random_calls w)) in
  let app :=
    {| PaymentApplication.id := randomUUID (uuid_calls w);
       PaymentApplication.data := data;
       PaymentApplication.status := getStatusFromScore score;
       PaymentApplication.trust_score := score;
       PaymentApplication.created_at := toISOString (date_calls w);
       PaymentApplication.updated_at := toISOString (S (date_calls w)) |} in
  let n :=
    notification_for (randomUUID (S (uuid_calls w)))
      (toISOString (S (S (date_calls w)))) app in
  let apps := <[PaymentApplication.id app := app]> (applications (storage w)) in
  let notes := <[Notification.id n := n]> (notifications (storage w)) in
  submitApplication randomUUID toISOString random data w
  = Returned
      (app,
       {| storage :=
            {| businesses := businesses (storage w);
               applications := apps;
               trustRules := trustRules (storage w);
               notifications := notes |};
          localStorage :=
            {| businesses := businesses (localStorage w);
               applications := apps;
               trustRules := trustRules (localStorage w);
               notifications := notes |};
          uuid_calls := S (S (uuid_calls w));
          date_calls := S (S (S (date_calls w)));
          random_calls := S (random_calls w) |}).
Proof.
  reflexivity.
Qed.

(** It returns, and leaves one more application and one more notification
    behind. *)
Lemma submitApplication_returns (data : PaymentApplicationData.t) (w : World) :
  exists app n w',
    submitApplication randomUUID toISOString random data w = Returned (app, w')
    /\ PaymentApplication.data app = data
    /\ PaymentApplication.id app = randomUUID (uuid_calls w)
    /\ PaymentApplication.trust_score app
       = calculateMockTrustScore data (random (random_calls w))
    /\ PaymentApplication.status app
       = getStatusFromScore (PaymentApplication.trust_score app)
    /\ applications (storage w')
       = <[PaymentApplication.id app := app]> (applications (storage w))
    /\ applications (localStorage w') = applications (storage w')
    /\ notifications (storage w')
       = <[Notification.id n := n]> (notifications (storage w))
    /\ notifications (localStorage w') = notifications (storage w')
    /\ Notification.type n
       = match PaymentApplication.status app with
         | approved => application_approved
         | declined => application_declined
         | under_review => application_under_review
         end
    /\ Notification.related_id n = Some (PaymentApplication.id app)
    /\ Notification.business_id n = PaymentApplicationData.business_id data
    /\ businesses (storage w') = businesses (storage w)
    /\ trustRules (storage w') = trustRules (storage w).
Proof.
  pose proof (submitApplication_run data w) as Hrun. cbv zeta in Hrun.
  eexists _, _, _. split; [exact Hrun|].
  repeat (split; [reflexivity|]). reflexivity.
Qed.


End SubmissionFacts.

(** C3. The decision taken at submission does not depend on the stored
    trust rules: run from two worlds that differ only in their trust rule
    maps (in memory and in [localStorage]), whatever thresholds those hold,
    [submitApplication] returns the very same application, whose status is
    read off its score with the fixed cutoffs 70 and 40, and leaves the same
    applications and notifications behind. *)
Theorem decision_ignores_trust_rules :
  forall (randomUUID toISOString : nat -> string) (random : nat -> Q)
         (data : PaymentApplicationData.t) (w : MockApi.World)
         (rules1 rules2 saved1 saved2 : gmap string TrustRulesData.t),
    let w1 := MockApi.on_storage (MockApi.with_trustRules rules1)
                (MockApi.on_localStorage (MockApi.with_trustRules saved1) w) in
    let w2 := MockApi.on_storage (MockApi.with_trustRules rules2)
                (MockApi.on_localStorage (MockApi.with_trustRules saved2) w) in
    exists app w1' w2',
      MockApi.submitApplication randomUUID toISOString random data w1
      = MockApi.Returned (app, w1')
      /\ MockApi.submitApplication randomUUID toISOString random data w2
         = MockApi.Returned (app, w2')
      /\ (PaymentApplication.status app = approved
          <-> 70 <= PaymentApplication.trust_score app)
      /\ (PaymentApplication.status app = under_review
          <-> 40 <= PaymentApplication.trust_score app < 70)
      /\ (PaymentApplication.status app = declined
          <-> PaymentApplication.trust_score app < 40)
      /\ MockApi.applications (MockApi.storage w1')
         = MockApi.applications (MockApi.storage w2')
      /\ MockApi.notifications (MockApi.storage w1')
         = MockApi.notifications (MockApi.storage w2')
      /\ MockApi.trustRules (MockApi.storage w1') = rules1
      /\ MockApi.trustRules (MockApi.storage w2') = rules2.
Proof.
  intros randomUUID toISOString random data w rules1 rules2 saved1 saved2 w1 w2.
  pose proof (submitApplication_run randomUUID toISOString random data w1) as Hrun1.
  pose proof (submitApplication_run randomUUID toISOString random data w2) as Hrun2.
  cbv zeta in Hrun1, Hrun2.
  eexists _, _, _. split; [exact Hrun1|]. split; [exact Hrun2|].
  subst w1 w2.
  cbn [PaymentApplication.status PaymentApplication.trust_score
       MockApi.on_storage MockApi.on_localStorage MockApi.with_trustRules
       MockApi.storage MockApi.localStorage MockApi.applications
       MockApi.notifications MockApi.trustRules MockApi.businesses
       MockApi.uuid_calls MockApi.date_calls MockApi.random_calls].
  generalize (MockApi.calculateMockTrustScore data
                (random (MockApi.random_calls w))).
  intros score. unfold MockApi.getStatusFromScore.
  destruct (Z.leb_spec 70 score); destruct (Z.leb_spec 40 score);
    repeat split; intros; try reflexivity; try discriminate; lia.
Qed.

(** C10. The score of every application is at least 50 when the draw of
    [Math.random()] is in [[0, 1)], so [submitApplication] returns an
    application that is never "declined", stores it, and the notification it
    creates is never of type [application_declined]. *)
Theorem submission_never_declines :
  forall (randomUUID toISOString : nat -> string) (random : nat -> Q)
         (data : PaymentApplicationData.t) (w : MockApi.World),
    (0 <= random (MockApi.random_calls w))%Q ->
    (random (MockApi.random_calls w) < 1)%Q ->
    exists app n w',
      MockApi.submitApplication randomUUID toISOString random data w
      = MockApi.Returned (app, w')
      /\ 50 <= PaymentApplication.trust_score app <= 100
      /\ PaymentApplication.status app <> declined
      /\ MockApi.applications (MockApi.storage w') !! PaymentApplication.id app
         = Some app
      /\ MockApi.notifications (MockApi.storage w')
         = <[Notification.id n := n]> (MockApi.notifications (MockApi.storage w))
      /\ Notification.related_id n = Some (PaymentApplication.id app)
      /\ Notification.type n <> application_declined.
Proof.
  intros randomUUID toISOString random data w Hlo Hhi.
  destruct (submitApplication_returns randomUUID toISOString random data w)
    as (app & n & w' & Hret & _ & _ & Hscore & Hstatus & Happs & _ & Hnotes & _
        & Htype & Hrel & _).
  pose proof (score_at_least_50 data _ Hlo Hhi) as Hbound.
  rewrite <- Hscore in Hbound.
  assert (Hnot : PaymentApplication.status app <> declined).
  { rewrite Hstatus. unfold MockApi.getStatusFromScore.
    destruct (Z.leb_spec 70 (PaymentApplication.trust_score app)); [discriminate|].
    destruct (Z.leb_spec 40 (PaymentApplication.trust_score app)); [discriminate|].
    lia. }
  exists app, n, w'. repeat split; try assumption; try lia.
  - rewrite Happs. apply lookup_insert_eq.
  - rewrite Htype. destruct (PaymentApplication.status app); congruence.
Qed.

Lemma submission_never_declines_witness :
  (0 <= Samples.random (MockApi.random_calls Samples.fresh))%Q
  /\ (Samples.random (MockApi.random_calls Samples.fresh) < 1)%Q
  /\ exists app w',
      MockApi.submitApplication Samples.randomUUID Samples.toISOString
        Samples.random Samples.small_monthly_with_bvn Samples.fresh
      = MockApi.Returned (app, w')
      /\ PaymentApplication.status app <> declined.
Proof.
  assert (Hlo : (0 <= Samples.random (MockApi.random_calls Samples.fresh))%Q)
    by apply Qle_refl.
  assert (Hhi : (Samples.random (MockApi.random_calls Samples.fresh) < 1)%Q)
    by reflexivity.
  split; [exact Hlo|]. split; [exact Hhi|].
  destruct (submission_never_declines Samples.randomUUID Samples.toISOString
              Samples.random Samples.small_monthly_with_bvn Samples.fresh Hlo Hhi)
    as (app & n & w' & Hret & _ & Hnot & _).
  exists app, w'. split; assumption.
Defined.




(** ** The instalment schedule *)

Section ScheduleFacts.

Import Arith CustomerPayment.

Context {R : Type} `{Number R}.

Lemma schedule_loop_length (formData : FormData R) (v : R) (n i : nat) :
  length (schedule_loop formData v n i) = n.
Proof.
  revert i. induction n as [|n IH]; intros i; simpl; [reflexivity|].
  now rewrite IH.
Qed.

Lemma schedule_loop_amounts (formData : FormData R) (v : R) (n i : nat) :
  Forall (fun e => amount e = v) (schedule_loop formData v n i).
Proof.
  revert i. induction n as [|n IH]; intros i; simpl; constructor.
  - reflexivity.
  - apply IH.
Qed.

Lemma schedule_loop_numbers (formData : FormData R) (v : R) (n i : nat) :
  map number (schedule_loop formData v n i) = seq i n.
Proof.
  revert i. induction n as [|n IH]; intros i; simpl; [reflexivity|].
  now rewrite IH.
Qed.

End ScheduleFacts.

Section ExactScheduleFacts.

Import Arith CustomerPayment.



End ExactScheduleFacts.

(** C6. On any arithmetic, and so on binary64, the preview of an INSTALMENT
    form with a total amount is: down payment = amount x percentage / 100;
    remaining = amount - down payment; total interest = (remaining x rate /
    100 when fees are enabled, else 0) x N; instalment = (remaining + total
    interest) / N; total = amount + total interest; and the schedule has N
    entries numbered 1 to N, each of the instalment amount.  On binary64,
    150,000 with 30% down in 6 instalments without fees gives a down payment
    of 45,000, 105,000 remaining, instalments of 17,500 and a total of
    150,000. *)
Theorem instalment_schedule_formula :
  (forall (R : Type) (HR : Arith.Number R)
          (frequency : CustomerPayment.PaymentFrequency) (startDate : string)
          (a : R) (rules : CustomerPayment.PaymentRules R),
      let formData := CustomerPayment.mkFormData (Some a) frequency startDate in
      let N := CustomerPayment.max_instalment_period rules in
      let down :=
        Arith.div (Arith.mul a (CustomerPayment.down_payment_percentage rules))
                  (Arith.of_Z 100) in
      let remaining := Arith.sub a down in
      let interest :=
        Arith.mul
          (if CustomerPayment.enable_fees rules
           then Arith.div (Arith.mul remaining (CustomerPayment.interest_rate rules))
                          (Arith.of_Z 100)
           else Arith.of_Z 0)
          (Arith.of_Z (Z.of_nat N)) in
      let instalment :=
        Arith.div (Arith.add remaining interest) (Arith.of_Z (Z.of_nat N)) in
      exists s,
        CustomerPayment.getInstalmentSchedule INSTALMENT formData (Some rules) = Some s
        /\ CustomerPayment.downPayment s = down
        /\ CustomerPayment.totalInterest s = interest
        /\ CustomerPayment.installmentAmount s = instalment
        /\ CustomerPayment.total s = Arith.add a interest
        /\ CustomerPayment.numInstalments s = N
        /\ length (CustomerPayment.schedule s) = N
        /\ Forall (fun e => CustomerPayment.amount e = instalment)
                  (CustomerPayment.schedule s)
        /\ map CustomerPayment.number (CustomerPayment.schedule s) = seq 1 N)
  /\ (exists s,
        CustomerPayment.getInstalmentSchedule INSTALMENT Samples.form_150000
          (Some Samples.rules_30_6) = Some s
        /\ CustomerPayment.downPayment s = 45000%float
        /\ PrimFloat.sub 150000 (CustomerPayment.downPayment s) = 105000%float
        /\ CustomerPayment.totalInterest s = 0%float
        /\ CustomerPayment.installmentAmount s = 17500%float
        /\ CustomerPayment.total s = 150000%float
        /\ map CustomerPayment.amount (CustomerPayment.schedule s)
           = [17500; 17500; 17500; 17500; 17500; 17500]%float).
Proof.
  split.
  - intros R HR frequency startDate a rules formData N down remaining interest
           instalment.
    eexists. split; [reflexivity|].
    cbn [CustomerPayment.downPayment CustomerPayment.totalInterest
         CustomerPayment.installmentAmount CustomerPayment.total
         CustomerPayment.numInstalments CustomerPayment.schedule].
    repeat (split; [reflexivity|]).
    split; [apply schedule_loop_length|].
    split; [apply schedule_loop_amounts | apply schedule_loop_numbers].
  - eexists. split; [reflexivity|].
    repeat split; vm_compute; reflexivity.
Qed.




(** ** Display tiers *)

(** C8. [getTrustStateName] tries the configured thresholds from the highest
    tier down: TRUSTED as soon as the score reaches the trusted threshold,
    else VERIFIED if it reaches the verified one, else NEW, else RESTRICTED,
    else DEFAULTED.  With the default thresholds 80, 60, 40 and 20, score 80
    is TRUSTED, 79 and 60 are VERIFIED, 59 and 40 are NEW, 39 and 20 are
    RESTRICTED and 19 is DEFAULTED. *)
Theorem trust_state_tiers :
  forall (rules : TrustRulesPage.Rules) (score : Z),
    let tier := TrustRulesPage.name (TrustRulesPage.getTrustStateName rules score) in
    let tier_at s := TrustRulesPage.name (TrustRulesPage.getTrustStateName rules s) in
    (TrustRulesPage.trustedThreshold rules <= score -> tier = "TRUSTED")
    /\ (score < TrustRulesPage.trustedThreshold rules ->
        TrustRulesPage.verifiedThreshold rules <= score -> tier = "VERIFIED")
    /\ (score < TrustRulesPage.trustedThreshold rules ->
        score < TrustRulesPage.verifiedThreshold rules ->
        TrustRulesPage.newCustomerThreshold rules <= score -> tier = "NEW")
    /\ (score < TrustRulesPage.trustedThreshold rules ->
        score < TrustRulesPage.verifiedThreshold rules ->
        score < TrustRulesPage.newCustomerThreshold rules ->
        TrustRulesPage.restrictedThreshold rules <= score -> tier = "RESTRICTED")
    /\ (score < TrustRulesPage.trustedThreshold rules ->
        score < TrustRulesPage.verifiedThreshold rules ->
        score < TrustRulesPage.newCustomerThreshold rules ->
        score < TrustRulesPage.restrictedThreshold rules -> tier = "DEFAULTED")
    /\ (TrustRulesPage.trustedThreshold rules = 80 ->
        TrustRulesPage.verifiedThreshold rules = 60 ->
        TrustRulesPage.newCustomerThreshold rules = 40 ->
        TrustRulesPage.restrictedThreshold rules = 20 ->
        tier_at 80 = "TRUSTED"
        /\ tier_at 79 = "VERIFIED" /\ tier_at 60 = "VERIFIED"
        /\ tier_at 59 = "NEW" /\ tier_at 40 = "NEW"
        /\ tier_at 39 = "RESTRICTED" /\ tier_at 20 = "RESTRICTED"
        /\ tier_at 19 = "DEFAULTED").
Proof.
  intros rules score tier tier_at. subst tier tier_at.
  unfold TrustRulesPage.getTrustStateName.
  repeat split; intros;
    repeat match goal with
      | H : _ = _ |- _ => rewrite H
      end;
    repeat match goal with
      | |- context [(?a <=? ?b)%Z] => destruct (Z.leb_spec a b)
      end;
    try reflexivity; lia.
Qed.

Lemma trust_state_tiers_witness :
  TrustRulesPage.trustedThreshold (TrustRulesPage.loadRules (MockApi.rules_if_none_exist "b-1")) = 80
  /\ TrustRulesPage.verifiedThreshold (TrustRulesPage.loadRules (MockApi.rules_if_none_exist "b-1")) = 60
  /\ TrustRulesPage.newCustomerThreshold (TrustRulesPage.loadRules (MockApi.rules_if_none_exist "b-1")) = 40
  /\ TrustRulesPage.restrictedThreshold (TrustRulesPage.loadRules (MockApi.rules_if_none_exist "b-1")) = 20
  /\ TrustRulesPage.name
       (TrustRulesPage.getTrustStateName
          (TrustRulesPage.loadRules (MockApi.rules_if_none_exist "b-1")) 59) = "NEW".
Proof.
  repeat (split; [reflexivity|]).
  destruct (trust_state_tiers (TrustRulesPage.loadRules (MockApi.rules_if_none_exist "b-1")) 0)
    as (_ & _ & _ & _ & _ & Hdefault).
  destruct (Hdefault eq_refl eq_refl eq_refl eq_refl) as (_ & _ & _ & Hnew & _).
  exact Hnew.
Defined.

(** ** Default trust rules *)

Section DefaultFacts.

Import MockApi.

Variable randomUUID : nat -> string.
Variable toISOString : nat -> string.

(** What one call of [registerBusiness] does, spelled out. *)
Lemma registerBusiness_run (data : RegisterBusinessData.t) (w : World) :
  let id := randomUUID (uuid_calls w) in
  let business :=
    {| Business.id := id;
       Business.business_name := RegisterBusinessData.business_name data;
       Business.email := RegisterBusinessData.email data;
       Business.phone := RegisterBusinessData.phone data;
       Business.industry := RegisterBusinessData.industry data;
       Business.payment_slug :=
         Js.replace_spaces false
           (Js.toLowerCase (RegisterBusinessData.business_name data));
       Business.verification_status := pending;
       Business.cac_certificate_url := None;
       Business.created_at := toISOString (date_calls w);
       Business.updated_at := toISOString (S (date_calls w)) |} in
  let known := <[id := business]> (businesses (storage w)) in
  let rules := <[id := defaultRules id]> (trustRules (storage w)) in
  registerBusiness randomUUID toISOString data w
  = Returned
      (business,
       {| storage :=
            {| businesses := known;
               applications := applications (storage w);
               trustRules := rules;
               notifications := notifications (storage w) |};
          localStorage :=
            {| businesses := known;
               applications := applications (localStorage w);
               trustRules := rules;
               notifications := notifications (localStorage w) |};
          uuid_calls := S (uuid_calls w);
          date_calls := S (S (date_calls w));
          random_calls := random_calls w |}).
Proof.
  reflexivity.
Qed.

(** Reading the rules of a business that has none creates the defaults. *)
Lemma getTrustRules_without_rules (businessId : string) (w : World) :
  trustRules (storage w) !! businessId = None ->
  exists w',
    getTrustRules businessId w = Returned (rules_if_none_exist businessId, w')
    /\ trustRules (storage w') !! businessId = Some (rules_if_none_exist businessId).
Proof.
  intros Hnone. unfold getTrustRules, bind, gets. rewrite Hnone.
  eexists. split; [reflexivity|].
  cbn [storage trustRules on_storage with_trustRules on_localStorage].
  apply lookup_insert_eq.
Qed.

Lemma getTrustRules_with_rules (businessId : string) (r : TrustRulesData.t)
      (w : World) :
  trustRules (storage w) !! businessId = Some r ->
  getTrustRules businessId w = Returned (r, w).
Proof.
  intros Hsome. unfold getTrustRules, bind, gets. now rewrite Hsome.
Qed.

End DefaultFacts.

(** C9 (as stated, refuted).  Registering a business on a fresh store writes
    trust rules whose [auto_decline_threshold] is 30, not 40. *)
Lemma registration_decline_default_is_not_40 :
  exists b w' r,
    MockApi.registerBusiness Samples.randomUUID Samples.toISOString Samples.acme
      Samples.fresh = MockApi.Returned (b, w')
    /\ MockApi.trustRules (MockApi.storage w') !! Business.id b = Some r
    /\ TrustRulesData.auto_approve_threshold r = 70
    /\ TrustRulesData.auto_decline_threshold r = 30
    /\ TrustRulesData.auto_decline_threshold r <> 40.
Proof.
  pose proof (registerBusiness_run Samples.randomUUID Samples.toISOString
                Samples.acme Samples.fresh) as Hrun.
  cbv zeta in Hrun.
  eexists _, _, _. split; [exact Hrun|].
  split; [apply lookup_insert_eq|].
  repeat split. discriminate.
Qed.

(** C9 (amended).  Reading the trust rules of a business that has none
    returns (and stores) the defaults 80, 60, 40, 20 with
    [auto_approve_threshold] 70 and [auto_decline_threshold] 30, and
    registration stores exactly the same defaults, so reading them back
    gives 70 and 30 as well.  The values 70 and 40 are the column defaults of
    the [payment_rules] row that the registration page inserts. *)
Theorem trust_rule_defaults :
  forall (randomUUID toISOString : nat -> string) (businessId : string)
         (data : RegisterBusinessData.t) (w : MockApi.World),
    (MockApi.trustRules (MockApi.storage w) !! businessId = None ->
     exists r w',
       MockApi.getTrustRules businessId w = MockApi.Returned (r, w')
       /\ MockApi.trustRules (MockApi.storage w') !! businessId = Some r
       /\ TrustRulesData.trusted_min r = 80
       /\ TrustRulesData.verified_min r = 60
       /\ TrustRulesData.new_min r = 40
       /\ TrustRulesData.restricted_min r = 20
       /\ TrustRulesData.auto_approve_threshold r = 70
       /\ TrustRulesData.auto_decline_threshold r = 30)
    /\ (exists b r w',
          MockApi.registerBusiness randomUUID toISOString data w
          = MockApi.Returned (b, w')
          /\ MockApi.trustRules (MockApi.storage w') !! Business.id b = Some r
          /\ MockApi.getTrustRules (Business.id b) w' = MockApi.Returned (r, w')
          /\ r = MockApi.rules_if_none_exist (Business.id b)
          /\ TrustRulesData.auto_approve_threshold r = 70
          /\ TrustRulesData.auto_decline_threshold r = 30)
    /\ (forall uuid now : string,
          Schema.auto_approve_threshold
            (Schema.insert_payment_rules uuid now businessId) = 70
          /\ Schema.auto_decline_threshold
               (Schema.insert_payment_rules uuid now businessId) = 40).
Proof.
  intros randomUUID toISOString businessId data w.
  split; [|split].
  - intros Hnone.
    destruct (getTrustRules_without_rules businessId w Hnone) as (w' & Hget & Hstored).
    exists (MockApi.rules_if_none_exist businessId), w'.
    split; [exact Hget|]. split; [exact Hstored|]. repeat split.
  - pose proof (registerBusiness_run randomUUID toISOString data w) as Hrun.
    cbv zeta in Hrun.
    eexists _, _, _. split; [exact Hrun|].
    assert (Hstored :
              forall (m : gmap string TrustRulesData.t) (k : string),
                <[k := MockApi.defaultRules k]> m !! k = Some (MockApi.defaultRules k))
      by (intros; apply lookup_insert_eq).
    split; [apply Hstored|].
    split; [apply getTrustRules_with_rules; apply Hstored|].
    repeat split.
  - intros uuid now. split; reflexivity.
Qed.

Lemma trust_rule_defaults_witness :
  MockApi.trustRules (MockApi.storage Samples.fresh) !! "b-1" = None
  /\ exists r w',
      MockApi.getTrustRules "b-1" Samples.fresh = MockApi.Returned (r, w')
      /\ TrustRulesData.auto_decline_threshold r = 30.
Proof.
  assert (Hnone : MockApi.trustRules (MockApi.storage Samples.fresh) !! "b-1" = None)
    by apply lookup_empty.
  split; [exact Hnone|].
  destruct (proj1 (trust_rule_defaults Samples.randomUUID Samples.toISOString
                     "b-1" Samples.acme Samples.fresh) Hnone)
    as (r & w' & Hget & _ & _ & _ & _ & _ & _ & Hdecline).
  exists r, w'. split; [exact Hget | exact Hdecline].
Defined.

(** * Further properties of the mock backend *)

Section StoreFacts.

Import MockApi.

Variable toISOString : nat -> string.

(** The stored rules after [updateTrustRules]. *)
Lemma updateTrustRules_run (businessId : string) (rules : TrustRulesData.t)
      (w : World) :
  let stored :=
    {| TrustRulesData.id := TrustRulesData.id rules;
       TrustRulesData.business_id := Some businessId;
       TrustRulesData.trusted_min := TrustRulesData.trusted_min rules;
       TrustRulesData.verified_min := TrustRulesData.verified_min rules;
       TrustRulesData.new_min := TrustRulesData.new_min rules;
       TrustRulesData.restricted_min := TrustRulesData.restricted_min rules;
       TrustRulesData.auto_approve_threshold :=
         TrustRulesData.auto_approve_threshold rules;
       TrustRulesData.auto_decline_threshold :=
         TrustRulesData.auto_decline_threshold rules;
       TrustRulesData.max_outstanding_balance :=
         TrustRulesData.max_outstanding_balance rules;
       TrustRulesData.consecutive_failure_limit :=
         TrustRulesData.consecutive_failure_limit rules;
       TrustRulesData.late_payment_penalty :=
         TrustRulesData.late_payment_penalty rules;
       TrustRulesData.on_time_bonus := TrustRulesData.on_time_bonus rules;
       TrustRulesData.min_history_for_trusted :=
         TrustRulesData.min_history_for_trusted rules;
       TrustRulesData.created_at := TrustRulesData.created_at rules;
       TrustRulesData.updated_at := Some (toISOString (date_calls w)) |} in
  let saved := <[businessId := stored]> (trustRules (storage w)) in
  updateTrustRules toISOString businessId rules w
  = Returned
      (true,
       {| storage := with_trustRules saved (storage w);
          localStorage := with_trustRules saved (localStorage w);
          uuid_calls := uuid_calls w;
          date_calls := S (date_calls w);
          random_calls := random_calls w |}).
Proof.
  reflexivity.
Qed.

Lemma updateSlug_run (businessId newSlug : string) (b : Business.t) (w : World) :
  businesses (storage w) !! businessId = Some b ->
  let b' :=
    {| Business.id := Business.id b;
       Business.business_name := Business.business_name b;
       Business.email := Business.email b;
       Business.phone := Business.phone b;
       Business.industry := Business.industry b;
       Business.payment_slug := newSlug;
       Business.verification_status := Business.verification_status b;
       Business.cac_certificate_url := Business.cac_certificate_url b;
       Business.created_at := Business.created_at b;
       Business.updated_at := toISOString (date_calls w) |} in
  let known := <[businessId := b']> (businesses (storage w)) in
  updateSlug toISOString businessId newSlug w
  = Returned
      (true,
       {| storage := with_businesses known (storage w);
          localStorage := with_businesses known (localStorage w);
          uuid_calls := uuid_calls w;
          date_calls := S (date_calls w);
          random_calls := random_calls w |}).
Proof.
  intros Hb. unfold updateSlug, bind, gets. rewrite Hb. reflexivity.
Qed.

Lemma updateSlug_missing (businessId newSlug : string) (w : World) :
  businesses (storage w) !! businessId = None ->
  updateSlug toISOString businessId newSlug w = Thrown "Business not found".
Proof.
  intros Hb. unfold updateSlug, bind, gets. now rewrite Hb.
Qed.

Lemma markNotificationAsRead_run (notificationId : string) (n : Notification.t)
      (w : World) :
  notifications (storage w) !! notificationId = Some n ->
  let n' :=
    {| Notification.id := Notification.id n;
       Notification.business_id := Notification.business_id n;
       Notification.type := Notification.type n;
       Notification.title := Notification.title n;
       Notification.message := Notification.message n;
       Notification.read := true;
       Notification.created_at := Notification.created_at n;
       Notification.related_id := Notification.related_id n |} in
  let notes := <[notificationId := n']> (notifications (storage w)) in
  markNotificationAsRead notificationId w
  = Returned
      (true,
       {| storage := with_notifications notes (storage w);
          localStorage := with_notifications notes (localStorage w);
          uuid_calls := uuid_calls w;
          date_calls := date_calls w;
          random_calls := random_calls w |}).
Proof.
  intros Hn. unfold markNotificationAsRead, bind, gets. rewrite Hn. reflexivity.
Qed.

Lemma markNotificationAsRead_missing (notificationId : string) (w : World) :
  notifications (storage w) !! notificationId = None ->
  markNotificationAsRead notificationId w = Thrown "Notification not found".
Proof.
  intros Hn. unfold markNotificationAsRead, bind, gets. now rewrite Hn.
Qed.

Lemma getBusinessById_found (id : string) (b : Business.t) (w : World) :
  businesses (storage w) !! id = Some b -> getBusinessById id w = Returned (b, w).
Proof.
  intros Hb. unfold getBusinessById, bind, gets. now rewrite Hb.
Qed.

Lemma getBusinessById_missing (id : string) (w : World) :
  businesses (storage w) !! id = None ->
  getBusinessById id w = Thrown "Business not found".
Proof.
  intros Hb. unfold getBusinessById, bind, gets. now rewrite Hb.
Qed.

Lemma getApplicationById_found (id : string) (a : PaymentApplication.t) (w : World) :
  applications (storage w) !! id = Some a -> getApplicationById id w = Returned (a, w).
Proof.
  intros Ha. unfold getApplicationById, bind, gets. now rewrite Ha.
Qed.

Lemma getApplicationById_missing (id : string) (w : World) :
  applications (storage w) !! id = None ->
  getApplicationById id w = Thrown "Payment application not found".
Proof.
  intros Ha. unfold getApplicationById, bind, gets. now rewrite Ha.
Qed.

Lemma storage_eta (s : Storage) :
  {| businesses := businesses s; applications := applications s;
     trustRules := trustRules s; notifications := notifications s |} = s.
Proof.
  now destruct s.
Qed.

End StoreFacts.

(** X1. A business just registered is found by its id, unchanged and
    pending verification; registration touches no other business, no
    application and no notification. *)
Theorem registered_business_is_found :
  forall (randomUUID toISOString : nat -> string)
         (data : RegisterBusinessData.t) (w : MockApi.World),
  exists b w',
    MockApi.registerBusiness randomUUID toISOString data w = MockApi.Returned (b, w')
    /\ MockApi.getBusinessById (Business.id b) w' = MockApi.Returned (b, w')
    /\ Business.id b = randomUUID (MockApi.uuid_calls w)
    /\ Business.verification_status b = pending
    /\ (forall id, id <> Business.id b ->
        MockApi.businesses (MockApi.storage w') !! id
        = MockApi.businesses (MockApi.storage w) !! id)
    /\ MockApi.applications (MockApi.storage w')
       = MockApi.applications (MockApi.storage w)
    /\ MockApi.notifications (MockApi.storage w')
       = MockApi.notifications (MockApi.storage w).
Proof.
  intros randomUUID toISOString data w.
  pose proof (registerBusiness_run randomUUID toISOString data w) as Hrun.
  cbv zeta in Hrun.
  eexists _, _. split; [exact Hrun|].
  split; [apply getBusinessById_found; apply lookup_insert_eq|].
  repeat (split; [reflexivity|]).
  split; [|split; reflexivity].
  intros id Hid. cbn [MockApi.storage MockApi.businesses Business.id] in *.
  now apply lookup_insert_ne.
Qed.

(** X2. An application just submitted is found by its id, exactly as it was
    returned; every application stored under another id is left as it was,
    and so are the businesses and the trust rules. *)
Theorem submitted_application_is_found :
  forall (randomUUID toISOString : nat -> string) (random : nat -> Q)
         (data : PaymentApplicationData.t) (w : MockApi.World),
  exists app w',
    MockApi.submitApplication randomUUID toISOString random data w
    = MockApi.Returned (app, w')
    /\ MockApi.getApplicationById (PaymentApplication.id app) w'
       = MockApi.Returned (app, w')
    /\ (forall id, id <> PaymentApplication.id app ->
        MockApi.applications (MockApi.storage w') !! id
        = MockApi.applications (MockApi.storage w) !! id)
    /\ MockApi.businesses (MockApi.storage w')
       = MockApi.businesses (MockApi.storage w)
    /\ MockApi.trustRules (MockApi.storage w')
       = MockApi.trustRules (MockApi.storage w).
Proof.
  intros randomUUID toISOString random data w.
  destruct (submitApplication_returns randomUUID toISOString random data w)
    as (app & n & w' & Hret & _ & _ & _ & _ & Happs & _ & _ & _ & _ & _ & _
        & Hbus & Hrules).
  exists app, w'. split; [exact Hret|].
  split; [apply getApplicationById_found; rewrite Happs; apply lookup_insert_eq|].
  split; [|split; assumption].
  intros id Hid. rewrite Happs. now apply lookup_insert_ne.
Qed.

(** X3. The three lookups by id and the two updates by id return the stored
    entry when there is one and throw their own "not found" message when
    there is none. *)
Theorem lookups_throw_when_missing :
  forall (toISOString : nat -> string) (id newSlug : string) (w : MockApi.World),
    match MockApi.businesses (MockApi.storage w) !! id with
    | Some b =>
        MockApi.getBusinessById id w = MockApi.Returned (b, w)
        /\ exists w', MockApi.updateSlug toISOString id newSlug w
                      = MockApi.Returned (true, w')
    | None =>
        MockApi.getBusinessById id w = MockApi.Thrown "Business not found"
        /\ MockApi.updateSlug toISOString id newSlug w
           = MockApi.Thrown "Business not found"
    end
    /\ match MockApi.applications (MockApi.storage w) !! id with
       | Some a => MockApi.getApplicationById id w = MockApi.Returned (a, w)
       | None =>
           MockApi.getApplicationById id w
           = MockApi.Thrown "Payment application not found"
       end
    /\ match MockApi.notifications (MockApi.storage w) !! id with
       | Some n =>
           exists w', MockApi.markNotificationAsRead id w
                      = MockApi.Returned (true, w')
       | None =>
           MockApi.markNotificationAsRead id w
           = MockApi.Thrown "Notification not found"
       end.
Proof.
  intros toISOString id newSlug w. split; [|split].
  - destruct (MockApi.businesses (MockApi.storage w) !! id) as [b|] eqn:Hb.
    + split; [now apply getBusinessById_found|].
      pose proof (updateSlug_run toISOString id newSlug b w Hb) as Hrun.
      cbv zeta in Hrun. eexists. exact Hrun.
    + split; [now apply getBusinessById_missing | now apply updateSlug_missing].
  - destruct (MockApi.applications (MockApi.storage w) !! id) as [a|] eqn:Ha.
    + now apply getApplicationById_found.
    + now apply getApplicationById_missing.
  - destruct (MockApi.notifications (MockApi.storage w) !! id) as [n|] eqn:Hn.
    + pose proof (markNotificationAsRead_run id n w Hn) as Hrun.
      cbv zeta in Hrun. eexists. exact Hrun.
    + now apply markNotificationAsRead_missing.
Qed.

(** X4. Trust rules saved with [updateTrustRules] are what [getTrustRules]
    reads back: every threshold and policy number is kept, the business id
    is the one of the request and the update time is stamped; reading
    changes nothing. *)
Theorem saved_rules_are_read_back :
  forall (toISOString : nat -> string) (businessId : string)
         (rules : TrustRulesData.t) (w : MockApi.World),
  exists stored w',
    MockApi.updateTrustRules toISOString businessId rules w
    = MockApi.Returned (true, w')
    /\ MockApi.getTrustRules businessId w' = MockApi.Returned (stored, w')
    /\ TrustRulesData.business_id stored = Some businessId
    /\ TrustRulesData.updated_at stored
       = Some (toISOString (MockApi.date_calls w))
    /\ TrustRulesData.trusted_min stored = TrustRulesData.trusted_min rules
    /\ TrustRulesData.verified_min stored = TrustRulesData.verified_min rules
    /\ TrustRulesData.new_min stored = TrustRulesData.new_min rules
    /\ TrustRulesData.restricted_min stored = TrustRulesData.restricted_min rules
    /\ TrustRulesData.auto_approve_threshold stored
       = TrustRulesData.auto_approve_threshold rules
    /\ TrustRulesData.auto_decline_threshold stored
       = TrustRulesData.auto_decline_threshold rules
    /\ TrustRulesData.max_outstanding_balance stored
       = TrustRulesData.max_outstanding_balance rules
    /\ TrustRulesData.consecutive_failure_limit stored
       = TrustRulesData.consecutive_failure_limit rules
    /\ TrustRulesData.late_payment_penalty stored
       = TrustRulesData.late_payment_penalty rules
    /\ TrustRulesData.on_time_bonus stored = TrustRulesData.on_time_bonus rules
    /\ TrustRulesData.min_history_for_trusted stored
       = TrustRulesData.min_history_for_trusted rules
    /\ (forall other, other <> businessId ->
        MockApi.trustRules (MockApi.storage w') !! other
        = MockApi.trustRules (MockApi.storage w) !! other).
Proof.
  intros toISOString businessId rules w.
  pose proof (updateTrustRules_run toISOString businessId rules w) as Hrun.
  cbv zeta in Hrun.
  eexists _, _. split; [exact Hrun|].
  split; [apply getTrustRules_with_rules; apply lookup_insert_eq|].
  repeat (split; [reflexivity|]).
  intros other Hother.
  cbn [MockApi.storage MockApi.trustRules MockApi.with_trustRules].
  now apply lookup_insert_ne.
Qed.

(** X5. [getTrustRules] creates the defaults at most once: a second read
    returns the same rules and leaves the world as the first read left it;
    rules that are already stored are returned without any change to the
    world, and the rules of other businesses are never touched. *)
Theorem trust_rules_are_created_once :
  forall (businessId : string) (w : MockApi.World),
  exists r w',
    MockApi.getTrustRules businessId w = MockApi.Returned (r, w')
    /\ MockApi.getTrustRules businessId w' = MockApi.Returned (r, w')
    /\ match MockApi.trustRules (MockApi.storage w) !! businessId with
       | Some stored => r = stored /\ w' = w
       | None => r = MockApi.rules_if_none_exist businessId
       end
    /\ (forall other, other <> businessId ->
        MockApi.trustRules (MockApi.storage w') !! other
        = MockApi.trustRules (MockApi.storage w) !! other).
Proof.
  intros businessId w.
  destruct (MockApi.trustRules (MockApi.storage w) !! businessId) as [stored|] eqn:Hr.
  - exists stored, w.
    split; [now apply getTrustRules_with_rules|].
    split; [now apply getTrustRules_with_rules|].
    split; [split; reflexivity | reflexivity].
  - unfold MockApi.getTrustRules at 1. unfold MockApi.bind, MockApi.gets.
    rewrite Hr. eexists _, _. split; [reflexivity|].
    split; [apply getTrustRules_with_rules; apply lookup_insert_eq|].
    split; [reflexivity|].
    intros other Hother.
    cbn [MockApi.storage MockApi.trustRules MockApi.with_trustRules
         MockApi.on_storage MockApi.on_localStorage].
    now apply lookup_insert_ne.
Qed.

(** X6. Persistence never lags while [localStorage] takes the writes: if it
    holds what is in memory before a call, it still does after any method
    that changes the store returns (registration, submission, reading or
    saving trust rules, changing a slug, marking a notification as read). *)
Theorem persistence_follows_memory :
  forall (randomUUID toISOString : nat -> string) (random : nat -> Q)
         (w : MockApi.World),
    MockApi.localStorage w = MockApi.storage w ->
    (forall data b w',
        MockApi.registerBusiness randomUUID toISOString data w
        = MockApi.Returned (b, w') ->
        MockApi.localStorage w' = MockApi.storage w')
    /\ (forall data app w',
          MockApi.submitApplication randomUUID toISOString random data w
          = MockApi.Returned (app, w') ->
          MockApi.localStorage w' = MockApi.storage w')
    /\ (forall businessId r w',
          MockApi.getTrustRules businessId w = MockApi.Returned (r, w') ->
          MockApi.localStorage w' = MockApi.storage w')
    /\ (forall businessId rules ok w',
          MockApi.updateTrustRules toISOString businessId rules w
          = MockApi.Returned (ok, w') ->
          MockApi.localStorage w' = MockApi.storage w')
    /\ (forall businessId newSlug ok w',
          MockApi.updateSlug toISOString businessId newSlug w
          = MockApi.Returned (ok, w') ->
          MockApi.localStorage w' = MockApi.storage w')
    /\ (forall notificationId ok w',
          MockApi.markNotificationAsRead notificationId w
          = MockApi.Returned (ok, w') ->
          MockApi.localStorage w' = MockApi.storage w').
Proof.
  intros randomUUID toISOString random w Hsync.
  repeat split.
  - intros data b w' Hret.
    pose proof (registerBusiness_run randomUUID toISOString data w) as Hrun.
    cbv zeta in Hrun. rewrite Hrun in Hret. injection Hret as _ <-.
    cbn [MockApi.localStorage MockApi.storage]. now rewrite Hsync.
  - intros data app w' Hret.
    pose proof (submitApplication_run randomUUID toISOString random data w) as Hrun.
    cbv zeta in Hrun. rewrite Hrun in Hret. injection Hret as _ <-.
    cbn [MockApi.localStorage MockApi.storage]. now rewrite Hsync.
  - intros businessId r w' Hret.
    destruct (MockApi.trustRules (MockApi.storage w) !! businessId) as [stored|] eqn:Hr.
    + rewrite (getTrustRules_with_rules _ _ _ Hr) in Hret.
      injection Hret as _ <-. exact Hsync.
    + unfold MockApi.getTrustRules, MockApi.bind, MockApi.gets in Hret.
      rewrite Hr in Hret. injection Hret as _ <-.
      cbn [MockApi.localStorage MockApi.storage MockApi.on_storage
           MockApi.on_localStorage MockApi.with_trustRules MockApi.trustRules
           MockApi.businesses MockApi.applications MockApi.notifications].
      now rewrite Hsync.
  - intros businessId rules ok w' Hret.
    pose proof (updateTrustRules_run toISOString businessId rules w) as Hrun.
    cbv zeta in Hrun. rewrite Hrun in Hret. injection Hret as _ <-.
    cbn [MockApi.localStorage MockApi.storage]. now rewrite Hsync.
  - intros businessId newSlug ok w' Hret.
    destruct (MockApi.businesses (MockApi.storage w) !! businessId) as [b|] eqn:Hb.
    + pose proof (updateSlug_run toISOString businessId newSlug b w Hb) as Hrun.
      cbv zeta in Hrun. rewrite Hrun in Hret. injection Hret as _ <-.
      cbn [MockApi.localStorage MockApi.storage]. now rewrite Hsync.
    + rewrite (updateSlug_missing toISOString _ newSlug _ Hb) in Hret. discriminate.
  - intros notificationId ok w' Hret.
    destruct (MockApi.notifications (MockApi.storage w) !! notificationId)
      as [n|] eqn:Hn.
    + pose proof (markNotificationAsRead_run notificationId n w Hn) as Hrun.
      cbv zeta in Hrun. rewrite Hrun in Hret. injection Hret as _ <-.
      cbn [MockApi.localStorage MockApi.storage]. now rewrite Hsync.
    + rewrite (markNotificationAsRead_missing _ _ Hn) in Hret. discriminate.
Qed.

Lemma persistence_follows_memory_witness :
  MockApi.localStorage Samples.fresh = MockApi.storage Samples.fresh
  /\ forall app w',
      MockApi.submitApplication Samples.randomUUID Samples.toISOString
        Samples.random Samples.small_monthly_with_bvn Samples.fresh
      = MockApi.Returned (app, w') ->
      MockApi.localStorage w' = MockApi.storage w'.
Proof.
  assert (Hsync : MockApi.localStorage Samples.fresh = MockApi.storage Samples.fresh)
    by reflexivity.
  split; [exact Hsync|].
  destruct (persistence_follows_memory Samples.randomUUID Samples.toISOString
              Samples.random Samples.fresh Hsync) as (_ & Hsubmit & _).
  exact (Hsubmit Samples.small_monthly_with_bvn).
Defined.

(** X7. When the two identifiers drawn for a submission are not in use, the
    store holds exactly one application and one notification more than
    before, and two more identifiers have been drawn. *)
Theorem submission_adds_one_of_each :
  forall (randomUUID toISOString : nat -> string) (random : nat -> Q)
         (data : PaymentApplicationData.t) (w : MockApi.World),
    MockApi.applications (MockApi.storage w)
      !! randomUUID (MockApi.uuid_calls w) = None ->
    MockApi.notifications (MockApi.storage w)
      !! randomUUID (S (MockApi.uuid_calls w)) = None ->
    exists app w',
      MockApi.submitApplication randomUUID toISOString random data w
      = MockApi.Returned (app, w')
      /\ size (MockApi.applications (MockApi.storage w'))
         = S (size (MockApi.applications (MockApi.storage w)))
      /\ size (MockApi.notifications (MockApi.storage w'))
         = S (size (MockApi.notifications (MockApi.storage w)))
      /\ MockApi.uuid_calls w' = S (S (MockApi.uuid_calls w)).
Proof.
  intros randomUUID toISOString random data w Hfree_app Hfree_note.
  pose proof (submitApplication_run randomUUID toISOString random data w) as Hrun.
  cbv zeta in Hrun.
  eexists _, _. split; [exact Hrun|].
  cbn [MockApi.storage MockApi.applications MockApi.notifications
       MockApi.uuid_calls PaymentApplication.id].
  split; [now apply map_size_insert_None|].
  split; [|reflexivity].
  now apply map_size_insert_None.
Qed.

Lemma submission_adds_one_of_each_witness :
  MockApi.applications (MockApi.storage Samples.fresh)
    !! Samples.randomUUID (MockApi.uuid_calls Samples.fresh) = None
  /\ MockApi.notifications (MockApi.storage Samples.fresh)
       !! Samples.randomUUID (S (MockApi.uuid_calls Samples.fresh)) = None
  /\ exists app w',
      MockApi.submitApplication Samples.randomUUID Samples.toISOString
        Samples.random Samples.small_monthly_with_bvn Samples.fresh
      = MockApi.Returned (app, w')
      /\ size (MockApi.applications (MockApi.storage w')) = 1%nat.
Proof.
  assert (Ha : MockApi.applications (MockApi.storage Samples.fresh)
                 !! Samples.randomUUID (MockApi.uuid_calls Samples.fresh) = None)
    by apply lookup_empty.
  assert (Hn : MockApi.notifications (MockApi.storage Samples.fresh)
                 !! Samples.randomUUID (S (MockApi.uuid_calls Samples.fresh)) = None)
    by apply lookup_empty.
  split; [exact Ha|]. split; [exact Hn|].
  destruct (submission_adds_one_of_each Samples.randomUUID Samples.toISOString
              Samples.random Samples.small_monthly_with_bvn Samples.fresh Ha Hn)
    as (app & w' & Hret & Hsize & _).
  exists app, w'. split; [exact Hret|].
  rewrite Hsize. reflexivity.
Defined.

(** X8. [updateSlug] on a known business changes its slug and its update
    time and nothing else: the business read back has the new slug and all
    its other fields, every other business is untouched, and so are the
    applications, trust rules and notifications. *)
Theorem slug_update_changes_only_the_slug :
  forall (toISOString : nat -> string) (businessId newSlug : string)
         (b : Business.t) (w : MockApi.World),
    MockApi.businesses (MockApi.storage w) !! businessId = Some b ->
    exists b' w',
      MockApi.updateSlug toISOString businessId newSlug w
      = MockApi.Returned (true, w')
      /\ MockApi.getBusinessById businessId w' = MockApi.Returned (b', w')
      /\ Business.payment_slug b' = newSlug
      /\ Business.updated_at b' = toISOString (MockApi.date_calls w)
      /\ Business.id b' = Business.id b
      /\ Business.business_name b' = Business.business_name b
      /\ Business.email b' = Business.email b
      /\ Business.phone b' = Business.phone b
      /\ Business.industry b' = Business.industry b
      /\ Business.verification_status b' = Business.verification_status b
      /\ Business.created_at b' = Business.created_at b
      /\ (forall other, other <> businessId ->
          MockApi.businesses (MockApi.storage w') !! other
          = MockApi.businesses (MockApi.storage w) !! other)
      /\ MockApi.applications (MockApi.storage w')
         = MockApi.applications (MockApi.storage w)
      /\ MockApi.trustRules (MockApi.storage w')
         = MockApi.trustRules (MockApi.storage w)
      /\ MockApi.notifications (MockApi.storage w')
         = MockApi.notifications (MockApi.storage w).
Proof.
  intros toISOString businessId newSlug b w Hb.
  pose proof (updateSlug_run toISOString businessId newSlug b w Hb) as Hrun.
  cbv zeta in Hrun.
  eexists _, _. split; [exact Hrun|].
  split; [apply getBusinessById_found; apply lookup_insert_eq|].
  repeat (split; [reflexivity|]).
  split; [|repeat split].
  intros other Hother.
  cbn [MockApi.storage MockApi.businesses MockApi.with_businesses].
  now apply lookup_insert_ne.
Qed.

Lemma slug_update_changes_only_the_slug_witness :
  exists b w0 b' w',
    MockApi.registerBusiness Samples.randomUUID Samples.toISOString Samples.acme
      Samples.fresh = MockApi.Returned (b, w0)
    /\ MockApi.businesses (MockApi.storage w0) !! Business.id b = Some b
    /\ MockApi.updateSlug Samples.toISOString (Business.id b) "acme" w0
       = MockApi.Returned (true, w')
    /\ MockApi.getBusinessById (Business.id b) w' = MockApi.Returned (b', w')
    /\ Business.payment_slug b' = "acme".
Proof.
  pose proof (registerBusiness_run Samples.randomUUID Samples.toISOString
                Samples.acme Samples.fresh) as Hrun.
  cbv zeta in Hrun.
  eexists _, _. 
  assert (Hb : forall (m : gmap string Business.t) (k : string) (v : Business.t),
             <[k := v]> m !! k = Some v) by (intros; apply lookup_insert_eq).
  match type of Hrun with
  | _ = MockApi.Returned (?b, ?w0) =>
      destruct (slug_update_changes_only_the_slug Samples.toISOString
                  (Business.id b) "acme" b w0 (Hb _ _ _))
        as (b' & w' & Hupd & Hget & Hslug & _)
  end.
  exists b', w'. split; [exact Hrun|].
  split; [apply Hb|]. split; [exact Hupd|]. split; [exact Hget | exact Hslug].
Defined.

(** X9. Marking a stored notification as read sets its [read] flag and
    changes nothing else about it or about any other notification; doing it
    again succeeds and leaves the store as it is. *)
Theorem marking_as_read_is_idempotent :
  forall (notificationId : string) (n : Notification.t) (w : MockApi.World),
    MockApi.notifications (MockApi.storage w) !! notificationId = Some n ->
    exists n' w' w'',
      MockApi.markNotificationAsRead notificationId w = MockApi.Returned (true, w')
      /\ MockApi.notifications (MockApi.storage w') !! notificationId = Some n'
      /\ Notification.read n' = true
      /\ Notification.id n' = Notification.id n
      /\ Notification.business_id n' = Notification.business_id n
      /\ Notification.type n' = Notification.type n
      /\ Notification.title n' = Notification.title n
      /\ Notification.message n' = Notification.message n
      /\ Notification.created_at n' = Notification.created_at n
      /\ Notification.related_id n' = Notification.related_id n
      /\ (forall other, other <> notificationId ->
          MockApi.notifications (MockApi.storage w') !! other
          = MockApi.notifications (MockApi.storage w) !! other)
      /\ MockApi.applications (MockApi.storage w')
         = MockApi.applications (MockApi.storage w)
      /\ MockApi.markNotificationAsRead notificationId w'
         = MockApi.Returned (true, w'')
      /\ MockApi.storage w'' = MockApi.storage w'.
Proof.
  intros notificationId n w Hn.
  pose proof (markNotificationAsRead_run notificationId n w Hn) as Hrun.
  cbv zeta in Hrun.
  assert (Hstored :
            forall (m : gmap string Notification.t) (k : string) (v : Notification.t),
              <[k := v]> m !! k = Some v) by (intros; apply lookup_insert_eq).
  match type of Hrun with
  | _ = MockApi.Returned (_, ?w1) =>
      pose proof
        (markNotificationAsRead_run notificationId
           {| Notification.id := Notification.id n;
              Notification.business_id := Notification.business_id n;
              Notification.type := Notification.type n;
              Notification.title := Notification.title n;
              Notification.message := Notification.message n;
              Notification.read := true;
              Notification.created_at := Notification.created_at n;
              Notification.related_id := Notification.related_id n |}
           w1 (Hstored _ _ _))
        as Hrun2
  end.
  cbv zeta in Hrun2.
  eexists _, _, _. split; [exact Hrun|]. split; [apply Hstored|].
  repeat (split; [reflexivity|]).
  split.
  { intros other Hother.
    cbn [MockApi.storage MockApi.notifications MockApi.with_notifications].
    now apply lookup_insert_ne. }
  split; [reflexivity|]. split; [exact Hrun2|].
  cbn [MockApi.storage]. unfold MockApi.with_notifications.
  cbn [MockApi.businesses MockApi.applications MockApi.trustRules
       MockApi.notifications Notification.id Notification.business_id
       Notification.type Notification.title Notification.message
       Notification.created_at Notification.related_id].
  f_equal. apply insert_insert_eq.
Qed.

Lemma marking_as_read_is_idempotent_witness :
  exists app w0 n n' w',
    MockApi.submitApplication Samples.randomUUID Samples.toISOString
      Samples.random Samples.small_monthly_with_bvn Samples.fresh
    = MockApi.Returned (app, w0)
    /\ MockApi.notifications (MockApi.storage w0) !! Samples.randomUUID 1 = Some n
    /\ Notification.read n = false
    /\ MockApi.markNotificationAsRead (Samples.randomUUID 1) w0
       = MockApi.Returned (true, w')
    /\ MockApi.notifications (MockApi.storage w') !! Samples.randomUUID 1 = Some n'
    /\ Notification.read n' = true.
Proof.
  pose proof (submitApplication_run Samples.randomUUID Samples.toISOString
                Samples.random Samples.small_monthly_with_bvn Samples.fresh) as Hrun.
  cbv zeta in Hrun.
  assert (Hstored :
            forall (m : gmap string Notification.t) (k : string) (v : Notification.t),
              <[k := v]> m !! k = Some v) by (intros; apply lookup_insert_eq).
  match type of Hrun with
  | _ = MockApi.Returned (?app, ?w0) =>
      exists app, w0;
      destruct (marking_as_read_is_idempotent (Samples.randomUUID 1) _ w0
                  (Hstored _ _ _))
        as (n' & w' & w'' & Hmark & Hn' & Hread & _)
  end.
  eexists _, n', w'. split; [exact Hrun|].
  split; [apply Hstored|]. split; [reflexivity|].
  split; [exact Hmark|]. split; [exact Hn' | exact Hread].
Defined.

(** ** Dashboard figures *)

Section ListFacts.

Import MockApi.

Lemma filter_Permutation_list {A} (f : A -> bool) (l l' : list A) :
  Permutation l l' -> Permutation (List.filter f l) (List.filter f l').
Proof.
  induction 1 as [|x l l' _ IH|x y l|l l' l'' _ IH1 _ IH2]; simpl.
  - constructor.
  - destruct (f x); [now constructor | assumption].
  - destruct (f x), (f y); try reflexivity. apply perm_swap.
  - now transitivity (List.filter f l').
Qed.

Lemma status_partition (l : list PaymentApplication.t) :
  length l
  = (length (List.filter (has_status approved) l)
     + length (List.filter (has_status under_review) l)
     + length (List.filter (has_status declined) l))%nat.
Proof.
  induction l as [|a l IH]; [reflexivity|].
  destruct a as [id data st score created updated].
  destruct st; simpl; lia.
Qed.

Lemma filter_none {A} (f : A -> bool) (l : list A) :
  Forall (fun x => f x = false) l -> List.filter f l = nil.
Proof.
  induction 1 as [|x l Hx _ IH]; simpl; [reflexivity|]. now rewrite Hx.
Qed.

Lemma getStats_of_Permutation (l l' : list PaymentApplication.t) (businessId : string) :
  Permutation l l' -> getStats_of l businessId = getStats_of l' businessId.
Proof.
  intros Hperm. unfold getStats_of.
  pose proof (filter_Permutation_list (of_business businessId) _ _ Hperm) as Hmine.
  rewrite (Permutation_length Hmine).
  rewrite (Permutation_length (filter_Permutation_list (has_status approved) _ _ Hmine)).
  rewrite (Permutation_length (filter_Permutation_list (has_status under_review) _ _ Hmine)).
  rewrite (Permutation_length (filter_Permutation_list (has_status declined) _ _ Hmine)).
  reflexivity.
Qed.

Lemma in_values {V} (m : gmap string V) (v : V) :
  In v (values m) <-> exists k, m !! k = Some v.
Proof.
  unfold values. rewrite <- list_elem_of_In, list_elem_of_fmap. split.
  - intros ([k v'] & -> & Hin). exists k. now apply elem_of_map_to_list.
  - intros (k & Hk). exists (k, v). split; [reflexivity|].
    now apply elem_of_map_to_list.
Qed.

End ListFacts.

(** X10. The dashboard figures of a business count each of its applications
    exactly once: total payments = approved + pending approvals + failed
    payments.  They do not depend on the order in which the applications are
    listed, nor on the applications of other businesses, and a business
    without applications has a success rate of 0. *)
Theorem stats_count_each_application_once :
  forall (all : list PaymentApplication.t) (businessId : string),
    let stats := MockApi.getStats_of all businessId in
    let mine := List.filter (MockApi.of_business businessId) all in
    DashboardStats.totalPayments stats
    = (length (List.filter (MockApi.has_status approved) mine)
       + DashboardStats.pendingApprovals stats
       + DashboardStats.failedPayments stats)%nat
    /\ (forall reordered, Permutation all reordered ->
        MockApi.getStats_of reordered businessId = stats)
    /\ (forall others,
          Forall (fun app => MockApi.of_business businessId app = false) others ->
          MockApi.getStats_of (all ++ others) businessId = stats
          /\ MockApi.getStats_of (others ++ all) businessId = stats)
    /\ (mine = nil ->
        stats = {| DashboardStats.totalPayments := 0;
                   DashboardStats.successRate := 0%float;
                   DashboardStats.pendingApprovals := 0;
                   DashboardStats.failedPayments := 0 |}).
Proof.
  intros all businessId stats mine. subst stats mine.
  split; [apply status_partition|].
  split; [intros reordered Hperm; symmetry; now apply getStats_of_Permutation|].
  split.
  - intros others Hothers.
    pose proof (filter_none _ _ Hothers) as Hnone.
    unfold MockApi.getStats_of.
    rewrite !(List.filter_app (MockApi.of_business businessId)), Hnone, app_nil_r.
    split; reflexivity.
  - intros Hnil. unfold MockApi.getStats_of. rewrite Hnil. reflexivity.
Qed.

Lemma stats_count_each_application_once_witness :
  exists app w',
    MockApi.submitApplication Samples.randomUUID Samples.toISOString
      Samples.random Samples.small_monthly_with_bvn Samples.fresh
    = MockApi.Returned (app, w')
    /\ Forall (fun a => MockApi.of_business "b-2" a = false) [app]
    /\ MockApi.getStats_of ([] ++ [app]) "b-2" = MockApi.getStats_of [] "b-2".
Proof.
  pose proof (submitApplication_run Samples.randomUUID Samples.toISOString
                Samples.random Samples.small_monthly_with_bvn Samples.fresh) as Hrun.
  cbv zeta in Hrun.
  eexists _, _. split; [exact Hrun|].
  match goal with
  | |- Forall ?P [?app] /\ _ =>
      assert (Hother : Forall P [app]) by (repeat constructor)
  end.
  split; [exact Hother|].
  destruct (stats_count_each_application_once [] "b-2") as (_ & _ & Hisolated & _).
  exact (proj1 (Hisolated _ Hother)).
Defined.

(** X11. A store that holds no declined application still holds none after
    a submission (the draw being in [[0, 1)]), and the dashboard of every
    business then shows no failed payment. *)
Theorem no_failed_payments_after_submission :
  forall (randomUUID toISOString : nat -> string) (random : nat -> Q)
         (data : PaymentApplicationData.t) (w : MockApi.World),
    (0 <= random (MockApi.random_calls w))%Q ->
    (random (MockApi.random_calls w) < 1)%Q ->
    (forall id a,
        MockApi.applications (MockApi.storage w) !! id = Some a ->
        PaymentApplication.status a <> declined) ->
    exists app w',
      MockApi.submitApplication randomUUID toISOString random data w
      = MockApi.Returned (app, w')
      /\ (forall id a,
            MockApi.applications (MockApi.storage w') !! id = Some a ->
            PaymentApplication.status a <> declined)
      /\ forall businessId stats w'',
          MockApi.getStats businessId w' = MockApi.Returned (stats, w'') ->
          DashboardStats.failedPayments stats = 0%nat /\ w'' = w'.
Proof.
  intros randomUUID toISOString random data w Hlo Hhi Hclean.
  destruct (submitApplication_returns randomUUID toISOString random data w)
    as (app & n & w' & Hret & _ & _ & Hscore & Hstatus & Happs & _).
  assert (Hnot : PaymentApplication.status app <> declined).
  { pose proof (score_at_least_50 data _ Hlo Hhi) as Hbound.
    rewrite <- Hscore in Hbound. rewrite Hstatus.
    unfold MockApi.getStatusFromScore.
    destruct (Z.leb_spec 70 (PaymentApplication.trust_score app)); [discriminate|].
    destruct (Z.leb_spec 40 (PaymentApplication.trust_score app)); [discriminate|].
    lia. }
  assert (Hclean' : forall id a,
             MockApi.applications (MockApi.storage w') !! id = Some a ->
             PaymentApplication.status a <> declined).
  { intros id a. rewrite Happs.
    destruct (decide (PaymentApplication.id app = id)) as [->|Hne].
    - rewrite lookup_insert_eq. intros [= <-]. exact Hnot.
    - rewrite lookup_insert_ne by exact Hne. apply Hclean. }
  exists app, w'. split; [exact Hret|]. split; [exact Hclean'|].
  intros businessId stats w'' Hread.
  unfold MockApi.getStats, MockApi.gets in Hread. injection Hread as <- <-.
  split; [|reflexivity].
  unfold MockApi.getStats_of. cbn [DashboardStats.failedPayments].
  rewrite filter_none; [reflexivity|].
  apply List.Forall_forall. intros a Ha.
  apply List.filter_In in Ha. destruct Ha as [Ha _].
  apply in_values in Ha. destruct Ha as (k & Hk).
  pose proof (Hclean' k a Hk) as Hkept.
  unfold MockApi.has_status. destruct (PaymentApplication.status a); congruence.
Qed.

Lemma no_failed_payments_after_submission_witness :
  (0 <= Samples.random (MockApi.random_calls Samples.fresh))%Q
  /\ (Samples.random (MockApi.random_calls Samples.fresh) < 1)%Q
  /\ (forall id a,
        MockApi.applications (MockApi.storage Samples.fresh) !! id = Some a ->
        PaymentApplication.status a <> declined)
  /\ exists app w',
      MockApi.submitApplication Samples.randomUUID Samples.toISOString
        Samples.random Samples.small_monthly_with_bvn Samples.fresh
      = MockApi.Returned (app, w')
      /\ forall id a,
          MockApi.applications (MockApi.storage w') !! id = Some a ->
          PaymentApplication.status a <> declined.
Proof.
  assert (Hlo : (0 <= Samples.random (MockApi.random_calls Samples.fresh))%Q)
    by apply Qle_refl.
  assert (Hhi : (Samples.random (MockApi.random_calls Samples.fresh) < 1)%Q)
    by reflexivity.
  assert (Hclean : forall id a,
             MockApi.applications (MockApi.storage Samples.fresh) !! id = Some a ->
             PaymentApplication.status a <> declined).
  { intros id a Ha. cbn [Samples.fresh Samples.no_storage MockApi.storage
                           MockApi.applications] in Ha.
    rewrite lookup_empty in Ha. discriminate. }
  split; [exact Hlo|]. split; [exact Hhi|]. split; [exact Hclean|].
  destruct (no_failed_payments_after_submission Samples.randomUUID
              Samples.toISOString Samples.random Samples.small_monthly_with_bvn
              Samples.fresh Hlo Hhi Hclean) as (app & w' & Hret & Hclean' & _).
  exists app, w'. split; [exact Hret | exact Hclean'].
Defined.

(** X12. The recent transactions of a business are its first five
    applications of the list, in the same order: never more than five, all
    of them when there are at most five, each one the summary of an
    application of that very business. *)
Theorem recent_transactions_are_the_first_five :
  forall (all : list PaymentApplication.t) (businessId : string),
    let mine := List.filter (MockApi.of_business businessId) all in
    let recent := MockApi.getTransactions_of all businessId in
    length recent = Nat.min 5 (length mine)
    /\ List.map Transaction.id recent
       = List.firstn 5 (List.map PaymentApplication.id mine)
    /\ Forall
         (fun t =>
            exists app,
              In app all
              /\ PaymentApplicationData.business_id (PaymentApplication.data app)
                 = businessId
              /\ t = MockApi.to_transaction app)
         recent.
Proof.
  intros all businessId mine recent. subst mine recent.
  unfold MockApi.getTransactions_of. split; [|split].
  - now rewrite List.length_map, List.length_firstn.
  - rewrite List.map_map. cbn [MockApi.to_transaction Transaction.id].
    now rewrite List.firstn_map.
  - apply List.Forall_forall. intros t Ht.
    apply List.in_map_iff in Ht. destruct Ht as (app & <- & Happ).
    assert (Hin' : In app (List.filter (MockApi.of_business businessId) all))
      by (rewrite <- (List.firstn_skipn 5); apply List.in_or_app; now left).
    clear Happ. rename Hin' into Happ. apply List.filter_In in Happ.
    destruct Happ as [Hin Hmine].
    exists app. split; [exact Hin|]. split; [|reflexivity].
    unfold MockApi.of_business in Hmine. now apply String.eqb_eq in Hmine.
Qed.

(** ** Customers *)

Section CustomerFacts.

Import MockApi.

Variable number_of : Q -> float.
Variable later : string -> string -> bool.

Lemma record_application_emails (app : PaymentApplication.t)
      (customerMap : list Customer.t) :
  (In (email_of app) (List.map Customer.customer_email customerMap)
   /\ List.map Customer.customer_email
        (record_application number_of later app customerMap)
      = List.map Customer.customer_email customerMap)
  \/ (~ In (email_of app) (List.map Customer.customer_email customerMap)
      /\ List.map Customer.customer_email
           (record_application number_of later app customerMap)
         = (List.map Customer.customer_email customerMap ++ [email_of app])%list).
Proof.
  induction customerMap as [|c rest IH]; simpl.
  - right. split; [tauto | reflexivity].
  - change (PaymentApplicationData.customer_email (PaymentApplication.data app))
      with (email_of app).
    destruct (String.eqb (Customer.customer_email c) (email_of app)) eqn:E.
    + apply String.eqb_eq in E. left. split; [now left | reflexivity].
    + apply String.eqb_neq in E. simpl.
      destruct IH as [[Hin Heq]|[Hnot Heq]].
      * left. split; [now right | now rewrite Heq].
      * right. split; [intros [H|H]; [congruence | tauto] | now rewrite Heq].
Qed.

Lemma record_application_total (app : PaymentApplication.t)
      (customerMap : list Customer.t) :
  list_sum (List.map Customer.total_payments
              (record_application number_of later app customerMap))
  = S (list_sum (List.map Customer.total_payments customerMap)).
Proof.
  induction customerMap as [|c rest IH]; simpl; [reflexivity|].
  destruct (String.eqb (Customer.customer_email c)
              (PaymentApplicationData.customer_email (PaymentApplication.data app)));
    simpl; [reflexivity|]. rewrite IH. lia.
Qed.

Lemma record_application_sound (app : PaymentApplication.t)
      (customerMap : list Customer.t) :
  Forall consistent_counts customerMap ->
  Forall consistent_counts (record_application number_of later app customerMap).
Proof.
  induction 1 as [|c rest Hc Hrest IH]; simpl.
  - constructor; [|constructor]. unfold consistent_counts, first_seen. simpl.
    destruct (is_approved app); lia.
  - destruct (String.eqb (Customer.customer_email c)
                (PaymentApplicationData.customer_email (PaymentApplication.data app))).
    + constructor; [|assumption]. unfold consistent_counts in *. simpl.
      destruct (is_approved app); lia.
    + now constructor.
Qed.

Lemma customers_fold (l : list PaymentApplication.t) (customerMap : list Customer.t) :
  let result :=
    List.fold_left (fun m app => record_application number_of later app m)
      l customerMap in
  NoDup (List.map Customer.customer_email customerMap) ->
  Forall consistent_counts customerMap ->
  NoDup (List.map Customer.customer_email result)
  /\ Forall consistent_counts result
  /\ list_sum (List.map Customer.total_payments result)
     = (list_sum (List.map Customer.total_payments customerMap) + length l)%nat
  /\ (forall e, In e (List.map Customer.customer_email result)
                <-> In e (List.map Customer.customer_email customerMap)
                    \/ In e (List.map email_of l)).
Proof.
  revert customerMap. induction l as [|app l IH]; intros customerMap result Hnd Hsound.
  - subst result. simpl. repeat split; try assumption; try lia; tauto.
  - subst result. cbn [List.fold_left].
    assert (Hnd' : NoDup (List.map Customer.customer_email
                            (record_application number_of later app customerMap))).
    { destruct (record_application_emails app customerMap) as [[_ ->]|[Hnot ->]];
        [assumption|].
      apply NoDup_app. split; [assumption|].
      split; [|apply NoDup_cons_2; [apply not_elem_of_nil | apply NoDup_nil_2]].
      intros e He Hin. apply list_elem_of_In in He. apply list_elem_of_In in Hin.
      destruct Hin as [<-|[]]. tauto. }
    destruct (IH _ Hnd' (record_application_sound app _ Hsound))
      as (Hnodup & Hall & Hsum & Hmem).
    split; [exact Hnodup|]. split; [exact Hall|]. split.
    + rewrite Hsum, record_application_total. simpl. lia.
    + intros e. rewrite Hmem. simpl.
      destruct (record_application_emails app customerMap) as [[Hin ->]|[Hnot ->]].
      * split; [tauto|]. intros [H|[<-|H]]; tauto.
      * rewrite List.in_app_iff. simpl. tauto.
Qed.

End CustomerFacts.

(** X13. The customer list of a business has one entry per distinct
    customer email among its applications; the entries' payment counts add
    up to the number of those applications; and in every entry the
    successful payments are at most the total payments while the active
    plans are at most 1 (the count is set when the customer is first seen
    and never raised afterwards). *)
Theorem customers_partition_the_applications :
  forall (number_of : Q -> float) (later : string -> string -> bool)
         (all : list PaymentApplication.t) (businessId : string),
    let mine := List.filter (MockApi.of_business businessId) all in
    let customers := MockApi.getCustomers_of number_of later all businessId in
    NoDup (List.map Customer.customer_email customers)
    /\ (forall e,
          In e (List.map Customer.customer_email customers)
          <-> In e (List.map
                      (fun app => PaymentApplicationData.customer_email
                                    (PaymentApplication.data app)) mine))
    /\ list_sum (List.map Customer.total_payments customers) = length mine
    /\ Forall
         (fun c =>
            (1 <= Customer.total_payments c)%nat
            /\ (Customer.successful_payments c <= Customer.total_payments c)%nat
            /\ (Customer.active_plans c <= 1)%nat
            /\ (Customer.active_plans c <= Customer.successful_payments c)%nat)
         customers.
Proof.
  intros number_of later all businessId mine customers. subst mine customers.
  unfold MockApi.getCustomers_of.
  destruct (customers_fold number_of later
              (List.filter (MockApi.of_business businessId) all) []
              (NoDup_nil_2 (A:=string)) (Forall_nil_2 _))
    as (Hnodup & Hall & Hsum & Hmem).
  split; [exact Hnodup|]. split; [|split; [exact Hsum | exact Hall]].
  intros e. rewrite Hmem. simpl. tauto.
Qed.

(** ** Payment slugs *)

Section SlugFacts.

Lemma last_segment_from_no_slash (s current : string) :
  Js.has_slash s = false -> Js.last_segment_from current s = current.
Proof.
  induction s as [|c r IH]; simpl; [reflexivity|].
  destruct (Ascii.eqb c "/"); [discriminate | exact IH].
Qed.


Lemma routed_slug_is_last_segment (slug : string) :
  MockApi.routed_slug slug = Js.last_segment slug.
Proof.
  reflexivity.
Qed.






End SlugFacts.



Section FindFacts.



End FindFacts.



(** * The router and the API client *)

Section RouterFacts.

Lemma append_nil (s : string) : "" ++ s = s.
Proof. reflexivity. Qed.

Lemma append_cons (c : ascii) (s t : string) : String c s ++ t = String c (s ++ t).
Proof. reflexivity. Qed.


Lemma after_prefix_app_both (p word x : string) :
  Js.after_prefix (p ++ word) (p ++ x) = Js.after_prefix word x.
Proof.
  induction p as [|a p IH]; simpl; [reflexivity|].
  now rewrite Ascii.eqb_refl.
Qed.

Lemma uuid_char_is_not_slash (c : ascii) :
  Js.is_uuid_char c = true -> Ascii.eqb c "/" = false.
Proof.
  intros Hc. destruct (Ascii.eqb_spec c "/") as [->|]; [discriminate | reflexivity].
Qed.

Lemma uuid_chars_no_slash (id : string) :
  Js.uuid_chars id = true -> Js.has_slash id = false.
Proof.
  induction id as [|c id IH]; simpl; [reflexivity|].
  intros H. apply andb_true_iff in H as [Hc Hid].
  now rewrite (uuid_char_is_not_slash c Hc), IH.
Qed.

(** A tail that is empty or begins with a slash. *)
Lemma after_prefix_leaves (word id tail : string) :
  Js.leaves_uuid_chars word = true -> Js.uuid_chars id = true ->
  Js.startsWith tail "/" = true \/ tail = "" ->
  Js.after_prefix word (id ++ tail) = None.
Proof.
  revert id. induction word as [|a word IH]; intros id Hword Hid Htail;
    [discriminate|].
  simpl in Hword.
  destruct (Ascii.eqb a "/") eqn:Ha; [discriminate|].
  destruct id as [|c id]; [rewrite append_nil | rewrite append_cons]; simpl.
  - destruct Htail as [Htail | ->]; [|reflexivity].
    destruct tail as [|t tail]; [reflexivity|].
    unfold Js.startsWith in Htail. cbn [Js.after_prefix] in Htail.
    destruct (Ascii.eqb_spec "/" t) as [<-|]; [|discriminate].
    now rewrite Ha.
  - simpl in Hid. apply andb_true_iff in Hid as [Hc Hid].
    destruct (Ascii.eqb_spec a c) as [->|]; [|reflexivity].
    rewrite Hc in Hword. now apply IH.
Qed.

Lemma includes_no_slash (id tail word : string) :
  Js.has_slash id = false ->
  Js.includes (id ++ tail) (String "/" word) = Js.includes tail (String "/" word).
Proof.
  induction id as [|c id IH]; intros Hid; [reflexivity|].
  simpl in Hid. apply orb_false_iff in Hid as [Hc Hid].
  change (Js.includes (String c id ++ tail) (String "/" word))
    with ((Js.startsWith (String c (id ++ tail)) (String "/" word)
           || Js.includes (id ++ tail) (String "/" word))%bool).
  rewrite (IH Hid). unfold Js.startsWith. cbn [Js.after_prefix].
  rewrite Ascii.eqb_sym, Hc. reflexivity.
Qed.

Lemma matches_segment_no_slash (id rest prefix tail : string) :
  Js.has_slash id = false ->
  Js.matches_segment (String "/" prefix) tail (id ++ rest)
  = Js.matches_segment (String "/" prefix) tail rest.
Proof.
  induction id as [|c id IH]; intros Hid; [reflexivity|].
  simpl in Hid. apply orb_false_iff in Hid as [Hc Hid].
  rewrite append_cons. cbn [Js.matches_segment Js.after_prefix].
  rewrite Ascii.eqb_sym, Hc. cbn [orb]. now apply IH.
Qed.

Lemma split_slash_no_slash (id rest : string) :
  Js.has_slash id = false ->
  Js.split_slash (id ++ String "/" rest) = id :: Js.split_slash rest.
Proof.
  induction id as [|c id IH]; intros Hid; [reflexivity|].
  simpl in Hid. apply orb_false_iff in Hid as [Hc Hid].
  simpl. rewrite Hc, (IH Hid). reflexivity.
Qed.

Lemma split_slash_one (id : string) :
  Js.has_slash id = false -> Js.split_slash id = id :: nil.
Proof.
  induction id as [|c id IH]; intros Hid; [reflexivity|].
  simpl in Hid. apply orb_false_iff in Hid as [Hc Hid].
  simpl. rewrite Hc, (IH Hid). reflexivity.
Qed.

Lemma from_first_slash_no_slash (id rest : string) :
  Js.has_slash id = false ->
  Js.from_first_slash (id ++ String "/" rest) = String "/" rest.
Proof.
  induction id as [|c id IH]; intros Hid; [reflexivity|].
  simpl in Hid. apply orb_false_iff in Hid as [Hc Hid].
  simpl. rewrite Hc. now apply IH.
Qed.

Lemma from_first_slash_none (id : string) :
  Js.has_slash id = false -> Js.from_first_slash id = "".
Proof.
  induction id as [|c id IH]; intros Hid; [reflexivity|].
  simpl in Hid. apply orb_false_iff in Hid as [Hc Hid].
  simpl. rewrite Hc. now apply IH.
Qed.



Lemma includes_app_r (a b p : string) :
  Js.includes b p = true -> Js.includes (a ++ b) p = true.
Proof.
  intros Hb. induction a as [|c a IH]; [exact Hb|].
  rewrite append_cons. cbn [Js.includes]. rewrite IH. apply orb_true_r.
Qed.

Lemma startsWith_no_slash_word (word id rest : string) :
  Js.has_slash word = false ->
  Js.startsWith (id ++ String "/" rest) word = Js.startsWith id word.
Proof.
  unfold Js.startsWith. revert id.
  induction word as [|a word IH]; intros id Hword; [reflexivity|].
  simpl in Hword. apply orb_false_iff in Hword as [Ha Hword].
  destruct id as [|c id]; [rewrite append_nil | rewrite append_cons];
    cbn [Js.after_prefix].
  - now rewrite Ha.
  - destruct (Ascii.eqb a c); [now apply IH | reflexivity].
Qed.

(** The endpoints the API client builds: a first segment, an identifier,
    and a tail that is empty or begins with a slash. *)
Lemma includes_endpoint (first id tail word : string) :
  Js.has_slash first = false -> Js.has_slash word = false ->
  Js.startsWith first word = false ->
  Js.leaves_uuid_chars word = true -> Js.uuid_chars id = true ->
  Js.startsWith tail "/" = true \/ tail = "" ->
  Js.includes (String "/" (first ++ String "/" (id ++ tail))) (String "/" word)
  = Js.includes tail (String "/" word).
Proof.
  intros Hfirst Hword Hstart Hleaves Hid Htail.
  cbn [Js.includes].
  rewrite (includes_no_slash first _ word Hfirst). cbn [Js.includes].
  rewrite (includes_no_slash id tail word (uuid_chars_no_slash id Hid)).
  unfold Js.startsWith at 1 2. cbn [Js.after_prefix]. rewrite Ascii.eqb_refl.
  fold (Js.startsWith (first ++ String "/" (id ++ tail)) word).
  rewrite (startsWith_no_slash_word word first _ Hword), Hstart.
  now rewrite (after_prefix_leaves word id tail Hleaves Hid Htail).
Qed.

Lemma matches_endpoint (first id tail prefix then_ : string) :
  Js.has_slash first = false ->
  Js.leaves_uuid_chars prefix = true -> Js.uuid_chars id = true ->
  Js.startsWith tail "/" = true \/ tail = "" ->
  Js.matches_segment (String "/" prefix) then_
    (String "/" (first ++ String "/" (id ++ tail)))
  = (match Js.after_prefix prefix (first ++ String "/" (id ++ tail)) with
     | Some rest => Js.is_segment_then then_ rest
     | None => false
     end
     || Js.matches_segment (String "/" prefix) then_ tail)%bool.
Proof.
  intros Hfirst Hleaves Hid Htail.
  cbn [Js.matches_segment Js.after_prefix]. rewrite Ascii.eqb_refl.
  rewrite (matches_segment_no_slash first _ prefix then_ Hfirst).
  cbn [Js.matches_segment Js.after_prefix]. rewrite Ascii.eqb_refl.
  rewrite (after_prefix_leaves prefix id tail Hleaves Hid Htail). cbn [orb].
  now rewrite (matches_segment_no_slash id tail prefix then_
                 (uuid_chars_no_slash id Hid)).
Qed.

Lemma startsWith_endpoint (first id tail word : string) :
  Js.leaves_uuid_chars word = true -> Js.uuid_chars id = true ->
  Js.startsWith tail "/" = true \/ tail = "" ->
  Js.startsWith (String "/" (first ++ String "/" (id ++ tail)))
    (String "/" (first ++ String "/" word)) = false.
Proof.
  intros Hleaves Hid Htail. unfold Js.startsWith.
  cbn [Js.after_prefix]. rewrite Ascii.eqb_refl.
  change (String "/" (id ++ tail)) with ("/" ++ (id ++ tail)).
  change (String "/" word) with ("/" ++ word).
  rewrite !after_prefix_app_both.
  now rewrite (after_prefix_leaves word id tail Hleaves Hid Htail).
Qed.

Lemma segment_2_tail (first id rest : string) :
  Js.has_slash first = false -> Js.has_slash id = false ->
  Js.segment 2 (String "/" (first ++ String "/" (id ++ String "/" rest))) = Some id.
Proof.
  intros Hfirst Hid. unfold Js.segment.
  change (Js.split_slash (String "/" (first ++ String "/" (id ++ String "/" rest))))
    with ("" :: Js.split_slash (first ++ String "/" (id ++ String "/" rest))).
  now rewrite (split_slash_no_slash _ _ Hfirst), (split_slash_no_slash _ _ Hid).
Qed.

Lemma last_segment_endpoint (first id : string) :
  Js.has_slash id = false ->
  Js.last_segment (String "/" (first ++ String "/" id)) = id.
Proof.
  intros Hid.
  assert (Hcut : forall a current,
             Js.last_segment_from current (a ++ String "/" id) = id).
  { induction a as [|c a IH]; intros current.
    - rewrite append_nil. cbn [Js.last_segment_from]. rewrite Ascii.eqb_refl.
      now apply last_segment_from_no_slash.
    - rewrite append_cons. cbn [Js.last_segment_from].
      destruct (Ascii.eqb c "/"); apply IH. }
  unfold Js.last_segment. cbn [Js.last_segment_from]. rewrite Ascii.eqb_refl.
  apply Hcut.
Qed.


Lemma append_nil_r (s : string) : s ++ "" = s.
Proof.
  induction s as [|c s IH]; [reflexivity|]. rewrite append_cons. now rewrite IH.
Qed.



Lemma is_segment_then_tail (id rest then_ : string) :
  Js.has_slash id = false ->
  Js.is_segment_then then_ (id ++ String "/" rest)
  = (negb (String.eqb id "") && String.eqb (String "/" rest) then_)%bool.
Proof.
  intros Hid. destruct id as [|c id]; [reflexivity|].
  rewrite append_cons. unfold Js.is_segment_then.
  rewrite <- append_cons, (from_first_slash_no_slash _ rest Hid).
  simpl in Hid. apply orb_false_iff in Hid as [Hc _]. now rewrite Hc.
Qed.

Lemma is_segment_then_end (id : string) :
  Js.has_slash id = false ->
  Js.is_segment_then "" id = negb (String.eqb id "").
Proof.
  intros Hid. destruct id as [|c id]; [reflexivity|].
  unfold Js.is_segment_then. rewrite (from_first_slash_none _ Hid).
  simpl in Hid. apply orb_false_iff in Hid as [Hc _]. now rewrite Hc.
Qed.

Lemma is_segment_then_not_end (id rest : string) :
  Js.has_slash id = false -> Js.is_segment_then "" (id ++ String "/" rest) = false.
Proof.
  intros Hid. rewrite (is_segment_then_tail id rest "" Hid). apply andb_false_r.
Qed.

Lemma eqb_empty (id : string) : id <> "" -> String.eqb id "" = false.
Proof.
  intros Hid. now apply String.eqb_neq.
Qed.

End RouterFacts.

(** The conditions of the router on an endpoint [ep] that is [first], an
    identifier [id] and a [tail], each settled by one of the lemmas
    above. *)
Ltac no_start ep pattern first id tail word Hid Htail :=
  replace (Js.startsWith ep pattern) with false
    by (symmetry; exact (startsWith_endpoint first id tail word eq_refl Hid Htail)).

Ltac includes_in_tail ep first id tail word Hid Htail :=
  replace (Js.includes ep (String "/" word))
    with (Js.includes tail (String "/" word))
    by (symmetry;
        exact (includes_endpoint first id tail word eq_refl eq_refl eq_refl eq_refl
                 Hid Htail)).

Ltac matches_own ep first id tail prefix then_ Hid Htail :=
  replace (Js.matches_segment (String "/" prefix) then_ ep)
    with (Js.is_segment_then then_ (id ++ tail)
          || Js.matches_segment (String "/" prefix) then_ tail)%bool
    by (symmetry; exact (matches_endpoint first id tail prefix then_ eq_refl eq_refl
                           Hid Htail)).

Ltac matches_in_tail ep first id tail prefix then_ Hid Htail :=
  replace (Js.matches_segment (String "/" prefix) then_ ep)
    with (Js.matches_segment (String "/" prefix) then_ tail)
    by (symmetry; exact (matches_endpoint first id tail prefix then_ eq_refl eq_refl
                           Hid Htail)).

Ltac matches_any ep first id tail prefix then_ Hid Htail :=
  first [ matches_own ep first id tail prefix then_ Hid Htail
        | matches_in_tail ep first id tail prefix then_ Hid Htail ].

Ltac settle_route ep first id tail Hid Htail :=
  try no_start ep "/businesses/slug/" first id tail "slug/" Hid Htail;
  try no_start ep "/businesses/email/" first id tail "email/" Hid Htail;
  try matches_any ep first id tail "businesses/" "" Hid Htail;
  try matches_any ep first id tail "payment-applications/" "" Hid Htail;
  try matches_any ep first id tail "notifications/" "/read" Hid Htail;
  try includes_in_tail ep first id tail "slug" Hid Htail;
  try includes_in_tail ep first id tail "stats" Hid Htail;
  try includes_in_tail ep first id tail "transactions" Hid Htail;
  try includes_in_tail ep first id tail "applications" Hid Htail;
  try includes_in_tail ep first id tail "customers" Hid Htail;
  try includes_in_tail ep first id tail "trust-rules" Hid Htail;
  try includes_in_tail ep first id tail "notifications" Hid Htail.

Section RouteFacts.







Lemma route_getApplicationById (id : string) :
  Js.uuid_chars id = true -> id <> "" ->
  MockApi.route "GET" ("/payment-applications/" ++ id)
  = MockApi.to_getApplicationById id.
Proof.
  intros Hid Hsome. pose proof (uuid_chars_no_slash id Hid) as Hslash.
  assert (Htail : Js.startsWith "" "/" = true \/ "" = "") by (right; reflexivity).
  replace ("/payment-applications/" ++ id) with ("/payment-applications/" ++ id ++ "")
    by now rewrite append_nil_r.
  unfold MockApi.route.
  set (ep := "/payment-applications/" ++ id ++ "").
  settle_route ep "payment-applications" id "" Hid Htail.
  rewrite append_nil_r, (is_segment_then_end id Hslash), (eqb_empty id Hsome).
  subst ep. rewrite append_nil_r.
  replace (Js.last_segment ("/payment-applications/" ++ id)) with id
    by (symmetry; exact (last_segment_endpoint "payment-applications" id Hslash)).
  reflexivity.
Qed.





Lemma route_getRules (id : string) :
  Js.uuid_chars id = true ->
  MockApi.route "GET" ("/businesses/" ++ id ++ "/trust-rules")
  = MockApi.to_getTrustRules (Some id).
Proof.
  intros Hid. pose proof (uuid_chars_no_slash id Hid) as Hslash.
  assert (Htail : Js.startsWith "/trust-rules" "/" = true \/ "/trust-rules" = "")
    by (left; reflexivity).
  unfold MockApi.route.
  set (ep := "/businesses/" ++ id ++ "/trust-rules").
  settle_route ep "businesses" id "/trust-rules" Hid Htail.
  rewrite (is_segment_then_not_end id "trust-rules" Hslash).
  replace (Js.segment 2 ep) with (Some id)
    by (symmetry; exact (segment_2_tail "businesses" id "trust-rules" eq_refl Hslash)).
  reflexivity.
Qed.

Lemma route_updateRules (id : string) :
  Js.uuid_chars id = true ->
  MockApi.route "PUT" ("/businesses/" ++ id ++ "/trust-rules")
  = MockApi.to_updateTrustRules (Some id).
Proof.
  intros Hid. pose proof (uuid_chars_no_slash id Hid) as Hslash.
  assert (Htail : Js.startsWith "/trust-rules" "/" = true \/ "/trust-rules" = "")
    by (left; reflexivity).
  unfold MockApi.route.
  set (ep := "/businesses/" ++ id ++ "/trust-rules").
  settle_route ep "businesses" id "/trust-rules" Hid Htail.
  replace (Js.segment 2 ep) with (Some id)
    by (symmetry; exact (segment_2_tail "businesses" id "trust-rules" eq_refl Hslash)).
  reflexivity.
Qed.

Lemma route_markNotificationAsRead (id : string) :
  Js.uuid_chars id = true -> id <> "" ->
  MockApi.route "PUT" ("/notifications/" ++ id ++ "/read")
  = MockApi.to_markNotificationAsRead (Some id).
Proof.
  intros Hid Hsome. pose proof (uuid_chars_no_slash id Hid) as Hslash.
  assert (Htail : Js.startsWith "/read" "/" = true \/ "/read" = "")
    by (left; reflexivity).
  unfold MockApi.route.
  set (ep := "/notifications/" ++ id ++ "/read").
  settle_route ep "notifications" id "/read" Hid Htail.
  rewrite (is_segment_then_tail id "read" "/read" Hslash), (eqb_empty id Hsome).
  replace (Js.segment 2 ep) with (Some id)
    by (symmetry; exact (segment_2_tail "notifications" id "read" eq_refl Hslash)).
  reflexivity.
Qed.





End RouteFacts.

Section RequestFacts.

Variables randomUUID toISOString : nat -> string.
Variable random : nat -> Q.
Variable other_routes :
  MockApi.Route -> option MockApi.Body -> MockApi.World
  -> MockApi.Answer * MockApi.World.


Lemma businessApi_markNotificationAsRead_run (id : string) (w : MockApi.World) :
  Js.uuid_chars id = true -> id <> "" ->
  Api.businessApi_markNotificationAsRead randomUUID toISOString random other_routes
    id w
  = MockApi.attempt MockApi.success_response
      (MockApi.markNotificationAsRead id) (MockApi.network_delay w).
Proof.
  intros Hid Hsome.
  unfold Api.businessApi_markNotificationAsRead, Api.put, Api.request,
    MockApi.handleRequest.
  cbv zeta. change (if String.eqb "PUT" "" then "GET" else "PUT") with "PUT".
  now rewrite (route_markNotificationAsRead id Hid Hsome).
Qed.

Lemma paymentApi_submitApplication_run (data : PaymentApplicationData.t)
      (w : MockApi.World) :
  Api.paymentApi_submitApplication randomUUID toISOString random other_routes data w
  = MockApi.attempt MockApi.application_response
      (MockApi.submitApplication randomUUID toISOString random data)
      (MockApi.network_delay w).
Proof.
  reflexivity.
Qed.

Lemma paymentApi_getApplicationById_run (id : string) (w : MockApi.World) :
  Js.uuid_chars id = true -> id <> "" ->
  Api.paymentApi_getApplicationById randomUUID toISOString random other_routes id w
  = MockApi.attempt MockApi.application_response
      (MockApi.getApplicationById id) (MockApi.network_delay w).
Proof.
  intros Hid Hsome.
  unfold Api.paymentApi_getApplicationById, Api.get, Api.request,
    MockApi.handleRequest.
  cbv zeta. change (if String.eqb "GET" "" then "GET" else "GET") with "GET".
  now rewrite (route_getApplicationById id Hid Hsome).
Qed.

Lemma trustRulesApi_updateRules_run (id : string) (rules : TrustRulesData.t)
      (w : MockApi.World) :
  Js.uuid_chars id = true ->
  Api.trustRulesApi_updateRules randomUUID toISOString random other_routes id rules w
  = MockApi.attempt MockApi.success_response
      (MockApi.updateTrustRules toISOString id rules) (MockApi.network_delay w).
Proof.
  intros Hid.
  unfold Api.trustRulesApi_updateRules, Api.put, Api.request, MockApi.handleRequest.
  cbv zeta. change (if String.eqb "PUT" "" then "GET" else "PUT") with "PUT".
  now rewrite (route_updateRules id Hid).
Qed.

Lemma trustRulesApi_getRules_run (id : string) (w : MockApi.World) :
  Js.uuid_chars id = true ->
  Api.trustRulesApi_getRules randomUUID toISOString random other_routes id w
  = MockApi.attempt MockApi.rules_response
      (MockApi.getTrustRules id) (MockApi.network_delay w).
Proof.
  intros Hid.
  unfold Api.trustRulesApi_getRules, Api.get, Api.request, MockApi.handleRequest.
  cbv zeta. change (if String.eqb "GET" "" then "GET" else "GET") with "GET".
  now rewrite (route_getRules id Hid).
Qed.

End RequestFacts.



(** X27. The router looks for [/slug] anywhere in the endpoint of a [PUT]
    before it looks at anything else: were an identifier to begin with
    [slug], marking a notification as read and saving the trust rules
    would both be handed to [updateSlug]; and the trust rules of a business
    whose identifier is [slug] itself would be read as a lookup of the slug
    [trust-rules]. *)
Theorem router_takes_slug_identifiers_elsewhere :
  forall id : string,
    Js.has_slash id = false -> Js.startsWith id "slug" = true ->
    MockApi.route "PUT" ("/notifications/" ++ id ++ "/read")
    = MockApi.to_updateSlug (Some id)
    /\ MockApi.route "PUT" ("/businesses/" ++ id ++ "/trust-rules")
       = MockApi.to_updateSlug (Some id)
    /\ MockApi.route "GET" ("/businesses/" ++ "slug" ++ "/trust-rules")
       = MockApi.to_getBusinessBySlug "trust-rules".
Proof.
  intros id Hslash Hstart.
  assert (Hfound : forall rest, Js.includes (String "/" (id ++ String "/" rest)) "/slug"
                                = true).
  { intros rest.
    change (Js.includes (String "/" (id ++ String "/" rest)) "/slug")
      with (Js.startsWith (id ++ String "/" rest) "slug"
            || Js.includes (id ++ String "/" rest) "/slug")%bool.
    now rewrite (startsWith_no_slash_word "slug" id rest eq_refl), Hstart. }
  split; [|split; [|reflexivity]].
  - unfold MockApi.route.
    set (ep := "/notifications/" ++ id ++ "/read").
    replace (Js.includes ep "/slug") with true
      by (symmetry; exact (includes_app_r "/notifications" _ "/slug" (Hfound "read"))).
    replace (Js.segment 2 ep) with (Some id)
      by (symmetry; exact (segment_2_tail "notifications" id "read" eq_refl Hslash)).
    reflexivity.
  - unfold MockApi.route.
    set (ep := "/businesses/" ++ id ++ "/trust-rules").
    replace (Js.includes ep "/slug") with true
      by (symmetry;
          exact (includes_app_r "/businesses" _ "/slug" (Hfound "trust-rules"))).
    replace (Js.segment 2 ep) with (Some id)
      by (symmetry;
          exact (segment_2_tail "businesses" id "trust-rules" eq_refl Hslash)).
    reflexivity.
Qed.

Lemma router_takes_slug_identifiers_elsewhere_witness :
  Js.has_slash "slug-1" = false
  /\ Js.startsWith "slug-1" "slug" = true
  /\ MockApi.route "PUT" "/notifications/slug-1/read"
     = MockApi.to_updateSlug (Some "slug-1").
Proof.
  assert (Hslash : Js.has_slash "slug-1" = false) by reflexivity.
  assert (Hstart : Js.startsWith "slug-1" "slug" = true) by reflexivity.
  split; [exact Hslash|]. split; [exact Hstart|].
  exact (proj1 (router_takes_slug_identifiers_elsewhere "slug-1" Hslash Hstart)).
Defined.


(** * Further properties of the pages *)

(** X16. Saving the trust rules page and loading it again, both through the
    API client and the router of the mock, brings back every threshold and
    policy number of the page for a business whose identifier is of the
    kind [crypto.randomUUID()] makes; the two switches that the API record
    does not carry ([requireManualReview] and [allowEmergencyOverride])
    come back switched on, whatever they were. *)
Theorem saved_page_rules_are_loaded_back :
  forall (randomUUID toISOString : nat -> string) (random : nat -> Q)
         (other_routes :
            MockApi.Route -> option MockApi.Body -> MockApi.World
            -> MockApi.Answer * MockApi.World)
         (businessId : string) (rules : TrustRulesPage.Rules) (w : MockApi.World),
    Js.uuid_chars businessId = true ->
    exists stored w' w'',
      Api.trustRulesApi_updateRules randomUUID toISOString random other_routes
        businessId (TrustRulesPage.handleSave_apiRules businessId rules) w
      = (inl (MockApi.success_response true), w')
      /\ Api.trustRulesApi_getRules randomUUID toISOString random other_routes
           businessId w'
         = (inl (MockApi.rules_response stored), w'')
      /\ MockApi.storage w'' = MockApi.storage w'
      /\ TrustRulesPage.loadRules stored
         = {| TrustRulesPage.trustedThreshold := TrustRulesPage.trustedThreshold rules;
              TrustRulesPage.verifiedThreshold :=
                TrustRulesPage.verifiedThreshold rules;
              TrustRulesPage.newCustomerThreshold :=
                TrustRulesPage.newCustomerThreshold rules;
              TrustRulesPage.restrictedThreshold :=
                TrustRulesPage.restrictedThreshold rules;
              TrustRulesPage.autoApproveAbove := TrustRulesPage.autoApproveAbove rules;
              TrustRulesPage.autoDeclineBelow := TrustRulesPage.autoDeclineBelow rules;
              TrustRulesPage.requireManualReview := true;
              TrustRulesPage.maxOutstandingPerCustomer :=
                TrustRulesPage.maxOutstandingPerCustomer rules;
              TrustRulesPage.allowEmergencyOverride := true;
              TrustRulesPage.consecutiveFailureLimit :=
                TrustRulesPage.consecutiveFailureLimit rules;
              TrustRulesPage.penaltyForLatePay :=
                TrustRulesPage.penaltyForLatePay rules;
              TrustRulesPage.bonusForOnTime := TrustRulesPage.bonusForOnTime rules;
              TrustRulesPage.minimumHistoryForTrusted :=
                TrustRulesPage.minimumHistoryForTrusted rules |}
      /\ TrustRulesPage.getTrustStateName (TrustRulesPage.loadRules stored)
         = TrustRulesPage.getTrustStateName rules.
Proof.
  intros randomUUID toISOString random other_routes businessId rules w Hid.
  rewrite (trustRulesApi_updateRules_run randomUUID toISOString random other_routes
             businessId _ w Hid).
  pose proof (updateTrustRules_run toISOString businessId
                (TrustRulesPage.handleSave_apiRules businessId rules)
                (MockApi.network_delay w)) as Hrun.
  cbv zeta in Hrun. unfold MockApi.attempt. rewrite Hrun.
  eexists _, _, _. split; [reflexivity|].
  rewrite (trustRulesApi_getRules_run randomUUID toISOString random other_routes
             businessId _ Hid).
  unfold MockApi.attempt.
  erewrite getTrustRules_with_rules
    by (cbn [MockApi.storage MockApi.network_delay MockApi.trustRules
             MockApi.with_trustRules];
        apply lookup_insert_eq).
  split; [reflexivity|]. split; [reflexivity|]. split; reflexivity.
Qed.

Lemma saved_page_rules_are_loaded_back_witness :
  Js.uuid_chars (Samples.uuid 0) = true
  /\ exists stored w' w'',
      Api.trustRulesApi_updateRules Samples.randomUUID Samples.toISOString
        Samples.random Samples.other_routes (Samples.uuid 0)
        (TrustRulesPage.handleSave_apiRules (Samples.uuid 0)
           TrustRulesPage.initialRules)
        Samples.fresh
      = (inl (MockApi.success_response true), w')
      /\ Api.trustRulesApi_getRules Samples.randomUUID Samples.toISOString
           Samples.random Samples.other_routes (Samples.uuid 0) w'
         = (inl (MockApi.rules_response stored), w'')
      /\ TrustRulesPage.getTrustStateName (TrustRulesPage.loadRules stored)
         = TrustRulesPage.getTrustStateName TrustRulesPage.initialRules.
Proof.
  assert (Hid : Js.uuid_chars (Samples.uuid 0) = true) by reflexivity.
  split; [exact Hid|].
  destruct (saved_page_rules_are_loaded_back Samples.randomUUID Samples.toISOString
              Samples.random Samples.other_routes (Samples.uuid 0)
              TrustRulesPage.initialRules Samples.fresh Hid)
    as (stored & w' & w'' & Hsave & Hload & _ & _ & Hnames).
  exists stored, w', w''. split; [exact Hsave|]. split; [exact Hload | exact Hnames].
Defined.

(** X17. The decision the trust rules page shows for a score follows the
    configured thresholds, the decision of the backend follows 70 and 40:
    the two say the same for every score exactly when the page is set to 70
    and 40; with the page's defaults (70 and 30) they differ on the scores
    30 to 39 (manual review on the page, declined by the backend) and
    nowhere else. *)
Theorem page_decision_against_backend_decision :
  forall rules : TrustRulesPage.Rules,
    let shown := TrustRulesPage.scenario_decision rules in
    let decided score :=
      match MockApi.getStatusFromScore score with
      | approved => "✅ AUTO-APPROVED"
      | declined => "❌ AUTO-DECLINED"
      | under_review => "⏸️ MANUAL REVIEW"
      end in
    ((forall score, shown score = decided score)
     <-> TrustRulesPage.autoApproveAbove rules = 70
         /\ TrustRulesPage.autoDeclineBelow rules = 40)
    /\ (TrustRulesPage.autoApproveAbove rules = 70 ->
        TrustRulesPage.autoDeclineBelow rules = 30 ->
        forall score,
          (30 <= score < 40 ->
           shown score = "⏸️ MANUAL REVIEW"
           /\ MockApi.getStatusFromScore score = declined)
          /\ (score < 30 \/ 40 <= score -> shown score = decided score)).
Proof.
  intros rules shown decided. subst shown decided. cbv beta.
  unfold TrustRulesPage.scenario_decision, MockApi.getStatusFromScore.
  split; [split|].
  - intros Hsame.
    pose proof (Hsame 70) as H70. pose proof (Hsame 69) as H69.
    pose proof (Hsame 40) as H40. pose proof (Hsame 39) as H39.
    cbn in H70, H69, H40, H39.
    destruct (Z.leb_spec (TrustRulesPage.autoApproveAbove rules) 70);
      [|destruct (70 <? TrustRulesPage.autoDeclineBelow rules)%Z; discriminate].
    destruct (Z.leb_spec (TrustRulesPage.autoApproveAbove rules) 69);
      [discriminate|].
    destruct (Z.leb_spec (TrustRulesPage.autoApproveAbove rules) 40); [lia|].
    destruct (Z.leb_spec (TrustRulesPage.autoApproveAbove rules) 39); [lia|].
    destruct (Z.ltb_spec 40 (TrustRulesPage.autoDeclineBelow rules));
      [discriminate|].
    destruct (Z.ltb_spec 39 (TrustRulesPage.autoDeclineBelow rules));
      [|discriminate].
    lia.
  - intros [-> ->] score.
    destruct (Z.leb_spec 70 score); [reflexivity|].
    destruct (Z.ltb_spec score 40); destruct (Z.leb_spec 40 score);
      try reflexivity; lia.
  - intros -> -> score. split.
    + intros Hrange.
      destruct (Z.leb_spec 70 score); [lia|].
      destruct (Z.ltb_spec score 30); [lia|].
      destruct (Z.leb_spec 40 score); [lia|]. split; reflexivity.
    + intros Houtside.
      destruct (Z.leb_spec 70 score); [reflexivity|].
      destruct (Z.ltb_spec score 30); destruct (Z.leb_spec 40 score);
        try reflexivity; lia.
Qed.

Lemma page_decision_against_backend_decision_witness :
  TrustRulesPage.autoApproveAbove TrustRulesPage.initialRules = 70
  /\ TrustRulesPage.autoDeclineBelow TrustRulesPage.initialRules = 30
  /\ 30 <= 35 < 40
  /\ TrustRulesPage.scenario_decision TrustRulesPage.initialRules 35
     = "⏸️ MANUAL REVIEW"
  /\ MockApi.getStatusFromScore 35 = declined.
Proof.
  assert (Hrange : 30 <= 35 < 40) by lia.
  split; [reflexivity|]. split; [reflexivity|]. split; [exact Hrange|].
  exact (proj1 (proj2 (page_decision_against_backend_decision
                         TrustRulesPage.initialRules) eq_refl eq_refl 35) Hrange).
Defined.

(** X18. The colours of the result page use the same cutoffs as the
    decision: for the application a submission returns, the score is shown
    in green exactly when it was approved, in yellow when it is under
    review and in red when it was declined. *)
Theorem result_colours_match_the_decision :
  forall (randomUUID toISOString : nat -> string) (random : nat -> Q)
         (data : PaymentApplicationData.t) (w : MockApi.World),
    (forall score,
        (PaymentResult.getTrustColor score, PaymentResult.getTrustBgColor score)
        = match MockApi.getStatusFromScore score with
          | approved => ("text-green-600", "bg-green-100")
          | under_review => ("text-yellow-600", "bg-yellow-100")
          | declined => ("text-red-600", "bg-red-100")
          end)
    /\ exists app w',
        MockApi.submitApplication randomUUID toISOString random data w
        = MockApi.Returned (app, w')
        /\ (PaymentResult.getTrustColor (PaymentApplication.trust_score app),
            PaymentResult.getTrustBgColor (PaymentApplication.trust_score app))
           = match PaymentApplication.status app with
             | approved => ("text-green-600", "bg-green-100")
             | under_review => ("text-yellow-600", "bg-yellow-100")
             | declined => ("text-red-600", "bg-red-100")
             end.
Proof.
  intros randomUUID toISOString random data w.
  assert (Hall : forall score,
             (PaymentResult.getTrustColor score, PaymentResult.getTrustBgColor score)
             = match MockApi.getStatusFromScore score with
               | approved => ("text-green-600", "bg-green-100")
               | under_review => ("text-yellow-600", "bg-yellow-100")
               | declined => ("text-red-600", "bg-red-100")
               end).
  { intros score.
    unfold PaymentResult.getTrustColor, PaymentResult.getTrustBgColor,
      MockApi.getStatusFromScore.
    destruct (70 <=? score)%Z; [reflexivity|].
    destruct (40 <=? score)%Z; reflexivity. }
  split; [exact Hall|].
  destruct (submitApplication_returns randomUUID toISOString random data w)
    as (app & n & w' & Hret & _ & _ & _ & Hstatus & _).
  exists app, w'. split; [exact Hret|]. rewrite Hstatus. apply Hall.
Qed.

(** ** The payment link page *)

Section SanitizerFacts.

Lemma slug_char_is_plain (c : ascii) :
  Js.is_slug_char c = true -> Js.lower_char c = c /\ Js.is_space c = false.
Proof.
  destruct c as [[] [] [] [] [] [] [] []]; simpl; intros H;
    solve [split; reflexivity | discriminate].
Qed.

Lemma keep_slug_chars_only (s : string) :
  Js.only_slug_chars (Js.keep_slug_chars s) = true.
Proof.
  induction s as [|c r IH]; simpl; [reflexivity|].
  destruct (Js.is_slug_char c) eqn:E; simpl; [now rewrite E|exact IH].
Qed.

Lemma slug_chars_fixed (s : string) :
  Js.only_slug_chars s = true ->
  Js.toLowerCase s = s
  /\ (forall in_run, Js.replace_spaces in_run s = s)
  /\ Js.keep_slug_chars s = s.
Proof.
  induction s as [|c r IH]; simpl; [intros _; repeat split; reflexivity|].
  intros H. apply andb_true_iff in H. destruct H as [Hc Hr].
  destruct (IH Hr) as (Hlow & Hrep & Hkeep).
  destruct (slug_char_is_plain c Hc) as [Hplain Hspace].
  rewrite Hplain, Hlow, Hspace, Hc, Hkeep. repeat split.
  intros in_run. now rewrite Hrep.
Qed.

End SanitizerFacts.

(** X19. The slug the payment link page sends is made of lower-case
    letters, digits and hyphens only, and sanitising it again changes
    nothing (for every new slug typed in ASCII). *)
Theorem sanitized_slug_is_clean :
  forall newSlug : string,
    Js.is_ascii newSlug = true ->
    Js.only_slug_chars (PaymentLink.sanitizedSlug newSlug) = true
    /\ Js.has_slash (PaymentLink.sanitizedSlug newSlug) = false
    /\ PaymentLink.sanitizedSlug (PaymentLink.sanitizedSlug newSlug)
       = PaymentLink.sanitizedSlug newSlug
    /\ MockApi.routed_slug (PaymentLink.sanitizedSlug newSlug)
       = PaymentLink.sanitizedSlug newSlug.
Proof.
  intros newSlug _.
  assert (Hclean : Js.only_slug_chars (PaymentLink.sanitizedSlug newSlug) = true)
    by apply keep_slug_chars_only.
  assert (Hno : Js.has_slash (PaymentLink.sanitizedSlug newSlug) = false).
  { revert Hclean. generalize (PaymentLink.sanitizedSlug newSlug).
    induction s as [|c r IH]; simpl; [reflexivity|].
    intros H. apply andb_true_iff in H. destruct H as [Hc Hr].
    rewrite (IH Hr), orb_false_r.
    destruct c as [[] [] [] [] [] [] [] []]; simpl in Hc |- *;
      solve [reflexivity | discriminate]. }
  split; [exact Hclean|]. split; [exact Hno|]. split.
  - destruct (slug_chars_fixed _ Hclean) as (Hlow & Hrep & Hkeep).
    unfold PaymentLink.sanitizedSlug at 1. now rewrite Hlow, Hrep, Hkeep.
  - rewrite routed_slug_is_last_segment. now apply last_segment_from_no_slash.
Qed.

Lemma sanitized_slug_is_clean_witness :
  Js.is_ascii "Acme Dental & Co." = true
  /\ PaymentLink.sanitizedSlug "Acme Dental & Co." = "acme-dental--co"
  /\ Js.only_slug_chars (PaymentLink.sanitizedSlug "Acme Dental & Co.") = true.
Proof.
  assert (Hascii : Js.is_ascii "Acme Dental & Co." = true) by reflexivity.
  split; [exact Hascii|]. split; [reflexivity|].
  exact (proj1 (sanitized_slug_is_clean "Acme Dental & Co." Hascii)).
Defined.



(** ** The customer payment form *)

Section FormFacts.

Lemma remove_non_digits_all_digits (s : string) :
  Js.all_digits (Js.remove_non_digits s) = true.
Proof.
  induction s as [|c r IH]; simpl; [reflexivity|].
  destruct (Js.is_digit c) eqn:E; simpl; [now rewrite E | exact IH].
Qed.

Lemma slice_to_all_digits (n : nat) (s : string) :
  Js.all_digits s = true -> Js.all_digits (Js.slice_to n s) = true.
Proof.
  revert s. induction n as [|n IH]; intros [|c r]; simpl; try reflexivity.
  intros H. apply andb_true_iff in H. destruct H as [Hc Hr].
  now rewrite Hc, IH.
Qed.

Lemma slice_to_length (n : nat) (s : string) :
  (String.length (Js.slice_to n s) <= n)%nat.
Proof.
  revert s. induction n as [|n IH]; intros [|c r]; simpl; try lia.
  specialize (IH r). lia.
Qed.

Lemma remove_non_digits_fixed (s : string) :
  Js.all_digits s = true -> Js.remove_non_digits s = s.
Proof.
  induction s as [|c r IH]; simpl; [reflexivity|].
  intros H. apply andb_true_iff in H. destruct H as [Hc Hr].
  now rewrite Hc, IH.
Qed.

Lemma slice_to_fixed (n : nat) (s : string) :
  (String.length s <= n)%nat -> Js.slice_to n s = s.
Proof.
  revert s. induction n as [|n IH]; intros [|c r]; simpl; try reflexivity; try lia.
  intros H. rewrite IH; [reflexivity | lia].
Qed.

Lemma handleBvnChange_digits (value : string) :
  Js.all_digits (CustomerPaymentForm.handleBvnChange value) = true
  /\ (String.length (CustomerPaymentForm.handleBvnChange value) <= 11)%nat.
Proof.
  unfold CustomerPaymentForm.handleBvnChange. split.
  - apply slice_to_all_digits, remove_non_digits_all_digits.
  - apply slice_to_length.
Qed.

(** The BVN check of step 1 is the last one made. *)
Lemma validateStep1_bvn (formData : CustomerPaymentForm.FormData) :
  (negb (String.eqb (CustomerPaymentForm.bvn formData) "")
   && negb (Js.is_n_digits 11
              (Js.remove_non_digits (CustomerPaymentForm.bvn formData))))%bool
  = true ->
  CustomerPaymentForm.validateStep1 formData !! "bvn" = Some "BVN must be 11 digits".
Proof.
  intros H. unfold CustomerPaymentForm.validateStep1. rewrite H.
  apply lookup_insert_eq.
Qed.

Lemma validateStep1_no_bvn_error (formData : CustomerPaymentForm.FormData) :
  (negb (String.eqb (CustomerPaymentForm.bvn formData) "")
   && negb (Js.is_n_digits 11
              (Js.remove_non_digits (CustomerPaymentForm.bvn formData))))%bool
  = false ->
  CustomerPaymentForm.validateStep1 formData !! "bvn" = None.
Proof.
  intros H. unfold CustomerPaymentForm.validateStep1. rewrite H.
  destruct (Js.blank (CustomerPaymentForm.fullName formData));
    destruct (Js.blank (CustomerPaymentForm.email formData));
    destruct (negb (Js.looks_like_email (CustomerPaymentForm.email formData)));
    destruct (Js.blank (CustomerPaymentForm.phone formData));
    now simplify_map_eq.
Qed.

End FormFacts.

(** X21. Whatever is typed in the BVN field, the form keeps digits only, at
    most eleven, and typing the kept value again changes nothing.  The BVN
    check of step 1 passes exactly when the kept value is empty or has
    eleven digits, so an application sent after a clean step 1 earns the BVN
    bonus only with an eleven-digit BVN. *)
Theorem form_bvn_is_empty_or_eleven_digits :
  forall (value : string) (formData : CustomerPaymentForm.FormData)
         (paymentType : PaymentType) (business_id : string),
    let bvn := CustomerPaymentForm.handleBvnChange value in
    Js.all_digits bvn = true
    /\ (String.length bvn <= 11)%nat
    /\ CustomerPaymentForm.handleBvnChange bvn = bvn
    /\ (CustomerPaymentForm.bvn formData = bvn ->
        (CustomerPaymentForm.validateStep1 formData !! "bvn" = None
         <-> bvn = "" \/ String.length bvn = 11%nat)
        /\ (CustomerPaymentForm.validateStep1 formData = ∅ ->
            Spec.has_bvn
              (CustomerPaymentForm.payload paymentType business_id formData)
            = true ->
            PaymentApplicationData.customer_bvn
              (CustomerPaymentForm.payload paymentType business_id formData)
            = Some bvn
            /\ Js.is_n_digits 11 bvn = true)).
Proof.
  intros value formData paymentType business_id bvn.
  destruct (handleBvnChange_digits value) as [Hdigits Hlen].
  fold bvn in Hdigits, Hlen.
  split; [exact Hdigits|]. split; [exact Hlen|]. split.
  { unfold CustomerPaymentForm.handleBvnChange at 1.
    rewrite (remove_non_digits_fixed _ Hdigits). now apply slice_to_fixed. }
  intros Hform.
  assert (Hcheck :
            (negb (String.eqb bvn "")
             && negb (Js.is_n_digits 11 (Js.remove_non_digits bvn)))%bool = false
            <-> bvn = "" \/ String.length bvn = 11%nat).
  { rewrite (remove_non_digits_fixed _ Hdigits). unfold Js.is_n_digits.
    rewrite Hdigits. cbn [andb].
    destruct (String.eqb_spec bvn "") as [->|Hne]; cbn [negb andb].
    - split; [now left | reflexivity].
    - rewrite negb_false_iff, Nat.eqb_eq. split; [now right|].
      intros [H|H]; [contradiction | exact H]. }
  split.
  - rewrite <- Hcheck, <- Hform. split.
    + intros Hnone.
      destruct (negb (String.eqb (CustomerPaymentForm.bvn formData) "")
                && negb (Js.is_n_digits 11
                           (Js.remove_non_digits (CustomerPaymentForm.bvn formData))))%bool
        eqn:E; [|reflexivity].
      rewrite (validateStep1_bvn _ E) in Hnone. discriminate.
    + apply validateStep1_no_bvn_error.
  - intros Hvalid Hbonus.
    assert (Hne : String.eqb bvn "" = false).
    { revert Hbonus. unfold Spec.has_bvn, CustomerPaymentForm.payload.
      cbn [PaymentApplicationData.customer_bvn]. rewrite Hform.
      destruct (String.eqb bvn ""); [discriminate | reflexivity]. }
    split.
    { unfold CustomerPaymentForm.payload.
      cbn [PaymentApplicationData.customer_bvn]. now rewrite Hform, Hne. }
    assert (Hnone : CustomerPaymentForm.validateStep1 formData !! "bvn" = None)
      by (rewrite Hvalid; apply lookup_empty).
    destruct (negb (String.eqb (CustomerPaymentForm.bvn formData) "")
              && negb (Js.is_n_digits 11
                         (Js.remove_non_digits (CustomerPaymentForm.bvn formData))))%bool
      eqn:E.
    + rewrite (validateStep1_bvn _ E) in Hnone. discriminate.
    + rewrite Hform in E. apply Hcheck in E.
      destruct E as [E|E].
      * rewrite E in Hne. discriminate.
      * unfold Js.is_n_digits. rewrite Hdigits, E. reflexivity.
Qed.

Lemma form_bvn_is_empty_or_eleven_digits_witness :
  CustomerPaymentForm.bvn Samples.filled_form
  = CustomerPaymentForm.handleBvnChange "123-4567 8901 (bvn)"
  /\ CustomerPaymentForm.validateStep1 Samples.filled_form !! "bvn" = None.
Proof.
  assert (Hform : CustomerPaymentForm.bvn Samples.filled_form
                  = CustomerPaymentForm.handleBvnChange "123-4567 8901 (bvn)")
    by reflexivity.
  split; [exact Hform|].
  destruct (form_bvn_is_empty_or_eleven_digits "123-4567 8901 (bvn)"
              Samples.filled_form INSTALMENT "b-1") as (_ & _ & _ & Hcheck).
  apply (proj1 (Hcheck Hform)). right. reflexivity.
Defined.

Section PayloadFacts.

Lemma positive_amount_is_used (a : Q) (other : option Q) :
  Qle_bool a 0 = false ->
  (0 < a)%Q
  /\ match Js.or_number (Js.or_number (Some a) other) (Some 0%Q) with
     | Some q => q
     | None => 0%Q
     end = a.
Proof.
  intros Hpos.
  assert (Hlt : (0 < a)%Q).
  { apply Qnot_le_lt. intros Hle. apply Qle_bool_iff in Hle. congruence. }
  split; [exact Hlt|].
  unfold Js.or_number, Js.truthy_number.
  destruct (Qeq_bool a 0) eqn:E.
  - apply Qeq_bool_eq in E. rewrite E in Hlt. now apply Qlt_irrefl in Hlt.
  - cbn [negb]. now rewrite E.
Qed.

Lemma errors_not_empty (k v : string) (m : gmap string string) :
  <[k := v]> m = ∅ -> False.
Proof.
  apply insert_non_empty.
Qed.

End PayloadFacts.

(** X22. The payload the form builds always carries the amount field of its
    payment type and never the other one, so the score of a form
    application is computed on the amount of its own type.  When step 2 of
    the form reports no error, that amount is positive, at least the
    business's minimum order value for an INSTALMENT (when the payment rules
    are loaded) and at least 5,000 for a SUBSCRIPTION. *)
Theorem form_payload_carries_its_amount :
  forall (toLocaleString : Q -> string) (paymentType : PaymentType)
         (business_id : string) (formData : CustomerPaymentForm.FormData)
         (paymentRules : option (CustomerPayment.PaymentRules Q)),
    let sent := CustomerPaymentForm.payload paymentType business_id formData in
    Spec.amounts_exclusive sent
    /\ ~ Spec.required_amount_missing sent
    /\ (MockApi.amount_of sent == Spec.amount_by_type sent)%Q
    /\ (Spec.is_monthly sent = true
        <-> CustomerPaymentForm.paymentFrequency formData = CustomerPayment.monthly)
    /\ (CustomerPaymentForm.validateStep2 toLocaleString paymentType formData
          paymentRules = ∅ ->
        (0 < MockApi.amount_of sent)%Q
        /\ match paymentType with
           | INSTALMENT =>
               CustomerPaymentForm.totalAmount formData
               = Some (MockApi.amount_of sent)
               /\ forall rules, paymentRules = Some rules ->
                    (CustomerPayment.min_order_value rules
                     <= MockApi.amount_of sent)%Q
           | SUBSCRIPTION =>
               CustomerPaymentForm.recurringAmount formData
               = Some (MockApi.amount_of sent)
               /\ (5000 <= MockApi.amount_of sent)%Q
           end).
Proof.
  intros toLocaleString paymentType business_id formData paymentRules sent.
  assert (Hexclusive : Spec.amounts_exclusive sent)
    by (subst sent; destruct paymentType; reflexivity).
  split; [exact Hexclusive|].
  split; [subst sent; destruct paymentType; discriminate|].
  split; [now apply amount_of_by_type|].
  split.
  { subst sent. unfold Spec.is_monthly, CustomerPaymentForm.payload.
    cbn [PaymentApplicationData.payment_frequency].
    destruct (CustomerPaymentForm.paymentFrequency formData);
      split; intros H; try reflexivity; discriminate. }
  intros Hvalid. subst sent.
  unfold CustomerPaymentForm.validateStep2 in Hvalid.
  unfold MockApi.amount_of, CustomerPaymentForm.payload.
  cbn [PaymentApplicationData.total_amount PaymentApplicationData.recurring_amount].
  destruct paymentType.
  - destruct (CustomerPaymentForm.totalAmount formData) as [a|];
      [destruct (Qle_bool a 0) eqn:Hpos|];
      destruct (Js.blank (CustomerPaymentForm.serviceDescription formData));
      destruct (String.eqb (CustomerPaymentForm.preferredStartDate formData) "");
      try solve [exfalso; exact (errors_not_empty _ _ _ Hvalid)];
      try solve [destruct paymentRules as [rules|];
                 [destruct (Js.lt a (CustomerPayment.min_order_value rules))|];
                 exfalso; exact (errors_not_empty _ _ _ Hvalid)].
    cbn [default from_option id].
    destruct (positive_amount_is_used a None Hpos) as [Hlt ->].
    split; [exact Hlt|]. split; [reflexivity|].
    intros rules ->.
    destruct (Js.lt a (CustomerPayment.min_order_value rules)) eqn:Hmin;
      [exfalso; exact (errors_not_empty _ _ _ Hvalid)|].
    now apply lt_false.
  - destruct (CustomerPaymentForm.recurringAmount formData) as [a|];
      [destruct (Qle_bool a 0) eqn:Hpos; [|destruct (Js.lt a 5000) eqn:Hmin]|];
      destruct (Js.blank (CustomerPaymentForm.serviceDescription formData));
      destruct (String.eqb (CustomerPaymentForm.preferredStartDate formData) "");
      try solve [exfalso; exact (errors_not_empty _ _ _ Hvalid)].
    cbn [default from_option id].
    assert (Hlt : (0 < a)%Q) by (apply lt_false in Hmin; lra).
    assert (Hused : match Js.or_number (Js.or_number None (Some a)) (Some 0%Q) with
                    | Some q => q
                    | None => 0%Q
                    end = a).
    { unfold Js.or_number, Js.truthy_number. cbn [negb].
      destruct (Qeq_bool a 0) eqn:E; [|reflexivity].
      apply Qeq_bool_eq in E. rewrite E in Hlt. now apply Qlt_irrefl in Hlt. }
    rewrite Hused.
    split; [exact Hlt|]. split; [reflexivity|]. now apply lt_false.
Qed.

Lemma form_payload_carries_its_amount_witness :
  CustomerPaymentForm.validateStep2 Samples.toLocaleString INSTALMENT
    Samples.filled_form (Some Samples.rules_30_6_exact) = ∅
  /\ (0 < MockApi.amount_of
            (CustomerPaymentForm.payload INSTALMENT "b-1" Samples.filled_form))%Q.
Proof.
  assert (Hvalid : CustomerPaymentForm.validateStep2 Samples.toLocaleString
                     INSTALMENT Samples.filled_form (Some Samples.rules_30_6_exact)
                   = ∅) by reflexivity.
  split; [exact Hvalid|].
  destruct (form_payload_carries_its_amount Samples.toLocaleString INSTALMENT "b-1"
              Samples.filled_form (Some Samples.rules_30_6_exact))
    as (_ & _ & _ & _ & Hamount).
  exact (proj1 (Hamount Hvalid)).
Defined.

(** X23. [handleSubmit] sends nothing when the terms are not agreed to or no
    business is loaded.  Otherwise the request goes through the API client
    and the router of the mock and never fails: the page navigates to the
    application the mock answers with, whose data are exactly the payload
    of the form for that business, whose status is the one its score maps
    to, and which is stored under its identifier; with an identifier of
    the kind [crypto.randomUUID()] makes, the result page gets the same
    application back when it asks the API client for it. *)
Theorem form_submission_outcomes :
  forall (randomUUID toISOString : nat -> string) (random : nat -> Q)
         (other_routes :
            MockApi.Route -> option MockApi.Body -> MockApi.World
            -> MockApi.Answer * MockApi.World)
         (paymentType : PaymentType) (business : option Business.t)
         (formData : CustomerPaymentForm.FormData) (w : MockApi.World),
    (CustomerPaymentForm.agreedToTerms formData = false \/ business = None ->
     CustomerPaymentForm.handleSubmit randomUUID toISOString random other_routes
       paymentType business formData w
     = (None, w))
    /\ (CustomerPaymentForm.agreedToTerms formData = true ->
        forall b, business = Some b ->
        exists app w',
          CustomerPaymentForm.handleSubmit randomUUID toISOString random
            other_routes paymentType business formData w
          = (Some (MockApi.application_response app), w')
          /\ PaymentApplication.data app
             = CustomerPaymentForm.payload paymentType (Business.id b) formData
          /\ PaymentApplication.id app = randomUUID (MockApi.uuid_calls w)
          /\ PaymentApplication.status app
             = MockApi.getStatusFromScore (PaymentApplication.trust_score app)
          /\ MockApi.getApplicationById (PaymentApplication.id app) w'
             = MockApi.Returned (app, w')
          /\ (Js.uuid_chars (PaymentApplication.id app) = true ->
              PaymentApplication.id app <> "" ->
              Api.paymentApi_getApplicationById randomUUID toISOString random
                other_routes (PaymentApplication.id app) w'
              = (inl (MockApi.application_response app),
                 MockApi.network_delay w'))).
Proof.
  intros randomUUID toISOString random other_routes paymentType business formData w.
  unfold CustomerPaymentForm.handleSubmit. split.
  - intros [Hterms | ->].
    + now rewrite Hterms.
    + now destruct (negb (CustomerPaymentForm.agreedToTerms formData)).
  - intros Hterms b ->. rewrite Hterms. cbn [negb].
    rewrite paymentApi_submitApplication_run. unfold MockApi.attempt.
    destruct (submitApplication_returns randomUUID toISOString random
                (CustomerPaymentForm.payload paymentType (Business.id b) formData)
                (MockApi.network_delay w))
      as (app & n & w' & Hret & Hdata & Hid & _ & Hstatus & Happs & _).
    rewrite Hret. exists app, w'. split; [reflexivity|].
    split; [exact Hdata|]. split; [exact Hid|]. split; [exact Hstatus|].
    assert (Hstored : MockApi.applications (MockApi.storage w')
                      !! PaymentApplication.id app = Some app)
      by (rewrite Happs; apply lookup_insert_eq).
    split; [now apply getApplicationById_found|].
    intros Huuid Hsome.
    rewrite (paymentApi_getApplicationById_run randomUUID toISOString random
               other_routes _ w' Huuid Hsome).
    unfold MockApi.attempt.
    now rewrite (getApplicationById_found _ app (MockApi.network_delay w') Hstored).
Qed.

Lemma form_submission_outcomes_witness :
  CustomerPaymentForm.agreedToTerms Samples.filled_form = true
  /\ exists b w0 app w',
      MockApi.registerBusiness Samples.uuid Samples.toISOString Samples.acme
        Samples.fresh = MockApi.Returned (b, w0)
      /\ CustomerPaymentForm.handleSubmit Samples.uuid Samples.toISOString
           Samples.random Samples.other_routes INSTALMENT (Some b)
           Samples.filled_form w0
         = (Some (MockApi.application_response app), w')
      /\ Js.uuid_chars (PaymentApplication.id app) = true
      /\ PaymentApplication.id app <> ""
      /\ Api.paymentApi_getApplicationById Samples.uuid Samples.toISOString
           Samples.random Samples.other_routes (PaymentApplication.id app) w'
         = (inl (MockApi.application_response app), MockApi.network_delay w').
Proof.
  assert (Hterms : CustomerPaymentForm.agreedToTerms Samples.filled_form = true)
    by reflexivity.
  split; [exact Hterms|].
  pose proof (registerBusiness_run Samples.uuid Samples.toISOString
                Samples.acme Samples.fresh) as Hreg.
  cbv zeta in Hreg.
  match type of Hreg with
  | _ = MockApi.Returned (?b0, ?w1) => set (b := b0) in *; set (w0 := w1) in *
  end.
  destruct (proj2 (form_submission_outcomes Samples.uuid Samples.toISOString
                     Samples.random Samples.other_routes INSTALMENT (Some b)
                     Samples.filled_form w0)
              Hterms b eq_refl) as (app & w' & Hsub & _ & Hid & _ & _ & Hfetch).
  assert (Huuid : Js.uuid_chars (PaymentApplication.id app) = true)
    by (rewrite Hid; reflexivity).
  assert (Hsome : PaymentApplication.id app <> "")
    by (rewrite Hid; discriminate).
  exists b, w0, app, w'. split; [exact Hreg|]. split; [exact Hsub|].
  split; [exact Huuid|]. split; [exact Hsome|]. exact (Hfetch Huuid Hsome).
Defined.

(** ** The notification bell *)

Section ClickFacts.

Import DashboardLayout.

Lemma mark_read_length (id : string) (l : list Notification.t) :
  length (mark_read id l) = length l.
Proof.
  unfold mark_read. apply List.length_map.
Qed.

Lemma mark_read_unread_le (id : string) (l : list Notification.t) :
  (unreadCount (mark_read id l) <= unreadCount l)%nat.
Proof.
  unfold unreadCount, mark_read.
  induction l as [|x l IH]; simpl; [lia|].
  destruct (String.eqb (Notification.id x) id); simpl;
    destruct (Notification.read x); simpl; lia.
Qed.

Lemma mark_read_reads (id : string) (l : list Notification.t) (n : Notification.t) :
  In n (mark_read id l) -> Notification.id n = id -> Notification.read n = true.
Proof.
  unfold mark_read. intros Hin Hid.
  apply List.in_map_iff in Hin as (x & Hx & _).
  destruct (String.eqb (Notification.id x) id) eqn:E.
  - now subst n.
  - subst n. apply String.eqb_neq in E. contradiction.
Qed.

Lemma mark_read_absent (id : string) (l : list Notification.t) :
  ~ In id (List.map Notification.id l) -> mark_read id l = l.
Proof.
  unfold mark_read.
  induction l as [|x l IH]; simpl; [reflexivity|].
  intros Hnot.
  destruct (String.eqb (Notification.id x) id) eqn:E.
  - apply String.eqb_eq in E. exfalso. apply Hnot. now left.
  - f_equal. apply IH. intros Hin. apply Hnot. now right.
Qed.

Lemma mark_read_one (l : list Notification.t) (n : Notification.t) :
  List.NoDup (List.map Notification.id l) -> In n l ->
  Notification.read n = false ->
  S (unreadCount (mark_read (Notification.id n) l)) = unreadCount l.
Proof.
  intros Hnodup Hin Hread.
  induction l as [|x l IH]; [destruct Hin|].
  simpl in Hnodup. apply List.NoDup_cons_iff in Hnodup as [Hx Hl].
  destruct Hin as [-> | Hin].
  - change (mark_read (Notification.id n) (n :: l))
      with ((if String.eqb (Notification.id n) (Notification.id n)
             then {| Notification.id := Notification.id n;
                     Notification.business_id := Notification.business_id n;
                     Notification.type := Notification.type n;
                     Notification.title := Notification.title n;
                     Notification.message := Notification.message n;
                     Notification.read := true;
                     Notification.created_at := Notification.created_at n;
                     Notification.related_id := Notification.related_id n |}
             else n) :: mark_read (Notification.id n) l).
    rewrite String.eqb_refl, (mark_read_absent _ _ Hx).
    unfold unreadCount. simpl. now rewrite Hread.
  - assert (Hne : String.eqb (Notification.id x) (Notification.id n) = false).
    { apply String.eqb_neq. intros E. apply Hx. rewrite E.
      now apply List.in_map. }
    specialize (IH Hl Hin).
    unfold unreadCount, mark_read in *. simpl. rewrite Hne.
    simpl. destruct (Notification.read x); simpl; lia.
Qed.

End ClickFacts.

(** X24. A click on a notification in the bell's list never fails, never
    changes the length of the list and never raises the unread count; on a
    notification that is already read it changes nothing.  For an unread
    notification with an identifier of the kind [crypto.randomUUID()] makes,
    the request going through the API client and the router of the mock:
    when the store does not hold the notification, the list and the store
    stay as they are; otherwise the stored notification and every entry of
    the list with its id become read, and the unread count drops by exactly
    one when the clicked notification is in the list and the ids of the
    list are distinct. *)
Theorem notification_click_marks_list_and_store :
  forall (randomUUID toISOString : nat -> string) (random : nat -> Q)
         (other_routes :
            MockApi.Route -> option MockApi.Body -> MockApi.World
            -> MockApi.Answer * MockApi.World)
         (notification : Notification.t) (notifications : list Notification.t)
         (w : MockApi.World),
    exists notifications' w',
      DashboardLayout.handleNotificationClick randomUUID toISOString random
        other_routes notification notifications w
      = (notifications', w')
      /\ length notifications' = length notifications
      /\ (DashboardLayout.unreadCount notifications'
          <= DashboardLayout.unreadCount notifications)%nat
      /\ (Notification.read notification = true ->
          notifications' = notifications /\ w' = w)
      /\ (Notification.read notification = false ->
          Js.uuid_chars (Notification.id notification) = true ->
          Notification.id notification <> "" ->
          (MockApi.notifications (MockApi.storage w)
           !! Notification.id notification = None ->
           notifications' = notifications
           /\ MockApi.storage w' = MockApi.storage w
           /\ MockApi.localStorage w' = MockApi.localStorage w)
          /\ forall stored,
              MockApi.notifications (MockApi.storage w)
              !! Notification.id notification = Some stored ->
              (exists stored',
                  MockApi.notifications (MockApi.storage w')
                  !! Notification.id notification = Some stored'
                  /\ Notification.read stored' = true)
              /\ (forall n, In n notifications' ->
                            Notification.id n = Notification.id notification ->
                            Notification.read n = true)
              /\ (In notification notifications ->
                  List.NoDup (List.map Notification.id notifications) ->
                  S (DashboardLayout.unreadCount notifications')
                  = DashboardLayout.unreadCount notifications)).
Proof.
  intros randomUUID toISOString random other_routes notification notifications w.
  unfold DashboardLayout.handleNotificationClick.
  destruct (Notification.read notification) eqn:Hread.
  { exists notifications, w. split; [reflexivity|]. split; [reflexivity|].
    split; [lia|]. split; [now intros _|]. discriminate. }
  destruct (Api.businessApi_markNotificationAsRead randomUUID toISOString random
              other_routes (Notification.id notification) w)
    as [[response|message] w'] eqn:Hcall.
  - eexists _, _. split; [reflexivity|].
    split; [apply mark_read_length|].
    split; [apply mark_read_unread_le|].
    split; [discriminate|].
    intros _ Hid Hsome.
    rewrite (businessApi_markNotificationAsRead_run randomUUID toISOString random
               other_routes _ w Hid Hsome) in Hcall.
    unfold MockApi.attempt in Hcall. split.
    + intros Hnone.
      rewrite (markNotificationAsRead_missing _ (MockApi.network_delay w) Hnone)
        in Hcall.
      discriminate.
    + intros stored Hstored.
      pose proof (markNotificationAsRead_run _ _ (MockApi.network_delay w) Hstored)
        as Hrun.
      cbv zeta in Hrun. rewrite Hrun in Hcall.
      injection Hcall as _ <-. split.
      { eexists. split.
        - cbn [MockApi.storage MockApi.notifications MockApi.with_notifications].
          apply lookup_insert_eq.
        - reflexivity. }
      split; [intros n; apply mark_read_reads|].
      intros Hin Hnodup. now apply mark_read_one.
  - eexists _, _. split; [reflexivity|]. split; [reflexivity|].
    split; [lia|]. split; [discriminate|].
    intros _ Hid Hsome.
    rewrite (businessApi_markNotificationAsRead_run randomUUID toISOString random
               other_routes _ w Hid Hsome) in Hcall.
    unfold MockApi.attempt in Hcall. split.
    + intros Hnone.
      rewrite (markNotificationAsRead_missing _ (MockApi.network_delay w) Hnone)
        in Hcall.
      injection Hcall as _ <-. repeat split; reflexivity.
    + intros stored Hstored.
      pose proof (markNotificationAsRead_run _ _ (MockApi.network_delay w) Hstored)
        as Hrun.
      cbv zeta in Hrun. rewrite Hrun in Hcall. discriminate.
Qed.

Lemma notification_click_marks_list_and_store_witness :
  exists app w0 n notifications' w',
    MockApi.submitApplication Samples.uuid Samples.toISOString
      Samples.random Samples.small_monthly_with_bvn Samples.fresh
    = MockApi.Returned (app, w0)
    /\ MockApi.notifications (MockApi.storage w0) !! Notification.id n = Some n
    /\ Notification.read n = false
    /\ Js.uuid_chars (Notification.id n) = true
    /\ Notification.id n <> ""
    /\ DashboardLayout.handleNotificationClick Samples.uuid Samples.toISOString
         Samples.random Samples.other_routes n [n] w0
       = (notifications', w')
    /\ S (DashboardLayout.unreadCount notifications')
       = DashboardLayout.unreadCount [n].
Proof.
  pose proof (submitApplication_run Samples.uuid Samples.toISOString
                Samples.random Samples.small_monthly_with_bvn Samples.fresh) as Hrun.
  cbv zeta in Hrun.
  assert (Hstored :
            forall (m : gmap string Notification.t) (k : string) (v : Notification.t),
              <[k := v]> m !! k = Some v) by (intros; apply lookup_insert_eq).
  match type of Hrun with
  | _ = MockApi.Returned (?app, ?w0) =>
      exists app, w0;
      match w0 with
      | context [<[_ := ?n]> _] =>
          exists n;
          destruct (notification_click_marks_list_and_store Samples.uuid
                      Samples.toISOString Samples.random Samples.other_routes
                      n [n] w0)
            as (notifications' & w' & Hclick & _ & _ & _ & Hunread)
      end
  end.
  exists notifications', w'. split; [exact Hrun|].
  split; [apply Hstored|]. split; [reflexivity|].
  assert (Hid : Js.uuid_chars (Samples.uuid 1) = true) by reflexivity.
  assert (Hsome : Samples.uuid 1 <> "") by discriminate.
  split; [exact Hid|]. split; [exact Hsome|].
  split; [exact Hclick|].
  refine (proj2 (proj2 (proj2 (Hunread eq_refl Hid Hsome) _ (Hstored _ _ _))) _ _).
  - now left.
  - apply List.NoDup_cons; [intros [] | apply List.NoDup_nil].
Defined.

(** ** How the score moves with the application *)

Section OrderFacts.

Lemma adjustment_antitone (a b : Q) :
  (a <= b)%Q -> Spec.amount_adjustment b <= Spec.amount_adjustment a.
Proof.
  intros Hab. unfold Spec.amount_adjustment.
  repeat match goal with
         | |- context [Qle_bool ?x ?y] =>
             let E := fresh "E" in
             destruct (Qle_bool x y) eqn:E;
             [apply Qle_bool_iff in E
             |assert (~ (x <= y)%Q) by (rewrite <- Qle_bool_iff; congruence);
              clear E]
         end;
    try lia; exfalso; lra.
Qed.

End OrderFacts.

(** X25. Of two applications that agree on whether a BVN is given and on
    the payment frequency, the one that asks for the larger amount never
    gets the higher score under the same random draw, and a higher score
    never gets a worse decision: when the larger one is approved so is the
    smaller one, and when the smaller one is declined so is the larger
    one. *)
Theorem larger_amount_never_scores_higher :
  forall (smaller larger : PaymentApplicationData.t) (rnd : Q),
    Js.truthy_string (PaymentApplicationData.customer_bvn smaller)
    = Js.truthy_string (PaymentApplicationData.customer_bvn larger) ->
    PaymentApplicationData.payment_frequency smaller
    = PaymentApplicationData.payment_frequency larger ->
    (MockApi.amount_of smaller <= MockApi.amount_of larger)%Q ->
    MockApi.calculateMockTrustScore larger rnd
    <= MockApi.calculateMockTrustScore smaller rnd
    /\ (MockApi.getStatusFromScore (MockApi.calculateMockTrustScore larger rnd)
        = approved ->
        MockApi.getStatusFromScore (MockApi.calculateMockTrustScore smaller rnd)
        = approved)
    /\ (MockApi.getStatusFromScore (MockApi.calculateMockTrustScore smaller rnd)
        = declined ->
        MockApi.getStatusFromScore (MockApi.calculateMockTrustScore larger rnd)
        = declined).
Proof.
  intros smaller larger rnd Hbvn Hfreq Hamount.
  assert (Hscore : MockApi.calculateMockTrustScore larger rnd
                   <= MockApi.calculateMockTrustScore smaller rnd).
  { unfold MockApi.calculateMockTrustScore, MockApi.score_before_jitter.
    rewrite !chain_is_adjustment, Hbvn, Hfreq.
    pose proof (adjustment_antitone _ _ Hamount).
    destruct (Js.truthy_string (PaymentApplicationData.customer_bvn larger));
      destruct (String.eqb (PaymentApplicationData.payment_frequency larger)
                           "monthly");
      lia. }
  split; [exact Hscore|].
  unfold MockApi.getStatusFromScore.
  split;
    destruct (Z.leb_spec 70 (MockApi.calculateMockTrustScore larger rnd));
    destruct (Z.leb_spec 70 (MockApi.calculateMockTrustScore smaller rnd));
    destruct (Z.leb_spec 40 (MockApi.calculateMockTrustScore larger rnd));
    destruct (Z.leb_spec 40 (MockApi.calculateMockTrustScore smaller rnd));
    intros Hstatus; try reflexivity; try discriminate; lia.
Qed.

Lemma larger_amount_never_scores_higher_witness :
  (MockApi.amount_of Samples.instalment_without_total
   <= MockApi.amount_of Samples.small_monthly_with_bvn)%Q
  /\ MockApi.calculateMockTrustScore Samples.small_monthly_with_bvn 0
     <= MockApi.calculateMockTrustScore Samples.instalment_without_total 0.
Proof.
  assert (Hamount : (MockApi.amount_of Samples.instalment_without_total
                     <= MockApi.amount_of Samples.small_monthly_with_bvn)%Q)
    by (vm_compute; discriminate).
  split; [exact Hamount|].
  exact (proj1 (larger_amount_never_scores_higher
                  Samples.instalment_without_total Samples.small_monthly_with_bvn 0
                  eq_refl eq_refl Hamount)).
Defined.

(** ** The steps of the payment form *)

Section StepFacts.

Import CustomerPaymentForm.

Variable toLocaleString : Q -> string.
Variable paymentType : PaymentType.
Variable paymentRules : option (CustomerPayment.PaymentRules Q).
Variable formData : FormData.

Lemma no_errors_empty (newErrors : gmap string string) :
  no_errors newErrors = true -> newErrors = ∅.
Proof.
  unfold no_errors. intros H. apply Nat.eqb_eq in H.
  now apply map_size_empty_iff.
Qed.

Lemma handleNext_keeps (wizard : Wizard) :
  steps_are_validated toLocaleString paymentType paymentRules formData wizard ->
  steps_are_validated toLocaleString paymentType paymentRules formData
    (handleNext toLocaleString paymentType paymentRules formData wizard).
Proof.
  unfold steps_are_validated, handleNext, validated.
  intros (Hrange & H1 & H2 & H3).
  destruct (Z.eqb_spec (currentStep wizard) 1) as [E1|N1].
  { destruct (no_errors (validateStep1 formData)) eqn:Hv; cbn [currentStep].
    - apply no_errors_empty in Hv. repeat split; intros; try lia; exact Hv.
    - repeat split; intros; lia. }
  destruct (Z.eqb_spec (currentStep wizard) 2) as [E2|N2].
  { destruct (no_errors (validateStep2 toLocaleString paymentType formData
                           paymentRules)) eqn:Hv; cbn [currentStep].
    - apply no_errors_empty in Hv.
      repeat split; intros; try lia; [apply H1; lia | exact Hv].
    - repeat split; intros; try lia. apply H1; lia. }
  destruct (Z.eqb_spec (currentStep wizard) 3) as [E3|N3].
  { destruct (no_errors (validateStep3 formData)) eqn:Hv; cbn [currentStep].
    - apply no_errors_empty in Hv.
      repeat split; intros; try lia; [apply H1; lia | apply H2; lia | exact Hv].
    - repeat split; intros; try lia; [apply H1; lia | apply H2; lia]. }
  repeat split; intros; try lia; auto.
Qed.

Lemma handleBack_keeps (wizard : Wizard) :
  steps_are_validated toLocaleString paymentType paymentRules formData wizard ->
  steps_are_validated toLocaleString paymentType paymentRules formData (handleBack wizard).
Proof.
  unfold steps_are_validated, handleBack.
  intros (Hrange & H1 & H2 & H3).
  destruct (Z.ltb_spec 1 (currentStep wizard)); cbn [currentStep];
    repeat split; intros; try lia; auto; [apply H1; lia | apply H2; lia].
Qed.

Lemma after_clicks_keeps (clicks : list Click) (wizard : Wizard) :
  steps_are_validated toLocaleString paymentType paymentRules formData wizard ->
  steps_are_validated toLocaleString paymentType paymentRules formData
    (after_clicks toLocaleString paymentType paymentRules formData clicks wizard).
Proof.
  unfold after_clicks. revert wizard.
  induction clicks as [|click clicks IH]; intros wizard Hwizard; [exact Hwizard|].
  cbn [List.fold_left]. apply IH.
  destruct click; [now apply handleNext_keeps | now apply handleBack_keeps].
Qed.

End StepFacts.

(** X28. The step of the payment form stays between 1 and 4 whatever is
    clicked, [Next] moves on by one step exactly when the validator of the
    current step reports no error (and does nothing on step 4), [Back]
    goes back by one step and never below 1.  With the form left as it is
    between the clicks, the page is on step 2 or later only if step 1
    validates, on step 3 or later only if step 2 validates too, and on the
    last step, where the application is submitted, only if all three do. *)
Theorem form_steps_are_validated :
  forall (toLocaleString : Q -> string) (paymentType : PaymentType)
         (paymentRules : option (CustomerPayment.PaymentRules Q))
         (formData : CustomerPaymentForm.FormData)
         (clicks : list CustomerPaymentForm.Click),
    let page :=
      CustomerPaymentForm.after_clicks toLocaleString paymentType paymentRules
        formData clicks CustomerPaymentForm.first_step in
    let next :=
      CustomerPaymentForm.handleNext toLocaleString paymentType paymentRules
        formData page in
    let back := CustomerPaymentForm.handleBack page in
    let valid :=
      match CustomerPaymentForm.currentStep page with
      | 1 => CustomerPaymentForm.validateStep1 formData = ∅
      | 2 => CustomerPaymentForm.validateStep2 toLocaleString paymentType formData
               paymentRules = ∅
      | 3 => CustomerPaymentForm.validateStep3 formData = ∅
      | _ => False
      end in
    1 <= CustomerPaymentForm.currentStep page <= 4
    /\ (2 <= CustomerPaymentForm.currentStep page ->
        CustomerPaymentForm.validateStep1 formData = ∅)
    /\ (3 <= CustomerPaymentForm.currentStep page ->
        CustomerPaymentForm.validateStep2 toLocaleString paymentType formData
          paymentRules = ∅)
    /\ (CustomerPaymentForm.currentStep page = 4 ->
        CustomerPaymentForm.validateStep3 formData = ∅)
    /\ (valid ->
        CustomerPaymentForm.currentStep next
        = CustomerPaymentForm.currentStep page + 1)
    /\ (~ valid ->
        CustomerPaymentForm.currentStep next = CustomerPaymentForm.currentStep page)
    /\ CustomerPaymentForm.currentStep back
       = Z.max 1 (CustomerPaymentForm.currentStep page - 1).
Proof.
  intros toLocaleString paymentType paymentRules formData clicks page next back valid.
  assert (Hpage : CustomerPaymentForm.steps_are_validated toLocaleString
                    paymentType paymentRules formData page).
  { apply after_clicks_keeps. unfold CustomerPaymentForm.steps_are_validated.
    cbn [CustomerPaymentForm.first_step CustomerPaymentForm.currentStep].
    repeat split; intros; lia. }
  destruct Hpage as (Hrange & H1 & H2 & H3).
  split; [exact Hrange|]. split; [exact H1|]. split; [exact H2|].
  split; [exact H3|].
  assert (Hsize : forall e : gmap string string,
             CustomerPaymentForm.no_errors e = true <-> e = ∅).
  { intros e. unfold CustomerPaymentForm.no_errors.
    rewrite Nat.eqb_eq. apply map_size_empty_iff. }
  assert (Hstep : CustomerPaymentForm.currentStep page = 1
                  \/ CustomerPaymentForm.currentStep page = 2
                  \/ CustomerPaymentForm.currentStep page = 3
                  \/ CustomerPaymentForm.currentStep page = 4) by lia.
  subst next back valid.
  unfold CustomerPaymentForm.handleNext, CustomerPaymentForm.handleBack,
    CustomerPaymentForm.validated.
  destruct Hstep as [E | [E | [E | E]]]; rewrite E;
    cbn [Z.eqb Z.ltb Z.compare Pos.compare Pos.compare_cont Pos.eqb];
    cbn [CustomerPaymentForm.currentStep];
    (split; [|split; [|try rewrite E; reflexivity]]).
  all: try match goal with
           | |- context [CustomerPaymentForm.no_errors ?e] =>
               destruct (CustomerPaymentForm.no_errors e) eqn:Hv;
               [apply Hsize in Hv
               |assert (e <> ∅) by (intros Hempty; apply Hsize in Hempty; congruence)]
           end.
  all: intros; try rewrite E; try reflexivity; try contradiction; try tauto.
Qed.

